(** * Stop-and-Wait, Go-Back-N and Selective Repeat ARQ simulations

    A shallow embedding of [stop_and_wait.py], [go_back_n.py] and
    [selective_repeat.py], and of [compare_protocols] of
    [arq_protocols_demo.py].  Every Python class is a module holding a record
    for the instance attributes and one function per method; methods that
    mutate [self], the receiver passed to them, or the process-wide random
    and clock state take and return those states explicitly.

    Conventions of the embedding:
    - Python [int] is [Z]; [a % b] is [Z.modulo] (same sign convention).
    - [random.random()] reads the next element of an oracle stream
      [rng : nat -> Q]; seeding the generator fixes that stream.
    - [time.time()] reads a logical clock; [time.sleep d] advances it by
      [d] plus the next element of the oracle [lag : nat -> Q], the extra
      wall-clock time that passed since the previous sleep.  Floats are
      idealised as rationals.
    - [dict]s that are only looked up, updated and deleted by key are
      [gmap]s; [individual_timers], whose iteration order is used, is an
      insertion-ordered association list; the [set] is a [gset].
    - [print] calls are dropped. *)

From Stdlib Require Import ZArith QArith Lia Ascii String.
From stdpp Require Import gmap strings list sorting.

Open Scope Z_scope.

(** ** The process-wide state: random generator position and clock *)

Record World := {
  drawn : nat;   (* number of random.random() calls so far *)
  slept : nat;   (* number of time.sleep() calls so far *)
  clock : Q      (* current reading of time.time() *)
}.

Definition World0 : World := {| drawn := 0; slept := 0; clock := 0%Q |}.

Definition Qlt_bool (x y : Q) : bool := negb (Qle_bool y x).

Section Oracle.
Variable rng : nat -> Q.
Variable lag : nat -> Q.

Definition random_random (w : World) : Q * World :=
  (rng (drawn w),
   {| drawn := S (drawn w); slept := slept w; clock := clock w |}).

Definition time_time (w : World) : Q := clock w.

Definition time_sleep (d : Q) (w : World) : World :=
  {| drawn := drawn w; slept := S (slept w);
     clock := Qred (clock w + d + lag (slept w)) |}.
End Oracle.

(** ** Frames (the same dataclass in the three files) *)

Inductive FrameType := DATA | ACK | NAK.

Definition ord (c : ascii) : Z := Z.of_N (Ascii.N_of_ascii c).

Fixpoint sum_ord (s : string) : Z :=
  match s with
  | EmptyString => 0
  | String c s' => ord c + sum_ord s'
  end.

Module Frame.

Record t := {
  seq_num : Z;
  frame_type : FrameType;
  data : string;
  checksum : Z
}.

Definition calculate_checksum (d : string) : Z := sum_ord d mod 256.

(** [Frame(seq, ty, d)] followed by [__post_init__]. *)
Definition make (seq : Z) (ty : FrameType) (d : string) : t :=
  {| seq_num := seq; frame_type := ty; data := d;
     checksum := match ty with DATA => calculate_checksum d | _ => 0 end |}.

Definition is_corrupted (rng : nat -> Q) (w : World) : bool * World :=
  let '(x, w) := random_random rng w in (Qlt_bool x (1 # 10), w).

End Frame.

(** The values of the dictionary returned by [get_statistics]. *)
Inductive StatValue :=
| SInt (n : Z)          (* an int *)
| SPercent1 (q : Q)     (* f"{q:.1f}%": [q] printed with one decimal and a percent sign *)
| SStr (s : string).    (* a string literal *)

(** The outcome of evaluating a Python call expression. *)
Inductive outcome (A : Type) :=
| Returned (a : A)
| Raised (message : string).
Arguments Returned {A} a.
Arguments Raised {A} message.

(** ** Insertion-ordered dictionaries (Python [dict] when iterated) *)

Module ODict.
Definition t (V : Type) := list (Z * V).

Fixpoint get {V} (k : Z) (d : t V) : option V :=
  match d with
  | [] => None
  | (k', v) :: d' => if Z.eqb k k' then Some v else get k d'
  end.

(** [d[k] = v]: an existing key keeps its position, a new one goes last. *)
Fixpoint set {V} (k : Z) (v : V) (d : t V) : t V :=
  match d with
  | [] => [(k, v)]
  | (k', v') :: d' =>
      if Z.eqb k k' then (k, v) :: d' else (k', v') :: set k v d'
  end.

(** [if k in d: del d[k]] *)
Fixpoint del {V} (k : Z) (d : t V) : t V :=
  match d with
  | [] => []
  | (k', v') :: d' => if Z.eqb k k' then del k d' else (k', v') :: del k d'
  end.
End ODict.

(** Entry of a sender window: [{'frame': .., 'timestamp': .., 'data': ..}]. *)
Record WinEntry := {
  we_frame : Frame.t;
  we_timestamp : Q;
  we_data : string
}.

(** ** selective_repeat.py *)

Module SelectiveRepeatReceiver.

Record t := {
  window_size : Z;
  base : Z;
  max_seq_num : Z;
  buffer : gmap Z string;
  received_frames : list string;
  total_frames_received : Z;
  frames_discarded : Z;
  duplicate_frames : Z
}.

Definition init (window_size : Z) : t :=
  {| window_size := window_size; base := 0; max_seq_num := 8;
     buffer := ∅; received_frames := [];
     total_frames_received := 0; frames_discarded := 0;
     duplicate_frames := 0 |}.

(** The call [SelectiveRepeatReceiver(window_size)]: [__init__] only
    assigns attributes. *)
Definition new (window_size : Z) : outcome t := Returned (init window_size).

Definition inc_total_frames_received (r : t) : t :=
  {| window_size := window_size r; base := base r;
     max_seq_num := max_seq_num r; buffer := buffer r;
     received_frames := received_frames r;
     total_frames_received := total_frames_received r + 1;
     frames_discarded := frames_discarded r;
     duplicate_frames := duplicate_frames r |}.

Definition inc_frames_discarded (r : t) : t :=
  {| window_size := window_size r; base := base r;
     max_seq_num := max_seq_num r; buffer := buffer r;
     received_frames := received_frames r;
     total_frames_received := total_frames_received r;
     frames_discarded := frames_discarded r + 1;
     duplicate_frames := duplicate_frames r |}.

Definition inc_duplicate_frames (r : t) : t :=
  {| window_size := window_size r; base := base r;
     max_seq_num := max_seq_num r; buffer := buffer r;
     received_frames := received_frames r;
     total_frames_received := total_frames_received r;
     frames_discarded := frames_discarded r;
     duplicate_frames := duplicate_frames r + 1 |}.

Definition set_buffer (b : gmap Z string) (r : t) : t :=
  {| window_size := window_size r; base := base r;
     max_seq_num := max_seq_num r; buffer := b;
     received_frames := received_frames r;
     total_frames_received := total_frames_received r;
     frames_discarded := frames_discarded r;
     duplicate_frames := duplicate_frames r |}.

Definition is_in_window (r : t) (seq : Z) : bool :=
  let window_end := (base r + window_size r - 1) mod max_seq_num r in
  if base r mod max_seq_num r <=? window_end
  then (base r mod max_seq_num r <=? seq) && (seq <=? window_end)
  else (base r mod max_seq_num r <=? seq) || (seq <=? window_end).

Definition is_already_delivered (r : t) (seq : Z) : bool :=
  seq <? base r mod max_seq_num r.

(** One pass of the body of the [while] loop of [deliver_frames]. *)
Definition deliver_one (d : string) (r : t) : t :=
  {| window_size := window_size r; base := base r + 1;
     max_seq_num := max_seq_num r;
     buffer := delete (base r mod max_seq_num r) (buffer r);
     received_frames := received_frames r ++ [d];
     total_frames_received := total_frames_received r;
     frames_discarded := frames_discarded r;
     duplicate_frames := duplicate_frames r |}.

(** [while self.base % self.max_seq_num in self.buffer: ...].  Every pass
    deletes a key of the buffer, so [size (buffer r)] passes suffice
    (lemma [sr_deliver_loop_exit] below). *)
Fixpoint deliver_loop (fuel : nat) (r : t) : t :=
  match fuel with
  | O => r
  | S fuel' =>
      match buffer r !! (base r mod max_seq_num r) with
      | Some d => deliver_loop fuel' (deliver_one d r)
      | None => r
      end
  end.

(** [delivered_acks] is created empty and never appended to. *)
Definition deliver_frames (r : t) : list Z * t :=
  ([], deliver_loop (size (buffer r)) r).

Definition send_ack (rng : nat -> Q) (seq : Z) (w : World) : bool * World :=
  let '(x, w) := random_random rng w in
  (negb (Qlt_bool x (1 # 10)), w).

Definition receive_frame (rng : nat -> Q) (f : Frame.t) (r : t) (w : World)
  : option (list Z) * t * World :=
  let r := inc_total_frames_received r in
  let '(x, w) := random_random rng w in
  if Qlt_bool x (15 # 100) then (None, r, w)
  else
    let '(c, w) := Frame.is_corrupted rng w in
    if c then (None, inc_frames_discarded r, w)
    else if is_in_window r (Frame.seq_num f) then
      let r :=
        match buffer r !! Frame.seq_num f with
        | Some _ => inc_duplicate_frames r
        | None => set_buffer (<[Frame.seq_num f := Frame.data f]> (buffer r)) r
        end in
      let '(ok, w) := send_ack rng (Frame.seq_num f) w in
      let ack_nums := if ok then [Frame.seq_num f] else [] in
      let '(delivered_frames, r) := deliver_frames r in
      (Some (ack_nums ++ delivered_frames), r, w)
    else if is_already_delivered r (Frame.seq_num f) then
      let '(ok, w) := send_ack rng (Frame.seq_num f) w in
      if ok then (Some [Frame.seq_num f], r, w) else (None, r, w)
    else (None, inc_frames_discarded r, w).

Definition get_received_data (r : t) : list string := received_frames r.

Definition get_statistics (r : t) : gmap string StatValue :=
  list_to_map
  [("frames_received"%string, SInt (total_frames_received r));
   ("frames_discarded"%string, SInt (frames_discarded r));
   ("duplicate_frames"%string, SInt (duplicate_frames r));
   ("frames_delivered"%string,
    SInt (Z.of_nat (length (received_frames r))));
   ("frames_buffered"%string, SInt (Z.of_nat (size (buffer r))))].

End SelectiveRepeatReceiver.

Module SelectiveRepeatSender.

Module R := SelectiveRepeatReceiver.

Record t := {
  window_size : Z;
  timeout : Q;
  base : Z;
  next_seq_num : Z;
  window : gmap Z WinEntry;
  ack_received : gset Z;
  data_buffer : list string;
  max_seq_num : Z;
  total_transmissions : Z;
  retransmissions : Z;
  individual_timers : ODict.t Q
}.

Definition init (window_size : Z) (timeout : Q) : t :=
  {| window_size := window_size; timeout := timeout; base := 0;
     next_seq_num := 0; window := ∅; ack_received := ∅;
     data_buffer := []; max_seq_num := 8; total_transmissions := 0;
     retransmissions := 0; individual_timers := [] |}.

(** The call [SelectiveRepeatSender(window_size, timeout)]: [__init__]
    only assigns attributes. *)
Definition new (window_size : Z) (timeout : Q) : outcome t :=
  Returned (init window_size timeout).

Definition set_base (b : Z) (s : t) : t :=
  {| window_size := window_size s; timeout := timeout s; base := b;
     next_seq_num := next_seq_num s; window := window s;
     ack_received := ack_received s; data_buffer := data_buffer s;
     max_seq_num := max_seq_num s;
     total_transmissions := total_transmissions s;
     retransmissions := retransmissions s;
     individual_timers := individual_timers s |}.

Definition set_next_seq_num (n : Z) (s : t) : t :=
  {| window_size := window_size s; timeout := timeout s; base := base s;
     next_seq_num := n; window := window s;
     ack_received := ack_received s; data_buffer := data_buffer s;
     max_seq_num := max_seq_num s;
     total_transmissions := total_transmissions s;
     retransmissions := retransmissions s;
     individual_timers := individual_timers s |}.

Definition set_window (m : gmap Z WinEntry) (s : t) : t :=
  {| window_size := window_size s; timeout := timeout s; base := base s;
     next_seq_num := next_seq_num s; window := m;
     ack_received := ack_received s; data_buffer := data_buffer s;
     max_seq_num := max_seq_num s;
     total_transmissions := total_transmissions s;
     retransmissions := retransmissions s;
     individual_timers := individual_timers s |}.

Definition set_ack_received (a : gset Z) (s : t) : t :=
  {| window_size := window_size s; timeout := timeout s; base := base s;
     next_seq_num := next_seq_num s; window := window s;
     ack_received := a; data_buffer := data_buffer s;
     max_seq_num := max_seq_num s;
     total_transmissions := total_transmissions s;
     retransmissions := retransmissions s;
     individual_timers := individual_timers s |}.

Definition set_data_buffer (b : list string) (s : t) : t :=
  {| window_size := window_size s; timeout := timeout s; base := base s;
     next_seq_num := next_seq_num s; window := window s;
     ack_received := ack_received s; data_buffer := b;
     max_seq_num := max_seq_num s;
     total_transmissions := total_transmissions s;
     retransmissions := retransmissions s;
     individual_timers := individual_timers s |}.

Definition set_total_transmissions (n : Z) (s : t) : t :=
  {| window_size := window_size s; timeout := timeout s; base := base s;
     next_seq_num := next_seq_num s; window := window s;
     ack_received := ack_received s; data_buffer := data_buffer s;
     max_seq_num := max_seq_num s;
     total_transmissions := n;
     retransmissions := retransmissions s;
     individual_timers := individual_timers s |}.

Definition set_retransmissions (n : Z) (s : t) : t :=
  {| window_size := window_size s; timeout := timeout s; base := base s;
     next_seq_num := next_seq_num s; window := window s;
     ack_received := ack_received s; data_buffer := data_buffer s;
     max_seq_num := max_seq_num s;
     total_transmissions := total_transmissions s;
     retransmissions := n;
     individual_timers := individual_timers s |}.

Definition set_individual_timers (d : ODict.t Q) (s : t) : t :=
  {| window_size := window_size s; timeout := timeout s; base := base s;
     next_seq_num := next_seq_num s; window := window s;
     ack_received := ack_received s; data_buffer := data_buffer s;
     max_seq_num := max_seq_num s;
     total_transmissions := total_transmissions s;
     retransmissions := retransmissions s;
     individual_timers := d |}.

Definition add_data (data_list : list string) (s : t) : t :=
  set_data_buffer (data_buffer s ++ data_list) s.

Definition can_send (s : t) : bool :=
  (next_seq_num s <? base s + window_size s)
  && (0 <? Z.of_nat (length (data_buffer s))).

(** The keys of the window whose modular number is [ack_num]. *)
Definition seq_nums_to_remove (ack_num : Z) (s : t) : list Z :=
  filter (λ k, k mod max_seq_num s = ack_num) (elements (dom (window s))).

Definition remove_frame (s : t) (k : Z) : t :=
  set_individual_timers (ODict.del k (individual_timers s))
    (set_window (delete k (window s)) s).

Definition process_ack (ack_num : Z) (s : t) : t :=
  let s := set_ack_received ({[ack_num]} ∪ ack_received s) s in
  foldl remove_frame s (seq_nums_to_remove ack_num s).

(** [if ack_nums: for ack_num in ack_nums: self.process_ack(ack_num)] *)
Definition process_acks (ack_nums : option (list Z)) (s : t) : t :=
  match ack_nums with
  | Some l => foldl (λ s a, process_ack a s) s l
  | None => s
  end.

(** [while self.base % self.max_seq_num in self.ack_received: ...]; every
    pass removes an element of the set. *)
Fixpoint slide_loop (fuel : nat) (s : t) : t :=
  match fuel with
  | O => s
  | S fuel' =>
      if decide (base s mod max_seq_num s ∈ ack_received s)
      then slide_loop fuel'
             (set_base (base s + 1)
                (set_ack_received
                   (ack_received s ∖ {[base s mod max_seq_num s]}) s))
      else s
  end.

Definition slide_window (s : t) : t :=
  slide_loop (size (ack_received s)) s.

(** The sender, the receiver handed to its methods and the process state. *)
Record State := {
  sender : t;
  receiver : R.t;
  world : World
}.

Section Oracle.
Variable rng : nat -> Q.
Variable lag : nat -> Q.

Definition selective_retransmit (seq : Z) (st : State) : State :=
  match window (sender st) !! seq with
  | None => st
  | Some frame_info =>
      let s := sender st in
      let frame := we_frame frame_info in
      let s := set_total_transmissions (total_transmissions s + 1) s in
      let s := set_retransmissions (retransmissions s + 1) s in
      let s :=
        set_window
          (<[seq := {| we_frame := we_frame frame_info;
                       we_timestamp := time_time (world st);
                       we_data := we_data frame_info |}]> (window s)) s in
      let s :=
        set_individual_timers
          (ODict.set seq (time_time (world st)) (individual_timers s)) s in
      let '(ack_nums, r, w) :=
        R.receive_frame rng frame (receiver st) (world st) in
      let s := process_acks ack_nums s in
      {| sender := s; receiver := r;
         world := time_sleep lag (1 # 10) w |}
  end.

Definition check_individual_timeouts (st : State) : State :=
  let current_time := time_time (world st) in
  let frames_to_retransmit :=
    map fst
      (filter (λ kt, Qlt_bool (timeout (sender st)) (current_time - kt.2) = true)
         (individual_timers (sender st))) in
  foldl
    (λ st k,
       match window (sender st) !! k with
       | Some _ => selective_retransmit k st
       | None => st
       end)
    st frames_to_retransmit.

(** One pass of the body of [while self.can_send()]. *)
Definition send_new_frame (d : string) (rest : list string) (st : State)
  : State :=
  let s := set_data_buffer rest (sender st) in
  let frame := Frame.make (next_seq_num s mod max_seq_num s) DATA d in
  let s :=
    set_window
      (<[next_seq_num s := {| we_frame := frame;
                              we_timestamp := time_time (world st);
                              we_data := d |}]> (window s)) s in
  let s :=
    set_individual_timers
      (ODict.set (next_seq_num s) (time_time (world st))
         (individual_timers s)) s in
  let s := set_total_transmissions (total_transmissions s + 1) s in
  let '(ack_nums, r, w) :=
    R.receive_frame rng frame (receiver st) (world st) in
  let s := process_acks ack_nums s in
  let s := set_next_seq_num (next_seq_num s + 1) s in
  {| sender := s; receiver := r; world := time_sleep lag (1 # 10) w |}.

(** [while self.can_send(): ...]; every pass pops the data buffer. *)
Fixpoint send_new_frames (fuel : nat) (st : State) : State :=
  match fuel with
  | O => st
  | S fuel' =>
      if can_send (sender st) then
        match data_buffer (sender st) with
        | d :: rest => send_new_frames fuel' (send_new_frame d rest st)
        | [] => st
        end
      else st
  end.

(** [self.data_buffer or self.window] *)
Definition busy (s : t) : bool :=
  negb (bool_decide (data_buffer s = []))
  || negb (bool_decide (window s = ∅)).

(** The body of the outer [while] of [send_frames] up to the [break]
    test; the boolean tells whether [break] is taken. *)
Definition pass (st : State) : bool * State :=
  let st := send_new_frames (length (data_buffer (sender st))) st in
  let st := check_individual_timeouts st in
  let st := {| sender := slide_window (sender st);
               receiver := receiver st; world := world st |} in
  (negb (busy (sender st)), st).

Definition pause (st : State) : State :=
  {| sender := sender st; receiver := receiver st;
     world := time_sleep lag (1 # 10) (world st) |}.

(** The state after at most [n] passes of the outer loop: the loop has
    no bound of its own, so the number of passes is a parameter. *)
Fixpoint passes (n : nat) (st : State) : State :=
  match n with
  | O => st
  | S n' =>
      if busy (sender st) then
        let '(brk, st') := pass st in
        if brk then st' else passes n' (pause st')
      else st
  end.

(** [send_frames]: [Some (True, st')] when the loop is left within
    [fuel] passes, [None] when it is still running after them. *)
Fixpoint send_frames (fuel : nat) (st : State) : option (bool * State) :=
  if busy (sender st) then
    match fuel with
    | O => None
    | S fuel' =>
        let '(brk, st') := pass st in
        if brk then Some (true, st') else send_frames fuel' (pause st')
    end
  else Some (true, st).

(** A fresh sender and receiver, [add_data payloads]. *)
Definition start (ws_sender ws_receiver : Z) (tmo : Q)
    (payloads : list string) : State :=
  {| sender := add_data payloads (init ws_sender tmo);
     receiver := R.init ws_receiver; world := World0 |}.

End Oracle.

Definition get_statistics (s : t) : gmap string StatValue :=
  list_to_map
  [("total_transmissions"%string, SInt (total_transmissions s));
   ("retransmissions"%string, SInt (retransmissions s));
   ("efficiency"%string,
    if 0 <? total_transmissions s
    then SPercent1
           (inject_Z (total_transmissions s - retransmissions s)
            / inject_Z (total_transmissions s) * 100)%Q
    else SStr "0%")].

End SelectiveRepeatSender.

(** ** go_back_n.py *)

Module GoBackNReceiver.

Record t := {
  expected_seq_num : Z;
  max_seq_num : Z;
  received_frames : list string;
  total_frames_received : Z;
  frames_discarded : Z
}.

Definition init : t :=
  {| expected_seq_num := 0; max_seq_num := 8; received_frames := [];
     total_frames_received := 0; frames_discarded := 0 |}.

Definition inc_total_frames_received (r : t) : t :=
  {| expected_seq_num := expected_seq_num r; max_seq_num := max_seq_num r;
     received_frames := received_frames r;
     total_frames_received := total_frames_received r + 1;
     frames_discarded := frames_discarded r |}.

Definition inc_frames_discarded (r : t) : t :=
  {| expected_seq_num := expected_seq_num r; max_seq_num := max_seq_num r;
     received_frames := received_frames r;
     total_frames_received := total_frames_received r;
     frames_discarded := frames_discarded r + 1 |}.

(** [self.received_frames.append(d); self.expected_seq_num += 1] *)
Definition accept (d : string) (r : t) : t :=
  {| expected_seq_num := expected_seq_num r + 1;
     max_seq_num := max_seq_num r;
     received_frames := received_frames r ++ [d];
     total_frames_received := total_frames_received r;
     frames_discarded := frames_discarded r |}.

Definition send_ack (rng : nat -> Q) (seq : Z) (w : World) : bool * World :=
  let '(x, w) := random_random rng w in
  (negb (Qlt_bool x (1 # 10)), w).

Definition receive_frame (rng : nat -> Q) (f : Frame.t) (r : t) (w : World)
  : option Z * t * World :=
  let r := inc_total_frames_received r in
  let '(x, w) := random_random rng w in
  if Qlt_bool x (15 # 100) then (None, r, w)
  else
    let '(c, w) := Frame.is_corrupted rng w in
    if c then (None, inc_frames_discarded r, w)
    else if Frame.seq_num f =? expected_seq_num r mod max_seq_num r then
      let r := accept (Frame.data f) r in
      let ack_num := Frame.seq_num f in
      let '(ok, w) := send_ack rng ack_num w in
      if ok then (Some ack_num, r, w) else (None, r, w)
    else
      let r := inc_frames_discarded r in
      if 0 <? expected_seq_num r then
        let last_correct_frame :=
          (expected_seq_num r - 1) mod max_seq_num r in
        let '(ok, w) := send_ack rng last_correct_frame w in
        if ok then (Some last_correct_frame, r, w) else (None, r, w)
      else (None, r, w).

Definition get_received_data (r : t) : list string := received_frames r.

Definition get_statistics (r : t) : gmap string StatValue :=
  list_to_map
  [("frames_received"%string, SInt (total_frames_received r));
   ("frames_discarded"%string, SInt (frames_discarded r));
   ("frames_accepted"%string,
    SInt (Z.of_nat (length (received_frames r))))].

End GoBackNReceiver.

(** [l[:n]] for a Python list. *)
Definition slice_to {A} (n : Z) (l : list A) : list A :=
  if 0 <=? n then take (Z.to_nat n) l
  else take (length l - Z.to_nat (- n)) l.

(** [max(l)] and [min(l)] of a non-empty list of ints. *)
Definition max_list (x : Z) (l : list Z) : Z := foldl Z.max x l.
Definition min_list (x : Z) (l : list Z) : Z := foldl Z.min x l.

Module GoBackNSender.

Module R := GoBackNReceiver.

Record t := {
  window_size : Z;
  timeout : Q;
  base : Z;
  next_seq_num : Z;
  window : gmap Z WinEntry;
  data_buffer : list string;
  max_seq_num : Z;
  total_transmissions : Z;
  retransmissions : Z;
  timer_active : bool;
  max_retransmissions : Z;
  total_retransmission_count : Z
}.

Definition init (window_size : Z) (timeout : Q) : t :=
  {| window_size := window_size; timeout := timeout; base := 0;
     next_seq_num := 0; window := ∅; data_buffer := [];
     max_seq_num := 8; total_transmissions := 0; retransmissions := 0;
     timer_active := false; max_retransmissions := 10;
     total_retransmission_count := 0 |}.

(** The call [GoBackNSender(window_size, timeout)]. *)
Definition new (window_size : Z) (timeout : Q) : outcome t :=
  Returned (init window_size timeout).

Definition set_base (b : Z) (s : t) : t :=
  {| window_size := window_size s; timeout := timeout s; base := b;
     next_seq_num := next_seq_num s; window := window s;
     data_buffer := data_buffer s; max_seq_num := max_seq_num s;
     total_transmissions := total_transmissions s;
     retransmissions := retransmissions s;
     timer_active := timer_active s;
     max_retransmissions := max_retransmissions s;
     total_retransmission_count := total_retransmission_count s |}.

Definition set_next_seq_num (n : Z) (s : t) : t :=
  {| window_size := window_size s; timeout := timeout s; base := base s;
     next_seq_num := n; window := window s;
     data_buffer := data_buffer s; max_seq_num := max_seq_num s;
     total_transmissions := total_transmissions s;
     retransmissions := retransmissions s;
     timer_active := timer_active s;
     max_retransmissions := max_retransmissions s;
     total_retransmission_count := total_retransmission_count s |}.

Definition set_window (m : gmap Z WinEntry) (s : t) : t :=
  {| window_size := window_size s; timeout := timeout s; base := base s;
     next_seq_num := next_seq_num s; window := m;
     data_buffer := data_buffer s; max_seq_num := max_seq_num s;
     total_transmissions := total_transmissions s;
     retransmissions := retransmissions s;
     timer_active := timer_active s;
     max_retransmissions := max_retransmissions s;
     total_retransmission_count := total_retransmission_count s |}.

Definition set_data_buffer (b : list string) (s : t) : t :=
  {| window_size := window_size s; timeout := timeout s; base := base s;
     next_seq_num := next_seq_num s; window := window s;
     data_buffer := b; max_seq_num := max_seq_num s;
     total_transmissions := total_transmissions s;
     retransmissions := retransmissions s;
     timer_active := timer_active s;
     max_retransmissions := max_retransmissions s;
     total_retransmission_count := total_retransmission_count s |}.

Definition set_total_transmissions (n : Z) (s : t) : t :=
  {| window_size := window_size s; timeout := timeout s; base := base s;
     next_seq_num := next_seq_num s; window := window s;
     data_buffer := data_buffer s; max_seq_num := max_seq_num s;
     total_transmissions := n;
     retransmissions := retransmissions s;
     timer_active := timer_active s;
     max_retransmissions := max_retransmissions s;
     total_retransmission_count := total_retransmission_count s |}.

(** [self.total_transmissions += 1; self.retransmissions += 1;
    self.total_retransmission_count += 1] *)
Definition count_retransmission (s : t) : t :=
  {| window_size := window_size s; timeout := timeout s; base := base s;
     next_seq_num := next_seq_num s; window := window s;
     data_buffer := data_buffer s; max_seq_num := max_seq_num s;
     total_transmissions := total_transmissions s + 1;
     retransmissions := retransmissions s + 1;
     timer_active := timer_active s;
     max_retransmissions := max_retransmissions s;
     total_retransmission_count := total_retransmission_count s + 1 |}.

Definition add_data (data_list : list string) (s : t) : t :=
  set_data_buffer (data_buffer s ++ data_list) s.

Definition can_send (s : t) : bool :=
  (next_seq_num s <? base s + window_size s)
  && (0 <? Z.of_nat (length (data_buffer s))).

Definition is_in_range (seq start end_ : Z) : bool :=
  if start <=? end_
  then (start <=? seq) && (seq <=? end_)
  else (start <=? seq) || (seq <=? end_).

Definition frames_to_remove (ack_num : Z) (s : t) : list Z :=
  filter (λ k, is_in_range k (base s) ack_num = true)
    (elements (dom (window s))).

Definition process_ack (ack_num : Z) (s : t) : t :=
  let to_remove := frames_to_remove ack_num s in
  let s := foldl (λ s k, set_window (delete k (window s)) s) s to_remove in
  match to_remove with
  | [] => s
  | k :: ks => set_base (max_list k ks + 1) s
  end.

Record State := {
  sender : t;
  receiver : R.t;
  world : World
}.

Section Oracle.
Variable rng : nat -> Q.
Variable lag : nat -> Q.

(** The [for] loop of [go_back_n_retransmit], with its [continue] and
    [break]. *)
Fixpoint retransmit_each (seqs : list Z) (st : State) : State :=
  match seqs with
  | [] => st
  | seq :: seqs' =>
      match window (sender st) !! seq with
      | None => retransmit_each seqs' st
      | Some frame_info =>
          let frame := we_frame frame_info in
          let s := count_retransmission (sender st) in
          if max_retransmissions s <=? total_retransmission_count s
          then {| sender := s; receiver := receiver st;
                  world := world st |}
          else
            let s :=
              set_window
                (<[seq := {| we_frame := we_frame frame_info;
                             we_timestamp := time_time (world st);
                             we_data := we_data frame_info |}]>
                   (window s)) s in
            let '(ack_num, r, w) :=
              R.receive_frame rng frame (receiver st) (world st) in
            let s :=
              match ack_num with
              | Some a => process_ack a s
              | None => s
              end in
            retransmit_each seqs'
              {| sender := s; receiver := r;
                 world := time_sleep lag (1 # 10) w |}
      end
  end.

Definition go_back_n_retransmit (failed_seq_num : Z) (st : State)
  : State :=
  let s := sender st in
  if max_retransmissions s <=? total_retransmission_count s then st
  else
    let frames_to_retransmit :=
      filter (λ k, failed_seq_num <= k)
        (merge_sort Z.le (elements (dom (window s)))) in
    let frames_to_retransmit :=
      slice_to (window_size s) frames_to_retransmit in
    retransmit_each frames_to_retransmit st.

Definition check_timeouts (st : State) : State :=
  let current_time := time_time (world st) in
  match elements (dom (window (sender st))) with
  | [] => st
  | k :: ks =>
      let oldest_unacked := min_list k ks in
      match window (sender st) !! oldest_unacked with
      | Some e =>
          if Qlt_bool (timeout (sender st))
               (current_time - we_timestamp e)
          then go_back_n_retransmit oldest_unacked st
          else st
      | None => st   (* unreachable: the key was just read *)
      end
  end.

Definition send_new_frame (d : string) (rest : list string) (st : State)
  : State :=
  let s := set_data_buffer rest (sender st) in
  let frame := Frame.make (next_seq_num s mod max_seq_num s) DATA d in
  let s :=
    set_window
      (<[next_seq_num s := {| we_frame := frame;
                              we_timestamp := time_time (world st);
                              we_data := d |}]> (window s)) s in
  let s := set_total_transmissions (total_transmissions s + 1) s in
  let '(ack_num, r, w) :=
    R.receive_frame rng frame (receiver st) (world st) in
  let s :=
    match ack_num with
    | Some a => process_ack a s
    | None => s
    end in
  let s := set_next_seq_num (next_seq_num s + 1) s in
  {| sender := s; receiver := r; world := time_sleep lag (1 # 10) w |}.

Fixpoint send_new_frames (fuel : nat) (st : State) : State :=
  match fuel with
  | O => st
  | S fuel' =>
      if can_send (sender st) then
        match data_buffer (sender st) with
        | d :: rest => send_new_frames fuel' (send_new_frame d rest st)
        | [] => st
        end
      else st
  end.

Definition busy (s : t) : bool :=
  negb (bool_decide (data_buffer s = []))
  || negb (bool_decide (window s = ∅)).

Definition max_iterations : Z := 500.

(** The outer [while] of [send_frames]; [iteration_count] is the value
    of the counter on entry.  The loop condition bounds the number of
    passes by [max_iterations - iteration_count], which is what [fuel]
    is set to by [send_frames]. *)
Fixpoint send_loop (fuel : nat) (iteration_count : Z) (st : State)
  : Z * State :=
  match fuel with
  | O => (iteration_count, st)
  | S fuel' =>
      if busy (sender st) && (iteration_count <? max_iterations) then
        let iteration_count := iteration_count + 1 in
        let st :=
          send_new_frames (length (data_buffer (sender st))) st in
        let st :=
          if iteration_count mod 3 =? 0 then check_timeouts st else st in
        if negb (busy (sender st)) then (iteration_count, st)
        else
          send_loop fuel' iteration_count
            {| sender := sender st; receiver := receiver st;
               world := time_sleep lag (5 # 100) (world st) |}
      else (iteration_count, st)
  end.

Definition send_frames (st : State) : bool * State :=
  (true, (send_loop (Z.to_nat max_iterations) 0 st).2).

Definition start (ws : Z) (tmo : Q) (payloads : list string) : State :=
  {| sender := add_data payloads (init ws tmo);
     receiver := R.init; world := World0 |}.

End Oracle.

Definition get_statistics (s : t) : gmap string StatValue :=
  list_to_map
  [("total_transmissions"%string, SInt (total_transmissions s));
   ("retransmissions"%string, SInt (retransmissions s));
   ("efficiency"%string,
    if 0 <? total_transmissions s
    then SPercent1
           (inject_Z (total_transmissions s - retransmissions s)
            / inject_Z (total_transmissions s) * 100)%Q
    else SStr "0%")].

End GoBackNSender.

(** ** stop_and_wait.py *)

Module StopAndWaitReceiver.

Record t := {
  expected_seq_num : Z;
  received_frames : list string
}.

Definition init : t := {| expected_seq_num := 0; received_frames := [] |}.

Definition send_ack (rng : nat -> Q) (seq : Z) (w : World) : bool * World :=
  let '(x, w) := random_random rng w in
  (negb (Qlt_bool x (1 # 10)), w).

(** [send_nak] only prints. *)
Definition send_nak (seq : Z) (w : World) : World := w.

Definition receive_frame (rng : nat -> Q) (f : Frame.t) (r : t) (w : World)
  : bool * t * World :=
  let '(x, w) := random_random rng w in
  if Qlt_bool x (2 # 10) then (false, r, w)
  else
    let '(c, w) := Frame.is_corrupted rng w in
    if c then (false, r, send_nak (Frame.seq_num f) w)
    else if Frame.seq_num f =? expected_seq_num r then
      let r := {| expected_seq_num := 1 - expected_seq_num r;
                  received_frames := received_frames r ++ [Frame.data f] |} in
      let '(_, w) := send_ack rng (Frame.seq_num f) w in
      (true, r, w)
    else
      let '(_, w) := send_ack rng (1 - expected_seq_num r) w in
      (true, r, w).

Definition get_received_data (r : t) : list string := received_frames r.

End StopAndWaitReceiver.

Module StopAndWaitSender.

Module R := StopAndWaitReceiver.

Record t := {
  timeout : Q;
  seq_num : Z;
  waiting_for_ack : bool;
  current_frame : option Frame.t;
  retransmission_count : Z;
  total_transmissions : Z
}.

Definition init (timeout : Q) : t :=
  {| timeout := timeout; seq_num := 0; waiting_for_ack := false;
     current_frame := None; retransmission_count := 0;
     total_transmissions := 0 |}.

(** The call [StopAndWaitSender(timeout)]. *)
Definition new (timeout : Q) : outcome t := Returned (init timeout).

Record State := {
  sender : t;
  receiver : R.t;
  world : World
}.

Section Oracle.
Variable rng : nat -> Q.
Variable lag : nat -> Q.

(** The [while] loop of [send_frame] and the [return False] after it.
    Every pass that does not return increments
    [retransmission_count], so [5 - retransmission_count] passes
    suffice. *)
Fixpoint attempts (fuel : nat) (frame : Frame.t) (st : State)
  : bool * State :=
  match fuel with
  | O => (false, st)
  | S fuel' =>
      let s := sender st in
      if waiting_for_ack s && (retransmission_count s <? 5) then
        let s :=
          {| timeout := timeout s; seq_num := seq_num s;
             waiting_for_ack := waiting_for_ack s;
             current_frame := current_frame s;
             retransmission_count := retransmission_count s;
             total_transmissions := total_transmissions s + 1 |} in
        let w := time_sleep lag (1 # 10) (world st) in
        let '(ack_received, r, w) :=
          R.receive_frame rng frame (receiver st) w in
        if ack_received then
          (true,
           {| sender :=
                {| timeout := timeout s; seq_num := 1 - seq_num s;
                   waiting_for_ack := false;
                   current_frame := current_frame s;
                   retransmission_count := retransmission_count s;
                   total_transmissions := total_transmissions s |};
              receiver := r; world := w |})
        else
          attempts fuel' frame
            {| sender :=
                 {| timeout := timeout s; seq_num := seq_num s;
                    waiting_for_ack := waiting_for_ack s;
                    current_frame := current_frame s;
                    retransmission_count := retransmission_count s + 1;
                    total_transmissions := total_transmissions s |};
               receiver := r;
               world := time_sleep lag (timeout s) w |}
      else (false, st)
  end.

Definition send_frame (d : string) (st : State) : bool * State :=
  let s := sender st in
  let frame := Frame.make (seq_num s) DATA d in
  let s :=
    {| timeout := timeout s; seq_num := seq_num s;
       waiting_for_ack := true; current_frame := Some frame;
       retransmission_count := 0;
       total_transmissions := total_transmissions s |} in
  attempts 5 frame
    {| sender := s; receiver := receiver st; world := world st |}.

(** The driver of [demonstrate_stop_and_wait]: one [send_frame] per
    payload, counting the successful ones. *)
Fixpoint send_all (payloads : list string) (successful : Z) (st : State)
  : Z * State :=
  match payloads with
  | [] => (successful, st)
  | d :: rest =>
      let '(ok, st) := send_frame d st in
      let successful := if ok then successful + 1 else successful in
      send_all rest successful
        {| sender := sender st; receiver := receiver st;
           world := time_sleep lag (1 # 2) (world st) |}
  end.

Definition start (tmo : Q) : State :=
  {| sender := init tmo; receiver := R.init; world := World0 |}.

End Oracle.

Definition get_statistics (s : t) : gmap string StatValue :=
  list_to_map
  [("total_transmissions"%string, SInt (total_transmissions s));
   ("efficiency"%string,
    if 0 <? total_transmissions s
    then SPercent1 (1 / inject_Z (total_transmissions s) * 100)%Q
    else SStr "0%")].

End StopAndWaitSender.

(** ** arq_protocols_demo.py *)

Module ArqProtocolsDemo.

(** The values stored in the entries of [protocols_results]. *)
Inductive Value :=
| VFloat (q : Q)          (* a float: a difference of clock readings *)
| VInt (n : Z)            (* an int computed by [compare_protocols] *)
| VStat (v : StatValue).  (* a value read from a statistics dictionary *)

(** A dictionary literal with string keys, in insertion order. *)
Definition Dict (V : Type) := list (string * V).

(** A call that may still be running ([None]), raise or return. *)
Definition M (A : Type) : Type := option (outcome A).

Definition ret {A} (a : A) : M A := Some (Returned a).

Definition bind {A B} (m : M A) (k : A -> M B) : M B :=
  match m with
  | None => None
  | Some (Raised e) => Some (Raised e)
  | Some (Returned a) => k a
  end.

Notation "x <- m ;; k" := (bind m (fun x => k))
  (at level 100, m at next level, right associativity).

(** [d[key]] for a dictionary returned by [get_statistics]. *)
Definition getitem (d : gmap string StatValue) (key : string)
  : M StatValue :=
  match d !! key with
  | Some v => ret v
  | None => Some (Raised "KeyError")
  end.

(** [random.seed(42)]: the generator restarts its stream. *)
Definition random_seed (w : World) : World :=
  {| drawn := 0; slept := slept w; clock := clock w |}.

Definition test_data : list string :=
  ["Data1"; "Data2"; "Data3"; "Data4"; "Data5";
   "Data6"; "Data7"; "Data8"; "Data9"; "Data10"]%string.

Definition window_size : Z := 4.

Section Oracle.
Variable rng : nat -> Q.
Variable lag : nat -> Q.

(** [for data in test_data: if sw_sender.send_frame(data, sw_receiver):
    successful += 1; time.sleep(0.1)] *)
Fixpoint send_each (data_list : list string) (successful : Z)
    (st : StopAndWaitSender.State) : Z * StopAndWaitSender.State :=
  match data_list with
  | [] => (successful, st)
  | data :: rest =>
      let '(ok, st) := StopAndWaitSender.send_frame rng lag data st in
      let successful := if ok then successful + 1 else successful in
      send_each rest successful
        {| StopAndWaitSender.sender := StopAndWaitSender.sender st;
           StopAndWaitSender.receiver := StopAndWaitSender.receiver st;
           StopAndWaitSender.world :=
             time_sleep lag (1 # 10) (StopAndWaitSender.world st) |}
  end.

(** The Stop-and-Wait part: the entry of the results and the process
    state it leaves. *)
Definition compare_stop_and_wait (w : World) : M (Dict Value * World) :=
  let w := random_seed w in
  let start_time := time_time w in
  let '(successful, st) :=
    send_each test_data 0
      {| StopAndWaitSender.sender := StopAndWaitSender.init 1;
         StopAndWaitSender.receiver := StopAndWaitReceiver.init;
         StopAndWaitSender.world := w |} in
  let w := StopAndWaitSender.world st in
  let sw_time := (time_time w - start_time)%Q in
  let sw_stats :=
    StopAndWaitSender.get_statistics (StopAndWaitSender.sender st) in
  transmissions <- getitem sw_stats "total_transmissions" ;;
  efficiency <- getitem sw_stats "efficiency" ;;
  ret ([("time"%string, VFloat sw_time);
        ("successful"%string, VInt successful);
        ("total_frames"%string, VInt (Z.of_nat (length test_data)));
        ("transmissions"%string, VStat transmissions);
        ("efficiency"%string, VStat efficiency);
        ("received_data"%string,
         VInt (Z.of_nat
                 (length (StopAndWaitReceiver.get_received_data
                            (StopAndWaitSender.receiver st)))))],
       w).

Definition compare_go_back_n (w : World) : M (Dict Value * World) :=
  let w := random_seed w in
  let start_time := time_time w in
  let '(_, st) :=
    GoBackNSender.send_frames rng lag
      {| GoBackNSender.sender :=
           GoBackNSender.add_data test_data
             (GoBackNSender.init window_size 1);
         GoBackNSender.receiver := GoBackNReceiver.init;
         GoBackNSender.world := w |} in
  let w := GoBackNSender.world st in
  let gbn_time := (time_time w - start_time)%Q in
  let gbn_stats := GoBackNSender.get_statistics (GoBackNSender.sender st) in
  let gbn_recv_stats :=
    GoBackNReceiver.get_statistics (GoBackNSender.receiver st) in
  successful <- getitem gbn_recv_stats "frames_accepted" ;;
  transmissions <- getitem gbn_stats "total_transmissions" ;;
  retransmissions <- getitem gbn_stats "retransmissions" ;;
  efficiency <- getitem gbn_stats "efficiency" ;;
  ret ([("time"%string, VFloat gbn_time);
        ("successful"%string, VStat successful);
        ("total_frames"%string, VInt (Z.of_nat (length test_data)));
        ("transmissions"%string, VStat transmissions);
        ("retransmissions"%string, VStat retransmissions);
        ("efficiency"%string, VStat efficiency);
        ("received_data"%string,
         VInt (Z.of_nat
                 (length (GoBackNReceiver.get_received_data
                            (GoBackNSender.receiver st)))))],
       w).

(** The Selective Repeat part; [fuel] bounds the passes of the unbounded
    loop of [send_frames] that are followed. *)
Definition compare_selective_repeat (fuel : nat) (w : World)
  : M (Dict Value * World) :=
  let w := random_seed w in
  let start_time := time_time w in
  match
    SelectiveRepeatSender.send_frames rng lag fuel
      {| SelectiveRepeatSender.sender :=
           SelectiveRepeatSender.add_data test_data
             (SelectiveRepeatSender.init window_size 1);
         SelectiveRepeatSender.receiver :=
           SelectiveRepeatReceiver.init window_size;
         SelectiveRepeatSender.world := w |}
  with
  | None => None
  | Some (_, st) =>
      let w := SelectiveRepeatSender.world st in
      let sr_time := (time_time w - start_time)%Q in
      let sr_stats :=
        SelectiveRepeatSender.get_statistics
          (SelectiveRepeatSender.sender st) in
      let sr_recv_stats :=
        SelectiveRepeatReceiver.get_statistics
          (SelectiveRepeatSender.receiver st) in
      successful <- getitem sr_recv_stats "frames_delivered" ;;
      transmissions <- getitem sr_stats "total_transmissions" ;;
      retransmissions <- getitem sr_stats "retransmissions" ;;
      efficiency <- getitem sr_stats "efficiency" ;;
      ret ([("time"%string, VFloat sr_time);
            ("successful"%string, VStat successful);
            ("total_frames"%string, VInt (Z.of_nat (length test_data)));
            ("transmissions"%string, VStat transmissions);
            ("retransmissions"%string, VStat retransmissions);
            ("efficiency"%string, VStat efficiency);
            ("received_data"%string,
             VInt (Z.of_nat
                     (length (SelectiveRepeatReceiver.get_received_data
                                (SelectiveRepeatSender.receiver st)))))],
           w)
  end.

(** [compare_protocols()], called in process state [w]: the three runs
    one after the other, each after [random.seed(42)], and the returned
    [protocols_results]. *)
Definition compare_protocols (fuel : nat) (w : World)
  : M (Dict (Dict Value)) :=
  sw <- compare_stop_and_wait w ;;
  gbn <- compare_go_back_n sw.2 ;;
  sr <- compare_selective_repeat fuel gbn.2 ;;
  ret [("Stop-and-Wait"%string, sw.1);
       ("Go-Back-N"%string, gbn.1);
       ("Selective Repeat"%string, sr.1)].

End Oracle.

End ArqProtocolsDemo.

(** * Properties *)

Module SRR := SelectiveRepeatReceiver.
Module SRS := SelectiveRepeatSender.
Module GBR := GoBackNReceiver.
Module GBS := GoBackNSender.
Module SWR := StopAndWaitReceiver.
Module SWS := StopAndWaitSender.

(** ** Construction *)

(** C7, as the code has it: constructing a sender or receiver never fails,
    whatever the window size and timeout, and stores both unchanged; no
    constructor validates its arguments. *)
Theorem construction_always_succeeds (ws : Z) (tmo : Q) :
  (SRS.new ws tmo = Returned (SRS.init ws tmo)
   /\ SRS.window_size (SRS.init ws tmo) = ws
   /\ SRS.timeout (SRS.init ws tmo) = tmo)
  /\ (SRR.new ws = Returned (SRR.init ws)
      /\ SRR.window_size (SRR.init ws) = ws)
  /\ (GBS.new ws tmo = Returned (GBS.init ws tmo)
      /\ GBS.window_size (GBS.init ws tmo) = ws
      /\ GBS.timeout (GBS.init ws tmo) = tmo)
  /\ (SWS.new tmo = Returned (SWS.init tmo)
      /\ SWS.timeout (SWS.init tmo) = tmo).
Proof. repeat split. Qed.

(** C7 fails on the code: a Selective Repeat sender with window size 5,
    more than half of the sequence space of 8, is constructed without an
    error, and so are senders with the negative timeout [-1]. *)
Lemma construction_accepts_invalid_configuration :
  5 > SRS.max_seq_num (SRS.init 5 2) / 2
  /\ SRS.new 5 2 = Returned (SRS.init 5 2)
  /\ GBS.new 5 2 = Returned (GBS.init 5 2)
  /\ (-1 < 0)%Q
  /\ SRS.new 4 (-1) = Returned (SRS.init 4 (-1))
  /\ GBS.new 4 (-1) = Returned (GBS.init 4 (-1))
  /\ SWS.new (-1) = Returned (SWS.init (-1)).
Proof. repeat split. Qed.

(** ** Statistics *)

(** C9, amended: the Go-Back-N and Selective Repeat senders report the
    total, the retransmissions and the efficiency
    [(total - retransmissions) / total * 100] (printed with one decimal);
    the Stop-and-Wait sender reports the total and an efficiency entry but
    no retransmission count. *)
Theorem get_statistics_entries :
  (forall s : SRS.t, 0 < SRS.total_transmissions s ->
     SRS.get_statistics s !! "total_transmissions"%string
       = Some (SInt (SRS.total_transmissions s))
     /\ SRS.get_statistics s !! "retransmissions"%string
       = Some (SInt (SRS.retransmissions s))
     /\ SRS.get_statistics s !! "efficiency"%string
       = Some (SPercent1
                 (inject_Z (SRS.total_transmissions s - SRS.retransmissions s)
                  / inject_Z (SRS.total_transmissions s) * 100)%Q))
  /\ (forall s : GBS.t, 0 < GBS.total_transmissions s ->
     GBS.get_statistics s !! "total_transmissions"%string
       = Some (SInt (GBS.total_transmissions s))
     /\ GBS.get_statistics s !! "retransmissions"%string
       = Some (SInt (GBS.retransmissions s))
     /\ GBS.get_statistics s !! "efficiency"%string
       = Some (SPercent1
                 (inject_Z (GBS.total_transmissions s - GBS.retransmissions s)
                  / inject_Z (GBS.total_transmissions s) * 100)%Q))
  /\ (forall s : SWS.t, 0 < SWS.total_transmissions s ->
     SWS.get_statistics s !! "total_transmissions"%string
       = Some (SInt (SWS.total_transmissions s))
     /\ SWS.get_statistics s !! "retransmissions"%string = None
     /\ exists q, SWS.get_statistics s !! "efficiency"%string
                  = Some (SPercent1 q)).
Proof.
  split; [|split]; intros s Hpos; apply Z.ltb_lt in Hpos.
  - unfold SRS.get_statistics. rewrite Hpos.
    cbn [list_to_map foldr uncurry].
    split; [|split].
    + by rewrite lookup_insert_eq.
    + rewrite lookup_insert_ne by done. by rewrite lookup_insert_eq.
    + do 2 (rewrite lookup_insert_ne by done). by rewrite lookup_insert_eq.
  - unfold GBS.get_statistics. rewrite Hpos.
    cbn [list_to_map foldr uncurry].
    split; [|split].
    + by rewrite lookup_insert_eq.
    + rewrite lookup_insert_ne by done. by rewrite lookup_insert_eq.
    + do 2 (rewrite lookup_insert_ne by done). by rewrite lookup_insert_eq.
  - unfold SWS.get_statistics. rewrite Hpos.
    cbn [list_to_map foldr uncurry].
    split; [|split].
    + by rewrite lookup_insert_eq.
    + do 2 (rewrite lookup_insert_ne by done). apply lookup_empty.
    + eexists. rewrite lookup_insert_ne by done. by rewrite lookup_insert_eq.
Qed.

Lemma get_statistics_entries_witness :
  SRS.get_statistics
    (SRS.set_retransmissions 1 (SRS.set_total_transmissions 4 (SRS.init 4 2)))
    !! "efficiency"%string
  = Some (SPercent1 (inject_Z (4 - 1) / inject_Z 4 * 100)%Q).
Proof.
  apply (proj1 get_statistics_entries
           (SRS.set_retransmissions 1
              (SRS.set_total_transmissions 4 (SRS.init 4 2)))).
  simpl. lia.
Defined.

(** C9 fails on the code for the Stop-and-Wait sender: after two payloads
    sent once each, [get_statistics] has no retransmission count and its
    efficiency entry is [1 / total * 100 = 50], not
    [(total - retransmissions) / total * 100 = 100]. *)
Lemma get_statistics_stop_and_wait_differs :
  let s :=
    SWS.sender
      (SWS.send_all (fun _ => 1 # 2)%Q (fun _ => 0%Q)
         ["a"; "b"]%string 0 (SWS.start 2)).2 in
  SWS.total_transmissions s = 2
  /\ SWS.retransmission_count s = 0
  /\ SWS.get_statistics s !! "retransmissions"%string = None
  /\ SWS.get_statistics s !! "efficiency"%string = Some (SPercent1 (100 # 2))
  /\ Qeq_bool (100 # 2) (inject_Z (2 - 0) / inject_Z 2 * 100) = false.
Proof. vm_compute. repeat split. Qed.

(** ** Frames outside the receive window (Selective Repeat receiver) *)



(** ** Stop-and-Wait: a lost acknowledgment *)

Lemma sw_attempts_unfold (rng lag : nat -> Q) (n : nat) (frame : Frame.t)
    (st : SWS.State) :
  SWS.attempts rng lag (S n) frame st =
  let s := SWS.sender st in
  if SWS.waiting_for_ack s && (SWS.retransmission_count s <? 5) then
    let s1 :=
      {| SWS.timeout := SWS.timeout s; SWS.seq_num := SWS.seq_num s;
         SWS.waiting_for_ack := SWS.waiting_for_ack s;
         SWS.current_frame := SWS.current_frame s;
         SWS.retransmission_count := SWS.retransmission_count s;
         SWS.total_transmissions := SWS.total_transmissions s + 1 |} in
    let w := time_sleep lag (1 # 10) (SWS.world st) in
    let '(ack_received, r, w) :=
      SWR.receive_frame rng frame (SWS.receiver st) w in
    if ack_received then
      (true,
       {| SWS.sender :=
            {| SWS.timeout := SWS.timeout s1;
               SWS.seq_num := 1 - SWS.seq_num s1;
               SWS.waiting_for_ack := false;
               SWS.current_frame := SWS.current_frame s1;
               SWS.retransmission_count := SWS.retransmission_count s1;
               SWS.total_transmissions := SWS.total_transmissions s1 |};
          SWS.receiver := r; SWS.world := w |})
    else
      SWS.attempts rng lag n frame
        {| SWS.sender :=
             {| SWS.timeout := SWS.timeout s1; SWS.seq_num := SWS.seq_num s1;
                SWS.waiting_for_ack := SWS.waiting_for_ack s1;
                SWS.current_frame := SWS.current_frame s1;
                SWS.retransmission_count := SWS.retransmission_count s1 + 1;
                SWS.total_transmissions := SWS.total_transmissions s1 |};
           SWS.receiver := r;
           SWS.world := time_sleep lag (SWS.timeout s1) w |}
  else (false, st).
Proof. reflexivity. Qed.

(** C8 at its failing input: when the frame arrives intact and the
    receiver's ACK is lost (the third draw is below 0.1, so [send_ack]
    returns [False]), [receive_frame] still returns [True]; [send_frame]
    returns [True] at that first attempt and the retry counter stays 0. *)
Theorem send_frame_ignores_lost_ack
    (rng lag : nat -> Q) (d : string) (st : SWS.State) :
  Qlt_bool (rng (drawn (SWS.world st))) (2 # 10) = false ->
  Qlt_bool (rng (S (drawn (SWS.world st)))) (1 # 10) = false ->
  Qlt_bool (rng (S (S (drawn (SWS.world st))))) (1 # 10) = true ->
  let '(ok, st') := SWS.send_frame rng lag d st in
  ok = true
  /\ SWS.retransmission_count (SWS.sender st') = 0
  /\ SWS.total_transmissions (SWS.sender st')
     = SWS.total_transmissions (SWS.sender st) + 1.
Proof.
  intros Hlost Hcorr _.
  unfold SWS.send_frame. rewrite sw_attempts_unfold.
  cbn [SWS.sender SWS.receiver SWS.world SWS.waiting_for_ack
       SWS.retransmission_count SWS.total_transmissions SWS.timeout
       SWS.seq_num SWS.current_frame andb].
  change (0 <? 5) with true. cbv iota.
  unfold SWR.receive_frame, Frame.is_corrupted, SWR.send_ack, SWR.send_nak,
    random_random, time_sleep.
  cbn [drawn]. rewrite Hlost, Hcorr.
  destruct (Frame.seq_num _ =? SWR.expected_seq_num _);
    cbn [SWS.sender SWS.retransmission_count SWS.total_transmissions];
    repeat split.
Qed.

Lemma send_frame_ignores_lost_ack_witness :
  let rng := (fun n : nat => if (n =? 2)%nat then 0 else 1 # 2)%Q in
  let lag := (fun _ : nat => 0%Q) in
  let st := SWS.start 2 in
  Qlt_bool (rng (drawn (SWS.world st))) (2 # 10) = false
  /\ Qlt_bool (rng (S (drawn (SWS.world st)))) (1 # 10) = false
  /\ Qlt_bool (rng (S (S (drawn (SWS.world st))))) (1 # 10) = true
  /\ let '(ok, st') := SWS.send_frame rng lag "Hello" st in
     ok = true
     /\ SWS.retransmission_count (SWS.sender st') = 0
     /\ SWS.total_transmissions (SWS.sender st')
        = SWS.total_transmissions (SWS.sender st) + 1.
Proof.
  intros rng lag st.
  split; [reflexivity|]. split; [reflexivity|]. split; [reflexivity|].
  apply (send_frame_ignores_lost_ack rng lag "Hello" st); reflexivity.
Defined.

(** ** Go-Back-N: cumulative acknowledgment *)

(** C5 at its failing input: three payloads, window size 4, the second
    frame lost.  After the first two transmissions the sender has [base = 1]
    and frame 1 outstanding; frame 2 is put in the window and sent, the
    receiver (still expecting 1) re-acknowledges 0, and [process_ack 0]
    retires frames 1 and 2, which were never delivered, and moves [base] to
    3.  The run ends with an empty window and only the first payload
    delivered. *)
Theorem process_ack_retires_undelivered_frames :
  let rng := (fun n : nat => if (n =? 3)%nat then 0 else 1 # 2)%Q in
  let lag := (fun _ : nat => 0%Q) in
  let payloads := ["p0"; "p1"; "p2"]%string in
  let st := GBS.send_new_frames rng lag 2 (GBS.start 4 2 payloads) in
  let s :=
    GBS.set_window
      (<[2 := {| we_frame := Frame.make 2 DATA "p2";
                 we_timestamp := 0; we_data := "p2" |}]>
         (GBS.window (GBS.sender st))) (GBS.sender st) in
  let final := (GBS.send_frames rng lag (GBS.start 4 2 payloads)).2 in
  GBS.base s = 1
  /\ dom (GBS.window s) = {[1; 2]}
  /\ GBR.received_frames (GBS.receiver st) = ["p0"]%string
  /\ GBR.expected_seq_num (GBS.receiver st) = 1
  /\ GBS.frames_to_remove 0 s ≡ₚ [1; 2]
  /\ GBS.window (GBS.process_ack 0 s) = ∅
  /\ GBS.base (GBS.process_ack 0 s) = 3
  /\ GBS.window (GBS.sender final) = ∅
  /\ GBS.data_buffer (GBS.sender final) = []
  /\ GBR.received_frames (GBS.receiver final) = ["p0"]%string.
Proof.
  vm_compute. repeat split. apply Permutation_swap.
Qed.

(** ** Selective Repeat: the receiver's answers *)

Lemma sr_receive_frame_shape
    (rng : nat -> Q) (f : Frame.t) (r : SRR.t) (w : World) :
  let '(acks, r', w') := SRR.receive_frame rng f r w in
  SRR.window_size r' = SRR.window_size r
  /\ SRR.max_seq_num r' = SRR.max_seq_num r
  /\ (acks = None \/ acks = Some [] \/ acks = Some [Frame.seq_num f]).
Proof.
  unfold SRR.receive_frame, Frame.is_corrupted, SRR.send_ack, random_random.
  destruct (Qlt_bool _ _); [cbn; auto|].
  destruct (Qlt_bool _ _); [cbn; auto|].
  destruct (SRR.is_in_window _ _).
  - unfold SRR.deliver_frames.
    assert (Hloop : forall n r0,
      SRR.window_size (SRR.deliver_loop n r0) = SRR.window_size r0
      /\ SRR.max_seq_num (SRR.deliver_loop n r0) = SRR.max_seq_num r0).
    { induction n as [|n IH]; intros r0; cbn; [done|].
      destruct (SRR.buffer r0 !! _); [|done].
      destruct (IH (SRR.deliver_one s r0)) as [-> ->]. done. }
    destruct (SRR.buffer _ !! _);
      destruct (Qlt_bool _ _); cbn;
      match goal with
      | |- context [SRR.deliver_loop ?n ?r0] =>
          destruct (Hloop n r0) as [-> ->]
      end; cbn; auto.
  - destruct (SRR.is_already_delivered _ _); [|cbn; auto].
    destruct (Qlt_bool _ _); cbn; auto.
Qed.

(** A frame that is neither in the window nor below [base mod max_seq_num]
    is never acknowledged, whatever the channel does. *)
Lemma sr_receive_frame_rejected
    (rng : nat -> Q) (f : Frame.t) (r : SRR.t) (w : World) :
  SRR.is_in_window r (Frame.seq_num f) = false ->
  SRR.is_already_delivered r (Frame.seq_num f) = false ->
  exists r' w',
    SRR.receive_frame rng f r w = (None, r', w')
    /\ SRR.window_size r' = SRR.window_size r
    /\ SRR.base r' = SRR.base r
    /\ SRR.max_seq_num r' = SRR.max_seq_num r.
Proof.
  intros Hwin Hdel.
  unfold SRR.receive_frame, Frame.is_corrupted, SRR.send_ack, random_random.
  destruct (Qlt_bool _ _); [by eexists _, _|].
  destruct (Qlt_bool _ _); [by eexists _, _|].
  change (SRR.is_in_window (SRR.inc_total_frames_received r) (Frame.seq_num f))
    with (SRR.is_in_window r (Frame.seq_num f)).
  change (SRR.is_already_delivered (SRR.inc_total_frames_received r)
            (Frame.seq_num f))
    with (SRR.is_already_delivered r (Frame.seq_num f)).
  rewrite Hwin, Hdel. by eexists _, _.
Qed.

(** ** Selective Repeat: the sender's main loop has no bound *)

Lemma sr_send_frames_unfold (rng lag : nat -> Q) (n : nat) (st : SRS.State) :
  SRS.send_frames rng lag (S n) st =
  if SRS.busy (SRS.sender st) then
    let '(brk, st') := SRS.pass rng lag st in
    if brk then Some (true, st')
    else SRS.send_frames rng lag n (SRS.pause lag st')
  else Some (true, st).
Proof. reflexivity. Qed.

Lemma sr_send_frames_running_le (rng lag : nat -> Q) (k : nat) :
  forall (j : nat) (st : SRS.State),
    (j <= k)%nat ->
    SRS.send_frames rng lag k st = None ->
    SRS.send_frames rng lag j st = None.
Proof.
  induction k as [|k IH]; intros j st Hle Hk.
  - assert (j = O) as -> by lia. exact Hk.
  - destruct j as [|j].
    + rewrite sr_send_frames_unfold in Hk. cbn.
      destruct (SRS.busy (SRS.sender st)); [done|discriminate].
    + rewrite sr_send_frames_unfold in Hk |- *.
      destruct (SRS.busy (SRS.sender st)); [|discriminate].
      destruct (SRS.pass rng lag st) as [[] st']; [discriminate|].
      apply IH; [lia|done].
Qed.

(** While the loop is running, [passes k] is the state on entry to pass
    number [k] of the loop. *)
Lemma sr_send_frames_passes (rng lag : nat -> Q) (k : nat) :
  forall (n : nat) (st : SRS.State),
    SRS.send_frames rng lag k st = None ->
    SRS.send_frames rng lag (k + n) st
    = SRS.send_frames rng lag n (SRS.passes rng lag k st).
Proof.
  induction k as [|k IH]; intros n st Hk; [done|].
  change (S k + n)%nat with (S (k + n)).
  rewrite sr_send_frames_unfold in Hk |- *. cbn [SRS.passes].
  destruct (SRS.busy (SRS.sender st)); [|discriminate].
  destruct (SRS.pass rng lag st) as [[] st']; [discriminate|].
  by apply IH.
Qed.

(** A sender whose only outstanding frame the receiver will never
    acknowledge: the backlog is empty, the window holds one frame, the base
    has not been acknowledged, and the receiver classifies the frame's
    number as neither in its window nor already delivered. *)
Definition stuck (st : SRS.State) : Prop :=
  SRS.data_buffer (SRS.sender st) = []
  /\ ((SRS.base (SRS.sender st) mod SRS.max_seq_num (SRS.sender st))
      ∉ SRS.ack_received (SRS.sender st))
  /\ exists k e ts,
       SRS.window (SRS.sender st) = {[k := e]}
       /\ SRS.individual_timers (SRS.sender st) = [(k, ts)]
       /\ SRR.is_in_window (SRS.receiver st) (Frame.seq_num (we_frame e))
          = false
       /\ SRR.is_already_delivered (SRS.receiver st)
            (Frame.seq_num (we_frame e)) = false.

(** The same test as a computation, for concrete states. *)
Definition stuckb (st : SRS.State) : bool :=
  bool_decide (SRS.data_buffer (SRS.sender st) = [])
  && negb (bool_decide
             (SRS.base (SRS.sender st) mod SRS.max_seq_num (SRS.sender st)
              ∈ SRS.ack_received (SRS.sender st)))
  && match map_to_list (SRS.window (SRS.sender st)),
           SRS.individual_timers (SRS.sender st) with
     | [(k, e)], [(k', _)] =>
         (k =? k')
         && negb (SRR.is_in_window (SRS.receiver st)
                    (Frame.seq_num (we_frame e)))
         && negb (SRR.is_already_delivered (SRS.receiver st)
                    (Frame.seq_num (we_frame e)))
     | _, _ => false
     end.

Lemma stuckb_stuck (st : SRS.State) : stuckb st = true -> stuck st.
Proof.
  unfold stuckb, stuck. intros H.
  apply andb_prop in H as [H H3]. apply andb_prop in H as [H1 H2].
  apply bool_decide_eq_true in H1. apply negb_true_iff in H2.
  apply bool_decide_eq_false in H2.
  split; [done|]. split; [done|].
  destruct (map_to_list (SRS.window (SRS.sender st)))
    as [|[k e] [|? ?]] eqn:Hl; try discriminate.
  destruct (SRS.individual_timers (SRS.sender st))
    as [|[k' ts] [|? ?]]; try discriminate.
  apply andb_prop in H3 as [H3 H5]. apply andb_prop in H3 as [H3 H4].
  apply Z.eqb_eq in H3 as <-.
  apply negb_true_iff in H4, H5.
  exists k, e, ts. repeat split; try done.
  rewrite <- (list_to_map_to_list (SRS.window (SRS.sender st))), Hl.
  cbn. by rewrite insert_empty.
Qed.

Lemma sr_slide_window_blocked (s : SRS.t) :
  SRS.base s mod SRS.max_seq_num s ∉ SRS.ack_received s ->
  SRS.slide_window s = s.
Proof.
  intros H. unfold SRS.slide_window.
  destruct (size (SRS.ack_received s)); [done|].
  cbn. by rewrite decide_False.
Qed.

Lemma sr_busy_singleton (s : SRS.t) (k : Z) (e : WinEntry) :
  SRS.window s = {[k := e]} -> SRS.busy s = true.
Proof.
  intros Hwin. unfold SRS.busy. rewrite Hwin.
  rewrite (bool_decide_eq_false_2 ({[k := e]} = ∅)); [by rewrite orb_true_r|].
  intros Hne. apply (f_equal (λ m : gmap Z WinEntry, m !! k)) in Hne.
  by rewrite lookup_singleton_eq, lookup_empty in Hne.
Qed.

Lemma stuck_pass (rng lag : nat -> Q) (st : SRS.State) :
  stuck st ->
  exists st',
    SRS.pass rng lag st = (false, st')
    /\ stuck (SRS.pause lag st').
Proof.
  intros (Hbuf & Hbase & k & e & ts & Hwin & Htim & Hin & Hdel).
  unfold SRS.pass. rewrite Hbuf. cbn [length SRS.send_new_frames].
  unfold SRS.check_individual_timeouts. rewrite Htim.
  cbn [filter list_filter].
  destruct (decide _) as [Hexp|Hexp]; cbn [map foldl fst].
  - rewrite Hwin, lookup_singleton_eq.
    unfold SRS.selective_retransmit. rewrite Hwin, lookup_singleton_eq.
    destruct (sr_receive_frame_rejected rng (we_frame e) (SRS.receiver st)
                (SRS.world st) Hin Hdel)
      as (r' & w' & -> & Hws & Hb & Hm).
    cbn [SRS.process_acks SRS.sender SRS.receiver SRS.world].
    rewrite sr_slide_window_blocked by (cbn; done).
    eexists; split.
    + f_equal. erewrite (sr_busy_singleton _ k); [done|].
      cbn. rewrite Hwin. apply insert_singleton_eq.
    + unfold stuck. cbn. rewrite Hwin, Htim, insert_singleton_eq.
      split; [done|]. split; [done|].
      eexists k, _, _. split; [done|]. split.
      { cbn. by rewrite Z.eqb_refl. }
      cbn. unfold SRR.is_in_window, SRR.is_already_delivered in *.
      rewrite Hws, Hb, Hm. done.
  - rewrite sr_slide_window_blocked by done.
    eexists; split.
    + f_equal. by rewrite (sr_busy_singleton _ k e).
    + unfold stuck. cbn. split; [done|]. split; [done|].
      by exists k, e, ts.
Qed.

Lemma stuck_busy (st : SRS.State) :
  stuck st -> SRS.busy (SRS.sender st) = true.
Proof.
  intros (_ & _ & k & e & ts & Hwin & _). by apply (sr_busy_singleton _ k e).
Qed.

Lemma stuck_forever (rng lag : nat -> Q) (fuel : nat) :
  forall st, stuck st -> SRS.send_frames rng lag fuel st = None.
Proof.
  induction fuel as [|fuel IH]; intros st Hst.
  - cbn. by rewrite stuck_busy.
  - rewrite sr_send_frames_unfold, stuck_busy by done.
    destruct (stuck_pass rng lag st Hst) as (st' & -> & Hst').
    by apply IH.
Qed.

(** C1 at its failing input: window size 4, eight payloads, no fault except
    that the acknowledgment of the eighth frame (modular number 7) is lost
    (draw number 23).  The receiver's base is then 8, the retransmitted
    frame 7 is neither in its window 0-3 nor below [8 mod 8 = 0], so it is
    discarded without an acknowledgment every time: whatever the number of
    passes allowed, [send_frames] is still running after them. *)
Theorem send_frames_never_returns (fuel : nat) :
  SRS.send_frames
    (fun n : nat => if (n =? 23)%nat then 0 else 1 # 2)%Q
    (fun _ : nat => 0%Q) fuel
    (SRS.start 4 4 2
       ["p0"; "p1"; "p2"; "p3"; "p4"; "p5"; "p6"; "p7"]%string)
  = None.
Proof.
  set (rng := (fun n : nat => if (n =? 23)%nat then 0 else 1 # 2)%Q).
  set (lag := fun _ : nat => 0%Q).
  set (st := SRS.start 4 4 2 _).
  assert (H2 : SRS.send_frames rng lag 2 st = None)
    by (vm_compute; reflexivity).
  destruct (le_lt_dec fuel 2) as [Hle|Hgt].
  - by apply (sr_send_frames_running_le rng lag 2).
  - replace fuel with (2 + (fuel - 2))%nat by lia.
    rewrite (sr_send_frames_passes rng lag 2) by done.
    apply stuck_forever, stuckb_stuck. vm_compute. reflexivity.
Qed.

(** ** Selective Repeat: what a run depends on *)


Section Determinism.
Variables rng rng' lag lag' : nat -> Q.
Hypothesis Hrng : forall n, rng n = rng' n.
Hypothesis Hlag : forall n, lag n = lag' n.

Lemma time_sleep_ext (d : Q) (w : World) :
  time_sleep lag d w = time_sleep lag' d w.
Proof. unfold time_sleep. by rewrite Hlag. Qed.

Lemma sr_receive_frame_ext (f : Frame.t) (r : SRR.t) (w : World) :
  SRR.receive_frame rng f r w = SRR.receive_frame rng' f r w.
Proof.
  unfold SRR.receive_frame, Frame.is_corrupted, SRR.send_ack, random_random.
  cbn [drawn]. by rewrite !Hrng.
Qed.

Lemma sr_selective_retransmit_ext (k : Z) (st : SRS.State) :
  SRS.selective_retransmit rng lag k st
  = SRS.selective_retransmit rng' lag' k st.
Proof.
  unfold SRS.selective_retransmit.
  destruct (SRS.window (SRS.sender st) !! k); [|done].
  rewrite sr_receive_frame_ext.
  destruct (SRR.receive_frame rng' _ _ _) as [[acks r1] w1].
  by rewrite time_sleep_ext.
Qed.

Lemma sr_check_individual_timeouts_ext (st : SRS.State) :
  SRS.check_individual_timeouts rng lag st
  = SRS.check_individual_timeouts rng' lag' st.
Proof.
  unfold SRS.check_individual_timeouts.
  generalize (map fst
    (filter
       (λ kt : Z * Q,
          Qlt_bool (SRS.timeout (SRS.sender st))
            (time_time (SRS.world st) - kt.2) = true)
       (SRS.individual_timers (SRS.sender st)))).
  intros l. revert st.
  induction l as [|k l IH]; intros st; [done|].
  cbn [foldl]. rewrite sr_selective_retransmit_ext. apply IH.
Qed.

Lemma sr_send_new_frame_ext (d : string) (rest : list string)
    (st : SRS.State) :
  SRS.send_new_frame rng lag d rest st
  = SRS.send_new_frame rng' lag' d rest st.
Proof.
  unfold SRS.send_new_frame. rewrite sr_receive_frame_ext.
  destruct (SRR.receive_frame rng' _ _ _) as [[acks r1] w1].
  by rewrite time_sleep_ext.
Qed.

Lemma sr_send_new_frames_ext (n : nat) :
  forall st,
    SRS.send_new_frames rng lag n st = SRS.send_new_frames rng' lag' n st.
Proof.
  induction n as [|n IH]; intros st; [done|].
  cbn [SRS.send_new_frames].
  destruct (SRS.can_send _); [|done].
  destruct (SRS.data_buffer _); [done|].
  rewrite sr_send_new_frame_ext. apply IH.
Qed.

Lemma sr_pass_ext (st : SRS.State) :
  SRS.pass rng lag st = SRS.pass rng' lag' st.
Proof.
  unfold SRS.pass.
  by rewrite sr_send_new_frames_ext, sr_check_individual_timeouts_ext.
Qed.

Lemma sr_pause_ext (st : SRS.State) : SRS.pause lag st = SRS.pause lag' st.
Proof. unfold SRS.pause. by rewrite time_sleep_ext. Qed.

Lemma sr_passes_ext (n : nat) :
  forall st, SRS.passes rng lag n st = SRS.passes rng' lag' n st.
Proof.
  induction n as [|n IH]; intros st; [done|].
  cbn [SRS.passes]. rewrite sr_pass_ext.
  destruct (SRS.busy _); [|done].
  destruct (SRS.pass rng' lag' st) as [[] st']; [done|].
  rewrite sr_pause_ext. apply IH.
Qed.

Lemma sr_send_frames_ext (n : nat) :
  forall st, SRS.send_frames rng lag n st = SRS.send_frames rng' lag' n st.
Proof.
  induction n as [|n IH]; intros st; [done|].
  rewrite !sr_send_frames_unfold, sr_pass_ext.
  destruct (SRS.busy _); [|done].
  destruct (SRS.pass rng' lag' st) as [[] st']; [done|].
  rewrite sr_pause_ext. apply IH.
Qed.

End Determinism.



(** ** Selective Repeat: acknowledgment processing *)

Lemma odict_get_set_eq {V} (k : Z) (v : V) (d : ODict.t V) :
  ODict.get k (ODict.set k v d) = Some v.
Proof.
  induction d as [|[k' v'] d IH]; cbn.
  - by rewrite Z.eqb_refl.
  - destruct (Z.eqb_spec k k') as [->|Hne]; cbn.
    + by rewrite Z.eqb_refl.
    + destruct (Z.eqb_spec k k'); [done|]. exact IH.
Qed.

Lemma odict_get_set_ne {V} (k j : Z) (v : V) (d : ODict.t V) :
  j <> k -> ODict.get j (ODict.set k v d) = ODict.get j d.
Proof.
  intros Hne. induction d as [|[k' v'] d IH]; cbn.
  - destruct (Z.eqb_spec j k); [done|]. done.
  - destruct (Z.eqb_spec k k') as [->|Hkk']; cbn.
    + destruct (Z.eqb_spec j k'); [done|]. done.
    + destruct (Z.eqb_spec j k'); [done|]. exact IH.
Qed.

Lemma odict_get_del_eq {V} (k : Z) (d : ODict.t V) :
  ODict.get k (ODict.del k d) = None.
Proof.
  induction d as [|[k' v'] d IH]; cbn; [done|].
  destruct (Z.eqb_spec k k') as [->|Hne]; [done|].
  cbn. destruct (Z.eqb_spec k k'); [done|]. exact IH.
Qed.

Lemma odict_get_del_ne {V} (k j : Z) (d : ODict.t V) :
  j <> k -> ODict.get j (ODict.del k d) = ODict.get j d.
Proof.
  intros Hne. induction d as [|[k' v'] d IH]; cbn; [done|].
  destruct (Z.eqb_spec k k') as [->|Hkk']; cbn.
  - destruct (Z.eqb_spec j k'); [done|]. exact IH.
  - destruct (Z.eqb_spec j k'); [done|]. exact IH.
Qed.

(** What [process_ack] leaves alone. *)
Definition sr_same_counters (s s' : SRS.t) : Prop :=
  SRS.window_size s' = SRS.window_size s
  /\ SRS.timeout s' = SRS.timeout s
  /\ SRS.base s' = SRS.base s
  /\ SRS.next_seq_num s' = SRS.next_seq_num s
  /\ SRS.data_buffer s' = SRS.data_buffer s
  /\ SRS.max_seq_num s' = SRS.max_seq_num s
  /\ SRS.total_transmissions s' = SRS.total_transmissions s
  /\ SRS.retransmissions s' = SRS.retransmissions s.

Lemma sr_remove_frames_counters (l : list Z) :
  forall s,
    sr_same_counters s (foldl SRS.remove_frame s l)
    /\ SRS.ack_received (foldl SRS.remove_frame s l) = SRS.ack_received s.
Proof.
  induction l as [|k l IH]; intros s; cbn [foldl].
  - by repeat split.
  - destruct (IH (SRS.remove_frame s k)) as [(H1&H2&H3&H4&H5&H6&H7&H8) H9].
    repeat split; etrans; eauto.
Qed.

Lemma sr_remove_frames_window (l : list Z) :
  forall s j,
    SRS.window (foldl SRS.remove_frame s l) !! j
    = if decide (j ∈ l) then None else SRS.window s !! j.
Proof.
  induction l as [|k l IH]; intros s j; cbn [foldl].
  - rewrite decide_False; [done|]. apply not_elem_of_nil.
  - rewrite IH. cbn.
    destruct (decide (j ∈ l)) as [Hin|Hnin].
    + rewrite decide_True; [done|]. by right.
    + destruct (decide (j = k)) as [->|Hne].
      * rewrite decide_True by left. apply lookup_delete_eq.
      * rewrite decide_False.
        -- by apply lookup_delete_ne.
        -- intros [?|?]%elem_of_cons; done.
Qed.

Lemma sr_remove_frames_timers (l : list Z) :
  forall s j,
    ODict.get j (SRS.individual_timers (foldl SRS.remove_frame s l))
    = if decide (j ∈ l) then None
      else ODict.get j (SRS.individual_timers s).
Proof.
  induction l as [|k l IH]; intros s j; cbn [foldl].
  - rewrite decide_False; [done|]. apply not_elem_of_nil.
  - rewrite IH. cbn.
    destruct (decide (j ∈ l)) as [Hin|Hnin].
    + rewrite decide_True; [done|]. by right.
    + destruct (decide (j = k)) as [->|Hne].
      * rewrite decide_True by left. apply odict_get_del_eq.
      * rewrite decide_False.
        -- by apply odict_get_del_ne.
        -- intros [?|?]%elem_of_cons; done.
Qed.

Lemma sr_seq_nums_to_remove_spec (a : Z) (s : SRS.t) (j : Z) :
  j ∈ SRS.seq_nums_to_remove a s
  <-> j mod SRS.max_seq_num s = a /\ is_Some (SRS.window s !! j).
Proof.
  unfold SRS.seq_nums_to_remove.
  rewrite list_elem_of_filter, elem_of_elements, elem_of_dom. done.
Qed.

Lemma sr_process_ack_counters (a : Z) (s : SRS.t) :
  sr_same_counters s (SRS.process_ack a s)
  /\ SRS.ack_received (SRS.process_ack a s) = {[a]} ∪ SRS.ack_received s.
Proof.
  unfold SRS.process_ack.
  destruct (sr_remove_frames_counters
              (SRS.seq_nums_to_remove a
                 (SRS.set_ack_received ({[a]} ∪ SRS.ack_received s) s))
              (SRS.set_ack_received ({[a]} ∪ SRS.ack_received s) s))
    as [H1 H2].
  split; [exact H1|exact H2].
Qed.

Lemma sr_process_ack_window (a : Z) (s : SRS.t) (j : Z) :
  SRS.window (SRS.process_ack a s) !! j
  = if decide (j mod SRS.max_seq_num s = a) then None
    else SRS.window s !! j.
Proof.
  unfold SRS.process_ack. rewrite sr_remove_frames_window.
  set (s1 := SRS.set_ack_received _ s).
  destruct (decide (j ∈ _)) as [Hin|Hnin].
  - apply sr_seq_nums_to_remove_spec in Hin as [Hmod _].
    by rewrite decide_True.
  - destruct (decide (j mod SRS.max_seq_num s = a)) as [Hmod|Hmod]; [|done].
    destruct (SRS.window s !! j) as [e|] eqn:He; [|done].
    exfalso. apply Hnin, sr_seq_nums_to_remove_spec. split; [done|].
    by exists e.
Qed.

Lemma sr_process_ack_timers (a : Z) (s : SRS.t) (j : Z) :
  ODict.get j (SRS.individual_timers (SRS.process_ack a s))
  = if decide (j mod SRS.max_seq_num s = a /\ is_Some (SRS.window s !! j))
    then None
    else ODict.get j (SRS.individual_timers s).
Proof.
  unfold SRS.process_ack. rewrite sr_remove_frames_timers.
  set (s1 := SRS.set_ack_received _ s).
  destruct (decide (j ∈ _)) as [Hin|Hnin].
  - apply sr_seq_nums_to_remove_spec in Hin. by rewrite decide_True.
  - rewrite decide_False; [done|].
    intros H. by apply Hnin, sr_seq_nums_to_remove_spec.
Qed.

(** ** Selective Repeat: the sender's window invariant *)

(** The window of a sender whose frames have instance numbers below [N]:
    every key lies in [[base, N)] and carries its own number modulo
    [max_seq_num]; every pending acknowledgment belongs to a retired
    instance in [[base, N)], older than any outstanding frame with the same
    modular number. *)
Definition window_inv (N : Z) (s : SRS.t) : Prop :=
  SRS.base s <= N
  /\ (forall j e, SRS.window s !! j = Some e ->
        SRS.base s <= j < N
        /\ Frame.seq_num (we_frame e) = j mod SRS.max_seq_num s)
  /\ (forall a, a ∈ SRS.ack_received s ->
        exists k, SRS.base s <= k < N
                  /\ SRS.window s !! k = None
                  /\ k mod SRS.max_seq_num s = a)
  /\ (forall a j e, a ∈ SRS.ack_received s ->
        SRS.window s !! j = Some e -> j mod SRS.max_seq_num s = a ->
        exists k, SRS.base s <= k < j
                  /\ SRS.window s !! k = None
                  /\ k mod SRS.max_seq_num s = a).

Lemma window_inv_ext (N : Z) (s s' : SRS.t) :
  SRS.base s' = SRS.base s ->
  SRS.window s' = SRS.window s ->
  SRS.ack_received s' = SRS.ack_received s ->
  SRS.max_seq_num s' = SRS.max_seq_num s ->
  window_inv N s -> window_inv N s'.
Proof.
  unfold window_inv. intros -> -> -> ->. done.
Qed.

Lemma window_inv_process_ack (N : Z) (s : SRS.t) (k : Z) (e : WinEntry) :
  window_inv N s ->
  SRS.window s !! k = Some e ->
  window_inv N (SRS.process_ack (k mod SRS.max_seq_num s) s).
Proof.
  intros (HB & HK & HA & HF) Hk.
  destruct (sr_process_ack_counters (k mod SRS.max_seq_num s) s)
    as [(_&_&Hb&_&_&Hm&_&_) Hacks].
  unfold window_inv. rewrite Hb, Hm, Hacks.
  split; [done|]. split; [|split].
  - intros j e'. rewrite sr_process_ack_window.
    destruct (decide _); [done|]. apply HK.
  - intros a [->%elem_of_singleton|Ha]%elem_of_union.
    + exists k. split; [by apply (HK k e)|].
      split; [|done]. rewrite sr_process_ack_window. by rewrite decide_True.
    + destruct (HA a Ha) as (k' & Hr & Hn & Hmod).
      exists k'. split; [done|]. split; [|done].
      rewrite sr_process_ack_window. by destruct (decide _).
  - intros a j e' Ha. rewrite sr_process_ack_window.
    destruct (decide _) as [|Hne]; [done|]. intros Hj Hmod.
    apply elem_of_union in Ha as [->%elem_of_singleton|Ha]; [done|].
    destruct (HF a j e' Ha Hj Hmod) as (k' & Hr & Hn & Hmod').
    exists k'. split; [done|]. split; [|done].
    rewrite sr_process_ack_window. by destruct (decide _).
Qed.

Lemma window_inv_process_acks (N : Z) (s : SRS.t) (k : Z) (e : WinEntry)
    (acks : option (list Z)) :
  window_inv N s ->
  SRS.window s !! k = Some e ->
  acks = None \/ acks = Some [] \/ acks = Some [Frame.seq_num (we_frame e)] ->
  window_inv N (SRS.process_acks acks s).
Proof.
  intros Hinv Hk [->|[->| ->]]; cbn; [done|done|].
  destruct Hinv as (HB & HK & HA & HF).
  rewrite (proj2 (HK k e Hk)).
  by apply (window_inv_process_ack N s k e).
Qed.

(** Refreshing the time stamp of an outstanding frame. *)
Lemma window_inv_touch (N : Z) (s s' : SRS.t) (k : Z) (e e' : WinEntry) :
  SRS.base s' = SRS.base s ->
  SRS.window s' = <[k := e']> (SRS.window s) ->
  SRS.ack_received s' = SRS.ack_received s ->
  SRS.max_seq_num s' = SRS.max_seq_num s ->
  SRS.window s !! k = Some e ->
  we_frame e' = we_frame e ->
  window_inv N s -> window_inv N s'.
Proof.
  intros Hb Hw Ha Hm Hk He (HB & HK & HA & HF).
  unfold window_inv. rewrite Hb, Hw, Ha, Hm.
  split; [done|]. split; [|split].
  - intros j e0. destruct (decide (j = k)) as [->|Hne].
    + rewrite lookup_insert_eq. intros [= <-]. rewrite He. by apply HK.
    + rewrite lookup_insert_ne by done. apply HK.
  - intros a Hin. destruct (HA a Hin) as (k' & Hr & Hn & Hmod).
    exists k'. split; [done|]. split; [|done].
    rewrite lookup_insert_ne; [done|]. intros <-. congruence.
  - intros a j e0 Hin Hj Hmod.
    assert (exists e1, SRS.window s !! j = Some e1) as [e1 Hj1].
    { destruct (decide (j = k)) as [->|Hne]; [by eauto|].
      rewrite lookup_insert_ne in Hj by done. eauto. }
    destruct (HF a j e1 Hin Hj1 Hmod) as (k' & Hr & Hn & Hmod').
    exists k'. split; [done|]. split; [|done].
    rewrite lookup_insert_ne; [done|]. intros <-. congruence.
Qed.

(** Putting the next instance in the window. *)
Lemma window_inv_admit (N : Z) (s s' : SRS.t) (e : WinEntry) :
  SRS.base s' = SRS.base s ->
  SRS.window s' = <[N := e]> (SRS.window s) ->
  SRS.ack_received s' = SRS.ack_received s ->
  SRS.max_seq_num s' = SRS.max_seq_num s ->
  Frame.seq_num (we_frame e) = N mod SRS.max_seq_num s ->
  window_inv N s -> window_inv (N + 1) s'.
Proof.
  intros Hb Hw Ha Hm He (HB & HK & HA & HF).
  unfold window_inv. rewrite Hb, Hw, Ha, Hm.
  split; [lia|]. split; [|split].
  - intros j e0. destruct (decide (j = N)) as [->|Hne].
    + rewrite lookup_insert_eq. intros [= <-]. split; [lia|done].
    + rewrite lookup_insert_ne by done. intros Hj.
      destruct (HK j e0 Hj). split; [lia|done].
  - intros a Hin. destruct (HA a Hin) as (k' & Hr & Hn & Hmod).
    exists k'. split; [lia|]. split; [|done].
    rewrite lookup_insert_ne; [done|]. lia.
  - intros a j e0 Hin Hj Hmod.
    destruct (decide (j = N)) as [->|Hne].
    + destruct (HA a Hin) as (k' & Hr & Hn & Hmod').
      exists k'. split; [done|]. split; [|done].
      rewrite lookup_insert_ne; [done|]. lia.
    + rewrite lookup_insert_ne in Hj by done.
      destruct (HF a j e0 Hin Hj Hmod) as (k' & Hr & Hn & Hmod').
      exists k'. split; [done|]. split; [|done].
      rewrite lookup_insert_ne; [done|].
      destruct (HK j e0 Hj). lia.
Qed.

Lemma window_inv_weaken (N : Z) (s : SRS.t) :
  window_inv N s -> window_inv (N + 1) s.
Proof.
  intros (HB & HK & HA & HF). split; [lia|]. split; [|split].
  - intros j e Hj. destruct (HK j e Hj). split; [lia|done].
  - intros a Hin. destruct (HA a Hin) as (k & Hr & Hn & Hmod).
    exists k. split; [lia|done].
  - exact HF.
Qed.

Lemma window_inv_slide_loop (N : Z) (fuel : nat) :
  forall s,
    window_inv N s ->
    window_inv N (SRS.slide_loop fuel s)
    /\ SRS.base s <= SRS.base (SRS.slide_loop fuel s)
    /\ SRS.next_seq_num (SRS.slide_loop fuel s) = SRS.next_seq_num s
    /\ SRS.window_size (SRS.slide_loop fuel s) = SRS.window_size s
    /\ SRS.max_seq_num (SRS.slide_loop fuel s) = SRS.max_seq_num s
    /\ SRS.window (SRS.slide_loop fuel s) = SRS.window s
    /\ SRS.data_buffer (SRS.slide_loop fuel s) = SRS.data_buffer s.
Proof.
  induction fuel as [|fuel IH]; intros s Hinv; cbn [SRS.slide_loop].
  - split_and!; try done; lia.
  - destruct (decide _) as [Hin|Hnin]; [|split_and!; try done; lia].
    set (s' := SRS.set_base _ _).
    destruct Hinv as (HB & HK & HA & HF).
    assert (Hbase : SRS.window s !! SRS.base s = None
                    /\ SRS.base s < N).
    { destruct (HA _ Hin) as (k & Hr & Hn & Hmod).
      destruct (SRS.window s !! SRS.base s) as [e|] eqn:He; [|split; [done|lia]].
      destruct (HF _ _ e Hin He eq_refl) as (k' & Hr' & _). lia. }
    destruct Hbase as [Hnone Hlt].
    assert (Hinv' : window_inv N s').
    { unfold window_inv, s'. cbn.
      split; [lia|]. split; [|split].
      - intros j e Hj. destruct (HK j e Hj) as [Hr Hs]. split; [|done].
        assert (j <> SRS.base s) by congruence. lia.
      - intros a [Ha Hne]%elem_of_difference.
        destruct (HA a Ha) as (k & Hr & Hn & Hmod).
        exists k. split; [|done].
        assert (k <> SRS.base s).
        { intros ->. apply Hne, elem_of_singleton. done. }
        lia.
      - intros a j e [Ha Hne]%elem_of_difference Hj Hmod.
        destruct (HF a j e Ha Hj Hmod) as (k & Hr & Hn & Hmod').
        exists k. split; [|done].
        assert (k <> SRS.base s).
        { intros ->. apply Hne, elem_of_singleton. done. }
        lia. }
    destruct (IH s' Hinv') as (H1 & H2 & H3 & H4 & H5 & H6 & H7).
    split_and!; [done|cbn in H2; lia|..]; etrans; eauto.
Qed.

(** ** Selective Repeat: what the receiver does with a frame *)

(** Equality of two receivers up to their three counters. *)
Definition sr_same_core (r r' : SRR.t) : Prop :=
  SRR.window_size r' = SRR.window_size r
  /\ SRR.base r' = SRR.base r
  /\ SRR.max_seq_num r' = SRR.max_seq_num r
  /\ SRR.buffer r' = SRR.buffer r
  /\ SRR.received_frames r' = SRR.received_frames r.

(** The three ways [receive_frame] can end: no acknowledgment and nothing
    buffered; a frame below the window acknowledged again; a frame in the
    window buffered (unless it already is), acknowledged or not, and the
    buffer delivered from the base on. *)
Inductive rx_outcome (f : Frame.t) (r : SRR.t)
  : option (list Z) -> SRR.t -> Prop :=
| rx_unanswered (r' : SRR.t) :
    sr_same_core r r' -> rx_outcome f r None r'
| rx_reacknowledged (r' : SRR.t) :
    sr_same_core r r' ->
    SRR.is_in_window r (Frame.seq_num f) = false ->
    SRR.is_already_delivered r (Frame.seq_num f) = true ->
    rx_outcome f r (Some [Frame.seq_num f]) r'
| rx_accepted (acks : option (list Z)) (r1 : SRR.t) :
    SRR.is_in_window r (Frame.seq_num f) = true ->
    SRR.window_size r1 = SRR.window_size r ->
    SRR.base r1 = SRR.base r ->
    SRR.max_seq_num r1 = SRR.max_seq_num r ->
    SRR.received_frames r1 = SRR.received_frames r ->
    SRR.buffer r1
    = match SRR.buffer r !! Frame.seq_num f with
      | Some _ => SRR.buffer r
      | None => <[Frame.seq_num f := Frame.data f]> (SRR.buffer r)
      end ->
    acks = Some [] \/ acks = Some [Frame.seq_num f] ->
    rx_outcome f r acks (SRR.deliver_loop (size (SRR.buffer r1)) r1).

Lemma sr_receive_frame_outcome
    (rng : nat -> Q) (f : Frame.t) (r : SRR.t) (w : World) :
  rx_outcome f r (SRR.receive_frame rng f r w).1.1
    (SRR.receive_frame rng f r w).1.2.
Proof.
  unfold SRR.receive_frame, Frame.is_corrupted, SRR.send_ack, random_random.
  destruct (Qlt_bool _ _); [by apply rx_unanswered|].
  destruct (Qlt_bool _ _); [by apply rx_unanswered|].
  change (SRR.is_in_window (SRR.inc_total_frames_received r) (Frame.seq_num f))
    with (SRR.is_in_window r (Frame.seq_num f)).
  change (SRR.is_already_delivered (SRR.inc_total_frames_received r)
            (Frame.seq_num f))
    with (SRR.is_already_delivered r (Frame.seq_num f)).
  change (SRR.buffer (SRR.inc_total_frames_received r)) with (SRR.buffer r).
  destruct (SRR.is_in_window r (Frame.seq_num f)) eqn:Hwin.
  - unfold SRR.deliver_frames.
    destruct (SRR.buffer r !! Frame.seq_num f) as [d|] eqn:Hbuf;
      destruct (Qlt_bool _ _); cbn [fst snd app];
      apply rx_accepted; try done; try (by rewrite Hbuf); auto.
  - destruct (SRR.is_already_delivered r (Frame.seq_num f)) eqn:Hdel.
    + destruct (Qlt_bool _ _); cbn [fst snd negb].
      * by apply rx_unanswered.
      * by apply rx_reacknowledged.
    + by apply rx_unanswered.
Qed.

(** Every buffered number is a modular number inside the receive window. *)
Definition recv_inv (r : SRR.t) : Prop :=
  SRR.max_seq_num r = 8
  /\ forall s d, SRR.buffer r !! s = Some d ->
       0 <= s < 8 /\ SRR.is_in_window r s = true.

Lemma sr_is_in_window_core (r r' : SRR.t) (s : Z) :
  SRR.window_size r' = SRR.window_size r ->
  SRR.base r' = SRR.base r ->
  SRR.max_seq_num r' = SRR.max_seq_num r ->
  SRR.is_in_window r' s = SRR.is_in_window r s.
Proof. unfold SRR.is_in_window. by intros -> -> ->. Qed.

Lemma recv_inv_core (r r' : SRR.t) :
  sr_same_core r r' -> recv_inv r -> recv_inv r'.
Proof.
  intros (Hw & Hb & Hm & Hbuf & _) [Hmax Hin]. split; [congruence|].
  intros s d. rewrite Hbuf, (sr_is_in_window_core r r') by done. apply Hin.
Qed.

Lemma sr_is_in_window_next (r : SRR.t) (s : Z) (d : string) :
  SRR.max_seq_num r = 8 -> 0 <= s < 8 ->
  s <> SRR.base r mod 8 ->
  SRR.is_in_window r s = true ->
  SRR.is_in_window (SRR.deliver_one d r) s = true.
Proof.
  intros Hm Hs Hne. unfold SRR.is_in_window. cbn. rewrite Hm.
  replace (SRR.base r + 1 + SRR.window_size r - 1)
    with (SRR.base r + SRR.window_size r) by lia.
  repeat match goal with
  | |- context [?a <=? ?b] => destruct (Z.leb_spec a b)
  end; cbn; try done; intros _; exfalso; Z.div_mod_to_equations; lia.
Qed.

Lemma recv_inv_deliver_loop (n : nat) :
  forall r, recv_inv r -> recv_inv (SRR.deliver_loop n r).
Proof.
  induction n as [|n IH]; intros r Hinv; cbn [SRR.deliver_loop]; [done|].
  destruct (SRR.buffer r !! _) as [d|] eqn:Hd; [|done].
  apply IH. destruct Hinv as [Hmax Hin]. split; [done|].
  intros s d'. cbn [SRR.deliver_one SRR.buffer]. rewrite Hmax.
  destruct (decide (s = SRR.base r mod 8)) as [->|Hne].
  - by rewrite lookup_delete_eq.
  - rewrite lookup_delete_ne by done. intros Hs.
    destruct (Hin s d' Hs) as [Hr Hw]. split; [done|].
    by apply sr_is_in_window_next.
Qed.

Lemma recv_inv_outcome (f : Frame.t) (r r' : SRR.t)
    (acks : option (list Z)) :
  0 <= Frame.seq_num f < 8 ->
  rx_outcome f r acks r' ->
  recv_inv r -> recv_inv r'.
Proof.
  intros Hseq Hout Hinv.
  destruct Hout as [r' Hcore|r' Hcore _ _|acks r1 Hwin Hw Hb Hm Hrf Hbuf _].
  - by apply (recv_inv_core r).
  - by apply (recv_inv_core r).
  - apply recv_inv_deliver_loop. destruct Hinv as [Hmax Hin].
    split; [congruence|].
    intros s d. rewrite Hbuf, (sr_is_in_window_core r r1) by done.
    destruct (SRR.buffer r !! Frame.seq_num f) as [d0|] eqn:Hf; [apply Hin|].
    destruct (decide (s = Frame.seq_num f)) as [->|Hne].
    + done.
    + rewrite lookup_insert_ne by done. apply Hin.
Qed.

(** ** Selective Repeat: the window invariant along a run *)

Lemma rx_outcome_shape (f : Frame.t) (r r' : SRR.t)
    (acks : option (list Z)) :
  rx_outcome f r acks r' ->
  acks = None \/ acks = Some [] \/ acks = Some [Frame.seq_num f].
Proof. intros [| |]; auto. Qed.

Lemma sr_process_acks_counters (acks : option (list Z)) (s : SRS.t) :
  sr_same_counters s (SRS.process_acks acks s).
Proof.
  destruct acks as [l|]; cbn; [|by repeat split].
  revert s. induction l as [|a l IH]; intros s; cbn [foldl].
  - by repeat split.
  - destruct (sr_process_ack_counters a s) as [(H1&H2&H3&H4&H5&H6&H7&H8) _].
    destruct (IH (SRS.process_ack a s)) as (G1&G2&G3&G4&G5&G6&G7&G8).
    repeat split; etrans; eauto.
Qed.

Definition sr_inv (ws : Z) (st : SRS.State) : Prop :=
  window_inv (SRS.next_seq_num (SRS.sender st)) (SRS.sender st)
  /\ SRS.window_size (SRS.sender st) = ws
  /\ SRS.next_seq_num (SRS.sender st)
     <= SRS.base (SRS.sender st) + Z.max 0 ws
  /\ SRS.max_seq_num (SRS.sender st) = 8
  /\ recv_inv (SRS.receiver st).

Lemma window_inv_seq_range (N : Z) (s : SRS.t) (k : Z) (e : WinEntry) :
  window_inv N s -> SRS.max_seq_num s = 8 ->
  SRS.window s !! k = Some e ->
  0 <= Frame.seq_num (we_frame e) < 8.
Proof.
  intros (_ & HK & _) Hm Hk. destruct (HK k e Hk) as [_ ->]. rewrite Hm.
  apply Z.mod_pos_bound. lia.
Qed.

Lemma sr_inv_selective_retransmit (rng lag : nat -> Q) (ws k : Z)
    (st : SRS.State) :
  sr_inv ws st ->
  sr_inv ws (SRS.selective_retransmit rng lag k st)
  /\ SRS.data_buffer (SRS.sender (SRS.selective_retransmit rng lag k st))
     = SRS.data_buffer (SRS.sender st).
Proof.
  intros (Hwin & Hws & Hsize & Hmax & Hrecv).
  unfold SRS.selective_retransmit.
  destruct (SRS.window (SRS.sender st) !! k) as [e|] eqn:Hk; [|done].
  pose proof (sr_receive_frame_outcome rng (we_frame e) (SRS.receiver st)
                (SRS.world st)) as Hout.
  destruct (SRR.receive_frame rng _ _ _) as [[acks r'] w']. cbn in Hout.
  set (e' := {| we_frame := we_frame e;
                we_timestamp := time_time (SRS.world st);
                we_data := we_data e |}).
  set (s2 := SRS.set_individual_timers _ _).
  assert (Hwin2 : window_inv (SRS.next_seq_num (SRS.sender st)) s2).
  { by apply (window_inv_touch _ (SRS.sender st) s2 k e e'). }
  assert (Hk2 : SRS.window s2 !! k = Some e') by apply lookup_insert_eq.
  pose proof (window_inv_process_acks _ s2 k e' acks Hwin2 Hk2
                (rx_outcome_shape _ _ _ _ Hout)) as Hwin3.
  destruct (sr_process_acks_counters acks s2) as (H1&H2&H3&H4&H5&H6&H7&H8).
  cbn [SRS.sender SRS.receiver].
  split; [|by rewrite H5].
  unfold sr_inv. cbn [SRS.sender SRS.receiver].
  rewrite H1, H3, H4, H6. split_and!; try done.
  apply (recv_inv_outcome (we_frame e) (SRS.receiver st) r' acks);
    [|done|done].
  by apply (window_inv_seq_range (SRS.next_seq_num (SRS.sender st))
              (SRS.sender st) k e).
Qed.

Lemma sr_inv_check_individual_timeouts (rng lag : nat -> Q) (ws : Z)
    (st : SRS.State) :
  sr_inv ws st ->
  sr_inv ws (SRS.check_individual_timeouts rng lag st)
  /\ SRS.data_buffer (SRS.sender (SRS.check_individual_timeouts rng lag st))
     = SRS.data_buffer (SRS.sender st).
Proof.
  unfold SRS.check_individual_timeouts.
  generalize (map fst
    (filter
       (λ kt : Z * Q,
          Qlt_bool (SRS.timeout (SRS.sender st))
            (time_time (SRS.world st) - kt.2) = true)
       (SRS.individual_timers (SRS.sender st)))).
  intros l. revert st.
  induction l as [|k l IH]; intros st Hinv; cbn [foldl]; [done|].
  destruct (SRS.window (SRS.sender st) !! k).
  - destruct (sr_inv_selective_retransmit rng lag ws k st Hinv) as [H1 H2].
    destruct (IH _ H1) as [H3 H4]. split; [done|]. by rewrite H4.
  - by apply IH.
Qed.

Lemma sr_inv_send_new_frame (rng lag : nat -> Q) (ws : Z) (d : string)
    (rest : list string) (st : SRS.State) :
  sr_inv ws st ->
  SRS.can_send (SRS.sender st) = true ->
  sr_inv ws (SRS.send_new_frame rng lag d rest st)
  /\ SRS.data_buffer (SRS.sender (SRS.send_new_frame rng lag d rest st))
     = rest.
Proof.
  intros (Hwin & Hws & Hsize & Hmax & Hrecv) Hcan.
  apply andb_prop in Hcan as [Hroom%Z.ltb_lt _].
  unfold SRS.send_new_frame.
  set (f := Frame.make _ DATA d).
  pose proof (sr_receive_frame_outcome rng f (SRS.receiver st)
                (SRS.world st)) as Hout.
  destruct (SRR.receive_frame rng _ _ _) as [[acks r'] w']. cbn in Hout.
  set (e := {| we_frame := f; we_timestamp := time_time (SRS.world st);
               we_data := d |}).
  set (s2 := SRS.set_total_transmissions _ _).
  set (N := SRS.next_seq_num (SRS.sender st)) in *.
  assert (Hwin2 : window_inv (N + 1) s2).
  { by apply (window_inv_admit N (SRS.sender st) s2 e). }
  assert (Hk2 : SRS.window s2 !! N = Some e) by apply lookup_insert_eq.
  pose proof (window_inv_process_acks _ s2 N e acks Hwin2 Hk2
                (rx_outcome_shape _ _ _ _ Hout)) as Hwin3.
  destruct (sr_process_acks_counters acks s2) as (H1&H2&H3&H4&H5&H6&H7&H8).
  cbn [SRS.sender SRS.receiver].
  split; [|by cbn; rewrite H5].
  unfold sr_inv. cbn [SRS.sender SRS.receiver].
  cbn [SRS.set_next_seq_num SRS.next_seq_num SRS.base SRS.window_size
       SRS.max_seq_num].
  rewrite H1, H3, H4, H6.
  change (SRS.next_seq_num s2) with N.
  change (SRS.base s2) with (SRS.base (SRS.sender st)).
  change (SRS.window_size s2) with (SRS.window_size (SRS.sender st)).
  change (SRS.max_seq_num s2) with (SRS.max_seq_num (SRS.sender st)).
  split_and!.
  - eapply window_inv_ext; [| | | |exact Hwin3]; done.
  - done.
  - lia.
  - done.
  - apply (recv_inv_outcome f (SRS.receiver st) r' acks); [|done|done].
    cbn. rewrite Hmax. apply Z.mod_pos_bound. lia.
Qed.

Lemma sr_inv_send_new_frames (rng lag : nat -> Q) (ws : Z) (fuel : nat) :
  forall st,
    sr_inv ws st -> sr_inv ws (SRS.send_new_frames rng lag fuel st).
Proof.
  induction fuel as [|fuel IH]; intros st Hinv; cbn [SRS.send_new_frames];
    [done|].
  destruct (SRS.can_send (SRS.sender st)) eqn:Hcan; [|done].
  destruct (SRS.data_buffer (SRS.sender st)) as [|d rest]; [done|].
  apply IH. by apply sr_inv_send_new_frame.
Qed.

Lemma sr_inv_slide (ws : Z) (st : SRS.State) :
  sr_inv ws st ->
  sr_inv ws {| SRS.sender := SRS.slide_window (SRS.sender st);
            SRS.receiver := SRS.receiver st; SRS.world := SRS.world st |}.
Proof.
  intros (Hwin & Hws & Hsize & Hmax & Hrecv).
  unfold SRS.slide_window.
  destruct (window_inv_slide_loop _ (size (SRS.ack_received (SRS.sender st)))
              _ Hwin) as (H1 & H2 & H3 & H4 & H5 & H6 & H7).
  unfold sr_inv. cbn [SRS.sender SRS.receiver].
  rewrite H3, H4, H5. split_and!; try done. lia.
Qed.

Lemma sr_inv_pass (rng lag : nat -> Q) (ws : Z) (st : SRS.State) :
  sr_inv ws st -> sr_inv ws (SRS.pass rng lag st).2.
Proof.
  intros Hinv. unfold SRS.pass. cbn [snd].
  apply sr_inv_slide, sr_inv_check_individual_timeouts,
    sr_inv_send_new_frames, Hinv.
Qed.

Lemma sr_inv_passes (rng lag : nat -> Q) (ws : Z) (n : nat) :
  forall st, sr_inv ws st -> sr_inv ws (SRS.passes rng lag n st).
Proof.
  induction n as [|n IH]; intros st Hinv; cbn [SRS.passes]; [done|].
  destruct (SRS.busy (SRS.sender st)); [|done].
  pose proof (sr_inv_pass rng lag ws st Hinv) as Hpass.
  destruct (SRS.pass rng lag st) as [[] st']; [done|].
  apply IH. exact Hpass.
Qed.

Lemma sr_inv_start (ws_s ws_r : Z) (tmo : Q) (payloads : list string) :
  sr_inv ws_s (SRS.start ws_s ws_r tmo payloads).
Proof.
  unfold sr_inv, SRS.start. cbn. split_and!.
  - unfold window_inv. cbn. split_and!; done.
  - done.
  - lia.
  - done.
  - split; [done|]. intros s d. cbn. by rewrite lookup_empty.
Qed.

Lemma sr_send_frames_final (rng lag : nat -> Q) (n : nat) :
  forall st b st',
    SRS.send_frames rng lag n st = Some (b, st') ->
    b = true /\ st' = SRS.passes rng lag n st.
Proof.
  induction n as [|n IH]; intros st b st'.
  - cbn. destruct (SRS.busy _); [done|]. by intros [= <- <-].
  - rewrite sr_send_frames_unfold. cbn [SRS.passes].
    destruct (SRS.busy _); [|by intros [= <- <-]].
    destruct (SRS.pass rng lag st) as [[] st1]; [by intros [= <- <-]|].
    apply IH.
Qed.

(** C4, amended: for a sender constructed with a non-negative window size
    (the receiver's window size is arbitrary), at every pass boundary of a
    run and in its final state: [0 <= next_seq_num - base <= window_size],
    every key of the sender window lies in [[base, next_seq_num)], and
    every number the receiver holds in its buffer is inside its modular
    window. *)
Theorem selective_repeat_window_invariant
    (rng lag : nat -> Q) (ws_s ws_r : Z) (tmo : Q) (payloads : list string)
    (n : nat) :
  0 <= ws_s ->
  let st := SRS.passes rng lag n (SRS.start ws_s ws_r tmo payloads) in
  0 <= SRS.next_seq_num (SRS.sender st) - SRS.base (SRS.sender st)
    <= SRS.window_size (SRS.sender st)
  /\ (forall k e, SRS.window (SRS.sender st) !! k = Some e ->
        SRS.base (SRS.sender st) <= k < SRS.next_seq_num (SRS.sender st))
  /\ (forall seq d, SRR.buffer (SRS.receiver st) !! seq = Some d ->
        SRR.is_in_window (SRS.receiver st) seq = true).
Proof.
  intros Hws st.
  destruct (sr_inv_passes rng lag ws_s n _
              (sr_inv_start ws_s ws_r tmo payloads))
    as ((HB & HK & _) & Hw & Hsize & _ & _ & Hbuf).
  fold st in HB, HK, Hw, Hsize, Hbuf.
  split_and!.
  - lia.
  - rewrite Hw. lia.
  - intros k e Hk. by destruct (HK k e Hk).
  - intros seq d Hd. by destruct (Hbuf seq d Hd).
Qed.

Lemma selective_repeat_window_invariant_witness :
  let rng := (fun i : nat => if (i =? 3)%nat then 0 else 1 # 2)%Q in
  let lag := (fun _ : nat => 0%Q) in
  let payloads := ["p0"; "p1"; "p2"; "p3"; "p4"; "p5"]%string in
  0 <= 4
  /\ let st := SRS.passes rng lag 3 (SRS.start 4 4 2 payloads) in
     0 <= SRS.next_seq_num (SRS.sender st) - SRS.base (SRS.sender st)
       <= SRS.window_size (SRS.sender st)
     /\ (forall k e, SRS.window (SRS.sender st) !! k = Some e ->
           SRS.base (SRS.sender st) <= k < SRS.next_seq_num (SRS.sender st))
     /\ (forall seq d, SRR.buffer (SRS.receiver st) !! seq = Some d ->
           SRR.is_in_window (SRS.receiver st) seq = true).
Proof.
  intros rng lag payloads. split; [lia|].
  apply (selective_repeat_window_invariant rng lag 4 4 2 payloads 3). lia.
Defined.

(** C4 fails on the code for a negative window size, which the constructor
    accepts: with [window_size = -1] nothing is ever sent, [next_seq_num]
    and [base] stay 0, and [next_seq_num - base <= window_size] is false
    in the initial state and after every pass. *)
Lemma negative_window_breaks_invariant :
  let rng := (fun _ : nat => 1 # 2)%Q in
  let lag := (fun _ : nat => 0%Q) in
  let st0 := SRS.start (-1) (-1) 2 ["p0"]%string in
  let st1 := SRS.passes rng lag 1 st0 in
  SRS.window_size (SRS.sender st0) = -1
  /\ SRS.next_seq_num (SRS.sender st0) - SRS.base (SRS.sender st0) = 0
  /\ SRS.window_size (SRS.sender st1) = -1
  /\ SRS.next_seq_num (SRS.sender st1) - SRS.base (SRS.sender st1) = 0
  /\ (0 <=? -1) = false.
Proof. vm_compute. repeat split. Qed.

(** ** Selective Repeat: retransmission of a single frame *)

Lemma sr_deliver_loop_count (n : nat) :
  forall r,
    SRR.total_frames_received (SRR.deliver_loop n r)
    = SRR.total_frames_received r.
Proof.
  induction n as [|n IH]; intros r; cbn [SRR.deliver_loop]; [done|].
  destruct (SRR.buffer r !! _); [|done]. by rewrite IH.
Qed.

Lemma sr_receive_frame_count
    (rng : nat -> Q) (f : Frame.t) (r : SRR.t) (w : World) :
  SRR.total_frames_received (SRR.receive_frame rng f r w).1.2
  = SRR.total_frames_received r + 1.
Proof.
  unfold SRR.receive_frame, Frame.is_corrupted, SRR.send_ack, random_random,
    SRR.deliver_frames.
  destruct (Qlt_bool _ _); [done|].
  destruct (Qlt_bool _ _); [done|].
  destruct (SRR.is_in_window _ _).
  - destruct (SRR.buffer _ !! _); destruct (Qlt_bool _ _);
      cbn [fst snd]; by rewrite sr_deliver_loop_count.
  - destruct (SRR.is_already_delivered _ _); [|done].
    by destruct (Qlt_bool _ _).
Qed.

(** Retransmitting frame [k] leaves alone every other frame [m] that is
    not outstanding or whose modular number differs from that of [k]. *)
Lemma sr_selective_retransmit_others (rng lag : nat -> Q) (k m : Z)
    (st : SRS.State) (e : WinEntry) :
  SRS.window (SRS.sender st) !! k = Some e ->
  m <> k ->
  m mod SRS.max_seq_num (SRS.sender st) <> Frame.seq_num (we_frame e)
  \/ SRS.window (SRS.sender st) !! m = None ->
  let st' := SRS.selective_retransmit rng lag k st in
  SRS.window (SRS.sender st') !! m = SRS.window (SRS.sender st) !! m
  /\ ODict.get m (SRS.individual_timers (SRS.sender st'))
     = ODict.get m (SRS.individual_timers (SRS.sender st))
  /\ SRS.total_transmissions (SRS.sender st')
     = SRS.total_transmissions (SRS.sender st) + 1
  /\ SRS.retransmissions (SRS.sender st')
     = SRS.retransmissions (SRS.sender st) + 1
  /\ SRR.total_frames_received (SRS.receiver st')
     = SRR.total_frames_received (SRS.receiver st) + 1.
Proof.
  intros Hk Hne Hm st'. unfold st', SRS.selective_retransmit. rewrite Hk.
  pose proof (sr_receive_frame_outcome rng (we_frame e) (SRS.receiver st)
                (SRS.world st)) as Hout.
  pose proof (sr_receive_frame_count rng (we_frame e) (SRS.receiver st)
                (SRS.world st)) as Hcount.
  destruct (SRR.receive_frame rng _ _ _) as [[acks r'] w'].
  cbn [fst snd] in Hout, Hcount.
  set (s2 := SRS.set_individual_timers _ _).
  cbn [SRS.sender SRS.receiver].
  destruct (sr_process_acks_counters acks s2) as (H1&H2&H3&H4&H5&H6&H7&H8).
  rewrite H7, H8.
  assert (Hw2 : SRS.window s2 !! m = SRS.window (SRS.sender st) !! m).
  { unfold s2. cbn. by rewrite lookup_insert_ne. }
  assert (Ht2 : ODict.get m (SRS.individual_timers s2)
                = ODict.get m (SRS.individual_timers (SRS.sender st))).
  { unfold s2. cbn. by rewrite odict_get_set_ne. }
  split_and!; try done.
  - destruct (rx_outcome_shape _ _ _ _ Hout) as [->|[->| ->]]; cbn;
      [done|done|].
    rewrite sr_process_ack_window, Hw2.
    destruct (decide _) as [Hmod|]; [|done].
    destruct Hm as [Hm|Hm]; [|done]. by destruct Hm.
  - destruct (rx_outcome_shape _ _ _ _ Hout) as [->|[->| ->]]; cbn;
      [done|done|].
    rewrite sr_process_ack_timers, Hw2.
    destruct (decide _) as [[Hmod Hsome]|]; [|done].
    destruct Hm as [Hm|Hm]; [by destruct Hm|].
    rewrite Hm in Hsome. by destruct Hsome.
Qed.




(** ** Delivery in order: Stop-and-Wait *)

(** Sender and receiver agree on the sequence bit between two calls of
    [send_frame], so the receiver's duplicate branch is never taken. *)
Definition sw_inv (st : SWS.State) : Prop :=
  SWS.seq_num (SWS.sender st) = SWR.expected_seq_num (SWS.receiver st).

Lemma sw_attempts_delivery (rng lag : nat -> Q) (frame : Frame.t)
    (fuel : nat) :
  forall st,
    sw_inv st ->
    Frame.seq_num frame = SWS.seq_num (SWS.sender st) ->
    sw_inv (SWS.attempts rng lag fuel frame st).2
    /\ (SWR.received_frames
          (SWS.receiver (SWS.attempts rng lag fuel frame st).2)
        = SWR.received_frames (SWS.receiver st)
        \/ SWR.received_frames
             (SWS.receiver (SWS.attempts rng lag fuel frame st).2)
           = SWR.received_frames (SWS.receiver st) ++ [Frame.data frame]).
Proof.
  induction fuel as [|fuel IH]; intros st Hinv Hseq; [by auto|].
  rewrite sw_attempts_unfold. cbv zeta.
  destruct (_ && _); [|by auto].
  unfold SWR.receive_frame, Frame.is_corrupted, SWR.send_ack, SWR.send_nak,
    random_random.
  destruct (Qlt_bool _ _).
  { match goal with
    | |- context [SWS.attempts rng lag fuel frame ?st1] =>
        destruct (IH st1) as [H1 H2]; [done|done|]
    end.
    split; [exact H1|exact H2]. }
  destruct (Qlt_bool _ _).
  { match goal with
    | |- context [SWS.attempts rng lag fuel frame ?st1] =>
        destruct (IH st1) as [H1 H2]; [done|done|]
    end.
    split; [exact H1|exact H2]. }
  unfold sw_inv in Hinv.
  destruct (Z.eqb_spec (Frame.seq_num frame)
              (SWR.expected_seq_num (SWS.receiver st))) as [Heq|Hne].
  - cbn. split; [unfold sw_inv; cbn; lia|by right].
  - congruence.
Qed.

Lemma sw_send_frame_delivery (rng lag : nat -> Q) (d : string)
    (st : SWS.State) :
  sw_inv st ->
  sw_inv (SWS.send_frame rng lag d st).2
  /\ (SWR.received_frames (SWS.receiver (SWS.send_frame rng lag d st).2)
      = SWR.received_frames (SWS.receiver st)
      \/ SWR.received_frames (SWS.receiver (SWS.send_frame rng lag d st).2)
         = SWR.received_frames (SWS.receiver st) ++ [d]).
Proof.
  intros Hinv. unfold SWS.send_frame.
  apply (sw_attempts_delivery rng lag
           (Frame.make (SWS.seq_num (SWS.sender st)) DATA d) 5
           {| SWS.sender := _; SWS.receiver := SWS.receiver st;
              SWS.world := SWS.world st |}); done.
Qed.

Lemma sw_send_all_delivery (rng lag : nat -> Q) (payloads : list string) :
  forall (count : Z) (st : SWS.State),
    sw_inv st ->
    exists delivered,
      SWR.received_frames
        (SWS.receiver (SWS.send_all rng lag payloads count st).2)
      = SWR.received_frames (SWS.receiver st) ++ delivered
      /\ delivered `sublist_of` payloads.
Proof.
  induction payloads as [|d rest IH]; intros count st Hinv;
    cbn [SWS.send_all].
  - exists []. by rewrite app_nil_r.
  - destruct (sw_send_frame_delivery rng lag d st Hinv) as [Hinv' Hrecv].
    destruct (SWS.send_frame rng lag d st) as [ok st1]. cbn [snd] in *.
    destruct (IH (if ok then count + 1 else count)
                {| SWS.sender := SWS.sender st1;
                   SWS.receiver := SWS.receiver st1;
                   SWS.world := time_sleep lag (1 # 2) (SWS.world st1) |}
                Hinv') as (l & Hl & Hsub).
    cbn [SWS.receiver] in Hl.
    destruct Hrecv as [Hrecv|Hrecv]; rewrite Hrecv in Hl.
    + exists l. split; [done|]. by apply sublist_cons.
    + exists (d :: l). split; [by rewrite Hl, <- app_assoc|].
      by apply sublist_skip.
Qed.

(** ** Delivery in order: Go-Back-N *)

Lemma take_sublist_le {A} (l : list A) (a b : nat) :
  (a <= b)%nat -> take a l `sublist_of` take b l.
Proof.
  intros Hle. replace a with (a `min` b)%nat by lia.
  rewrite <- take_take. apply sublist_take.
Qed.

Lemma max_list_spec (l : list Z) :
  forall x, max_list x l ∈ x :: l /\ forall y, y ∈ x :: l -> y <= max_list x l.
Proof.
  unfold max_list. induction l as [|z l IH]; intros x; cbn [foldl].
  - split; [by left|]. intros y ->%list_elem_of_singleton. lia.
  - destruct (IH (x `max` z)) as [Hin Hle]. split.
    + apply elem_of_cons in Hin as [Heq|Hin].
      * rewrite Heq. destruct (Z.max_spec x z) as [[_ ->]|[_ ->]].
        -- right. by left.
        -- by left.
      * right. by right.
    + intros y [->|[->|Hy]%elem_of_cons]%elem_of_cons.
      * specialize (Hle (x `max` z) ltac:(by left)). lia.
      * specialize (Hle (x `max` z) ltac:(by left)). lia.
      * apply Hle. by right.
Qed.

Lemma gbn_remove_window (l : list Z) :
  forall s j,
    let s' :=
      foldl (λ s k, GBS.set_window (delete k (GBS.window s)) s) s l in
    GBS.window s' !! j = (if decide (j ∈ l) then None else GBS.window s !! j)
    /\ GBS.base s' = GBS.base s
    /\ GBS.next_seq_num s' = GBS.next_seq_num s
    /\ GBS.max_seq_num s' = GBS.max_seq_num s
    /\ GBS.window_size s' = GBS.window_size s
    /\ GBS.data_buffer s' = GBS.data_buffer s.
Proof.
  induction l as [|k l IH]; intros s j; cbn [foldl].
  - rewrite decide_False; [done|]. apply not_elem_of_nil.
  - destruct (IH (GBS.set_window (delete k (GBS.window s)) s) j)
      as (H1 & H2 & H3 & H4 & H5 & H6).
    cbv zeta. rewrite H1, H2, H3, H4, H5, H6. split_and!; try done.
    cbn. destruct (decide (j ∈ l)) as [Hin|Hnin].
    + rewrite decide_True; [done|]. by right.
    + destruct (decide (j = k)) as [->|Hne].
      * rewrite decide_True by left. apply lookup_delete_eq.
      * rewrite decide_False.
        -- by apply lookup_delete_ne.
        -- intros [?|?]%elem_of_cons; done.
Qed.

Lemma gbn_process_ack_spec (a : Z) (s : GBS.t) (N : Z) :
  (forall k e, GBS.window s !! k = Some e -> GBS.base s <= k < N) ->
  GBS.base s <= N ->
  let s' := GBS.process_ack a s in
  (forall j e, GBS.window s' !! j = Some e ->
     GBS.window s !! j = Some e /\ GBS.base s' <= j)
  /\ GBS.base s <= GBS.base s' <= N
  /\ GBS.next_seq_num s' = GBS.next_seq_num s
  /\ GBS.max_seq_num s' = GBS.max_seq_num s
  /\ GBS.window_size s' = GBS.window_size s
  /\ GBS.data_buffer s' = GBS.data_buffer s.
Proof.
  intros HK HB. unfold GBS.process_ack.
  pose proof (gbn_remove_window (GBS.frames_to_remove a s) s) as Hrem.
  assert (Hmem : forall j, j ∈ GBS.frames_to_remove a s <->
            GBS.is_in_range j (GBS.base s) a = true
            /\ is_Some (GBS.window s !! j)).
  { intros j. unfold GBS.frames_to_remove.
    by rewrite list_elem_of_filter, elem_of_elements, elem_of_dom. }
  destruct (GBS.frames_to_remove a s) as [|k ks] eqn:Hl.
  - cbn. split_and!; try done; try lia.
    intros j e Hj. split; [done|]. by apply (HK j e).
  - set (l := k :: ks) in *. cbv zeta.
    destruct (max_list_spec ks k) as [Hin Hmax].
    apply Hmem in Hin as [Hrange [eM HM]].
    destruct (HK _ _ HM) as [HM1 HM2].
    cbn [GBS.set_base GBS.base GBS.window GBS.next_seq_num GBS.max_seq_num
         GBS.window_size GBS.data_buffer].
    split_and!; try (by apply (Hrem 0)); try lia.
    intros j e. destruct (Hrem j) as [-> _].
    destruct (decide (j ∈ l)) as [|Hnin]; [done|]. intros Hj.
    split; [done|].
    destruct (HK _ _ Hj) as [Hj1 Hj2].
    assert (Hjr : GBS.is_in_range j (GBS.base s) a = false).
    { destruct (GBS.is_in_range j (GBS.base s) a) eqn:E; [|done].
      exfalso. apply Hnin, Hmem. split; [done|]. by exists e. }
    unfold GBS.is_in_range in Hrange, Hjr.
    destruct (GBS.base s <=? a); lia.
Qed.

(** What [receive_frame] can do to the receiver: nothing, or accept the
    frame bearing the expected modular number. *)
Lemma gbn_receive_frame_outcome
    (rng : nat -> Q) (f : Frame.t) (r : GBR.t) (w : World) :
  let r' := (GBR.receive_frame rng f r w).1.2 in
  GBR.max_seq_num r' = GBR.max_seq_num r
  /\ ((GBR.expected_seq_num r' = GBR.expected_seq_num r
       /\ GBR.received_frames r' = GBR.received_frames r)
      \/ (Frame.seq_num f = GBR.expected_seq_num r mod GBR.max_seq_num r
          /\ GBR.expected_seq_num r' = GBR.expected_seq_num r + 1
          /\ GBR.received_frames r'
             = GBR.received_frames r ++ [Frame.data f])).
Proof.
  unfold GBR.receive_frame, Frame.is_corrupted, GBR.send_ack, random_random.
  destruct (Qlt_bool _ _); [cbn; auto|].
  destruct (Qlt_bool _ _); [cbn; auto|].
  cbn [GBR.inc_total_frames_received GBR.expected_seq_num GBR.max_seq_num].
  destruct (Z.eqb_spec (Frame.seq_num f)
              (GBR.expected_seq_num r mod GBR.max_seq_num r)) as [Heq|Hne].
  - destruct (Qlt_bool _ _); cbn; (split; [done|]); right; by split_and!.
  - repeat match goal with
           | |- context [if ?b then _ else _] => destruct b
           end; cbn; auto.
Qed.

(** The Go-Back-N invariant for payloads [P], window size [ws] and
    instance numbers below [N]: the window holds frames of [P] with keys in
    [[base, N)], at most [ws] instances are between [base] and [N], and
    the delivered frames are a subsequence of the first [L + 1] payloads,
    where [L < N] is the last accepted instance and the receiver expects
    the modular number of [L + 1]. *)
Definition gbn_inv (P : list string) (ws N : Z) (s : GBS.t) (r : GBR.t)
  : Prop :=
  GBS.max_seq_num s = 8
  /\ GBR.max_seq_num r = 8
  /\ GBS.window_size s = ws
  /\ 0 <= GBS.base s <= N
  /\ N <= GBS.base s + Z.max 0 ws
  /\ (forall k e, GBS.window s !! k = Some e ->
        GBS.base s <= k < N
        /\ exists d, P !! Z.to_nat k = Some d
                     /\ we_frame e = Frame.make (k mod 8) DATA d)
  /\ exists L, -1 <= L < N
               /\ 0 <= GBR.expected_seq_num r
               /\ GBR.expected_seq_num r mod 8 = (L + 1) mod 8
               /\ GBR.received_frames r
                  `sublist_of` take (Z.to_nat (L + 1)) P.

Lemma gbn_inv_process_ack (P : list string) (ws N a : Z) (s : GBS.t)
    (r : GBR.t) :
  gbn_inv P ws N s r -> gbn_inv P ws N (GBS.process_ack a s) r.
Proof.
  intros (Hm & Hmr & Hw & HB & HS & HK & HL).
  destruct (gbn_process_ack_spec a s N) as (H1 & H2 & H3 & H4 & H5 & H6).
  { intros k e Hk. by destruct (HK k e Hk). }
  { lia. }
  unfold gbn_inv. rewrite H4, H5. split_and!; try done; try lia.
  intros k e Hk. destruct (H1 k e Hk) as [Hk0 Hge].
  destruct (HK k e Hk0) as [Hr Hd]. split; [lia|done].
Qed.

Lemma gbn_inv_receive (rng : nat -> Q) (P : list string) (ws N : Z)
    (s : GBS.t) (r : GBR.t) (w : World) (k : Z) (e : WinEntry) :
  ws <= 7 ->
  gbn_inv P ws N s r ->
  GBS.window s !! k = Some e ->
  gbn_inv P ws N s (GBR.receive_frame rng (we_frame e) r w).1.2.
Proof.
  intros Hws (Hm & Hmr & Hw & HB & HS & HK & L & HL & Hexp & Hmod & Hsub) Hk.
  pose proof (gbn_receive_frame_outcome rng (we_frame e) r w) as Hout.
  cbv zeta in Hout.
  remember (GBR.receive_frame rng (we_frame e) r w).1.2 as r' eqn:Hr'.
  clear Hr'. destruct Hout as [Hmax [[He Hr]|(Hseq & He & Hr)]].
  - unfold gbn_inv. rewrite Hmax, He, Hr.
    split_and!; try done; try lia. by exists L.
  - destruct (HK k e Hk) as [Hrange (d & Hd & Hf)].
    rewrite Hf in Hseq, Hr. cbn in Hseq, Hr. rewrite Hmr in Hseq.
    assert (HkL : L + 1 <= k).
    { assert (Hdiff : (k - (L + 1)) mod 8 = 0).
      { rewrite Zminus_mod, Hseq, Hmod, Z.sub_diag. done. }
      apply Z.mod_divide in Hdiff; [|lia]. destruct Hdiff as [q Hq]. lia. }
    unfold gbn_inv. rewrite Hmax, He, Hr.
    split_and!; try done; try lia. exists k. split_and!; try lia.
    + rewrite <- (Z.add_mod_idemp_l k 1), Hseq, Z.add_mod_idemp_l by lia.
      done.
    + replace (Z.to_nat (k + 1)) with (S (Z.to_nat k)) by lia.
      rewrite (take_S_r _ _ d) by done.
      apply sublist_app; [|done].
      etrans; [exact Hsub|].
      apply take_sublist_le. lia.
Qed.

Lemma gbn_process_ack_frame (a : Z) (s : GBS.t) :
  GBS.next_seq_num (GBS.process_ack a s) = GBS.next_seq_num s
  /\ GBS.data_buffer (GBS.process_ack a s) = GBS.data_buffer s.
Proof.
  unfold GBS.process_ack. generalize (GBS.frames_to_remove a s). intros l.
  destruct (gbn_remove_window l s 0) as (_ & _ & H3 & _ & _ & H6).
  destruct l; [done|].
  cbn [GBS.set_base GBS.next_seq_num GBS.data_buffer]. by rewrite H3, H6.
Qed.

Lemma gbn_inv_ext (P : list string) (ws N : Z) (s s' : GBS.t) (r : GBR.t) :
  GBS.max_seq_num s' = GBS.max_seq_num s ->
  GBS.window_size s' = GBS.window_size s ->
  GBS.base s' = GBS.base s ->
  (forall k e', GBS.window s' !! k = Some e' ->
     exists e, GBS.window s !! k = Some e /\ we_frame e' = we_frame e) ->
  gbn_inv P ws N s r -> gbn_inv P ws N s' r.
Proof.
  intros Hm Hw Hb Hwin (H1 & H2 & H3 & H4 & H5 & HK & HL).
  unfold gbn_inv. rewrite Hm, Hw, Hb. split_and!; try done; try lia.
  intros k e' Hk. destruct (Hwin k e' Hk) as (e & He & ->). by apply HK.
Qed.

Definition gbn_state_inv (P : list string) (ws : Z) (st : GBS.State)
  : Prop :=
  gbn_inv P ws (GBS.next_seq_num (GBS.sender st)) (GBS.sender st)
    (GBS.receiver st)
  /\ GBS.data_buffer (GBS.sender st)
     = drop (Z.to_nat (GBS.next_seq_num (GBS.sender st))) P.

Lemma gbn_inv_ack (P : list string) (ws N : Z) (ack : option Z) (s : GBS.t)
    (r : GBR.t) :
  gbn_inv P ws N s r ->
  gbn_inv P ws N
    match ack with Some a => GBS.process_ack a s | None => s end r
  /\ GBS.next_seq_num
       match ack with Some a => GBS.process_ack a s | None => s end
     = GBS.next_seq_num s
  /\ GBS.data_buffer
       match ack with Some a => GBS.process_ack a s | None => s end
     = GBS.data_buffer s.
Proof.
  intros Hinv. destruct ack as [a|]; [|done].
  split; [by apply gbn_inv_process_ack|]. apply gbn_process_ack_frame.
Qed.

Lemma gbn_state_inv_retransmit_each (rng lag : nat -> Q) (P : list string)
    (ws : Z) (seqs : list Z) :
  ws <= 7 ->
  forall st,
    gbn_state_inv P ws st ->
    gbn_state_inv P ws (GBS.retransmit_each rng lag seqs st).
Proof.
  intros Hws. induction seqs as [|k seqs IH]; intros st [Hinv Hbuf];
    cbn [GBS.retransmit_each]; [done|].
  destruct (GBS.window (GBS.sender st) !! k) as [e|] eqn:Hk; [|by apply IH].
  set (s1 := GBS.count_retransmission (GBS.sender st)).
  assert (H1 : gbn_inv P ws (GBS.next_seq_num (GBS.sender st)) s1
                 (GBS.receiver st)).
  { apply (gbn_inv_ext _ _ _ (GBS.sender st)); try done.
    intros j e' Hj. by exists e'. }
  destruct (GBS.max_retransmissions s1 <=? GBS.total_retransmission_count s1).
  { split; [exact H1|exact Hbuf]. }
  set (e' := {| we_frame := we_frame e;
                we_timestamp := time_time (GBS.world st);
                we_data := we_data e |}).
  set (s2 := GBS.set_window _ s1).
  assert (H2 : gbn_inv P ws (GBS.next_seq_num (GBS.sender st)) s2
                 (GBS.receiver st)).
  { apply (gbn_inv_ext _ _ _ (GBS.sender st)); try done.
    intros j e0. unfold s2. cbn.
    destruct (decide (j = k)) as [->|Hne].
    - rewrite lookup_insert_eq. intros [= <-]. by exists e.
    - rewrite lookup_insert_ne by done. intros Hj. by exists e0. }
  assert (Hk2 : GBS.window s2 !! k = Some e') by apply lookup_insert_eq.
  pose proof (gbn_inv_receive rng P ws _ s2 (GBS.receiver st)
                (GBS.world st) k e' Hws H2 Hk2) as H3.
  change (we_frame e') with (we_frame e) in H3.
  destruct (GBR.receive_frame rng (we_frame e) _ _) as [[ack r'] w'].
  cbn [fst snd] in H3.
  destruct (gbn_inv_ack P ws _ ack s2 r' H3) as (H4 & H5 & H6).
  apply IH. split; cbn [GBS.sender GBS.receiver].
  - by rewrite H5.
  - by rewrite H5, H6.
Qed.

Lemma gbn_state_inv_check_timeouts (rng lag : nat -> Q) (P : list string)
    (ws : Z) (st : GBS.State) :
  ws <= 7 ->
  gbn_state_inv P ws st ->
  gbn_state_inv P ws (GBS.check_timeouts rng lag st).
Proof.
  intros Hws Hinv. unfold GBS.check_timeouts.
  destruct (elements _) as [|k ks]; [done|].
  destruct (GBS.window (GBS.sender st) !! _); [|done].
  destruct (Qlt_bool _ _); [|done].
  unfold GBS.go_back_n_retransmit.
  destruct (_ <=? _); [done|].
  by apply gbn_state_inv_retransmit_each.
Qed.

Lemma gbn_state_inv_send_new_frame (rng lag : nat -> Q) (P : list string)
    (ws : Z) (d : string) (rest : list string) (st : GBS.State) :
  ws <= 7 ->
  gbn_state_inv P ws st ->
  GBS.can_send (GBS.sender st) = true ->
  GBS.data_buffer (GBS.sender st) = d :: rest ->
  gbn_state_inv P ws (GBS.send_new_frame rng lag d rest st).
Proof.
  intros Hws [Hinv Hbuf] Hcan Hd.
  apply andb_prop in Hcan as [Hroom%Z.ltb_lt _].
  destruct Hinv as (Hm & Hmr & Hw & HB & HS & HK & L & HL & HL').
  set (N := GBS.next_seq_num (GBS.sender st)) in *.
  assert (HPd : P !! Z.to_nat N = Some d /\ rest = drop (Z.to_nat (N + 1)) P).
  { rewrite Hd in Hbuf.
    replace (Z.to_nat (N + 1)) with (S (Z.to_nat N)) by lia.
    destruct (P !! Z.to_nat N) as [d'|] eqn:HP.
    - rewrite (drop_S _ _ _ HP) in Hbuf. by injection Hbuf as -> ->.
    - apply lookup_ge_None in HP. by rewrite drop_ge in Hbuf. }
  destruct HPd as [HPd Hrest].
  unfold GBS.send_new_frame.
  set (f := Frame.make _ DATA d).
  set (e := {| we_frame := f; we_timestamp := time_time (GBS.world st);
               we_data := d |}).
  set (s2 := GBS.set_total_transmissions _ _).
  assert (H2 : gbn_inv P ws (N + 1) s2 (GBS.receiver st)).
  { unfold gbn_inv, s2. cbn. fold N. rewrite Hm, Hw in *.
    split_and!; try done; try lia.
    - intros j e0. destruct (decide (j = N)) as [->|Hne].
      + rewrite lookup_insert_eq. intros [= <-]. split; [lia|].
        exists d. split; [done|]. unfold e, f. cbn. by rewrite Hm.
      + rewrite lookup_insert_ne by done. intros Hj.
        destruct (HK j e0 Hj) as [Hr Hx]. split; [lia|done].
    - exists L. split; [lia|done]. }
  assert (Hk2 : GBS.window s2 !! N = Some e) by apply lookup_insert_eq.
  pose proof (gbn_inv_receive rng P ws _ s2 (GBS.receiver st)
                (GBS.world st) N e Hws H2 Hk2) as H3.
  change (we_frame e) with f in H3.
  destruct (GBR.receive_frame rng f _ _) as [[ack r'] w'].
  cbn [fst snd] in H3.
  destruct (gbn_inv_ack P ws _ ack s2 r' H3) as (H4 & H5 & H6).
  split; cbn [GBS.sender GBS.receiver].
  - cbn [GBS.set_next_seq_num GBS.next_seq_num]. rewrite H5.
    change (GBS.next_seq_num s2) with N.
    eapply gbn_inv_ext; [| | | |exact H4]; try done.
    intros j e0 Hj. by exists e0.
  - cbn [GBS.set_next_seq_num GBS.next_seq_num GBS.data_buffer].
    rewrite H5, H6. done.
Qed.

Lemma gbn_state_inv_send_new_frames (rng lag : nat -> Q) (P : list string)
    (ws : Z) (fuel : nat) :
  ws <= 7 ->
  forall st,
    gbn_state_inv P ws st ->
    gbn_state_inv P ws (GBS.send_new_frames rng lag fuel st).
Proof.
  intros Hws. induction fuel as [|fuel IH]; intros st Hinv;
    cbn [GBS.send_new_frames]; [done|].
  destruct (GBS.can_send (GBS.sender st)) eqn:Hcan; [|done].
  destruct (GBS.data_buffer (GBS.sender st)) as [|d rest] eqn:Hd; [done|].
  apply IH. by apply gbn_state_inv_send_new_frame.
Qed.

Lemma gbn_state_inv_send_loop (rng lag : nat -> Q) (P : list string)
    (ws : Z) (fuel : nat) :
  ws <= 7 ->
  forall count st,
    gbn_state_inv P ws st ->
    gbn_state_inv P ws (GBS.send_loop rng lag fuel count st).2.
Proof.
  intros Hws. induction fuel as [|fuel IH]; intros count st Hinv;
    cbn [GBS.send_loop]; [done|].
  destruct (_ && _); [|done].
  set (st1 := GBS.send_new_frames rng lag _ st).
  assert (H1 : gbn_state_inv P ws st1)
    by by apply gbn_state_inv_send_new_frames.
  set (st2 := if (count + 1) mod 3 =? 0
              then GBS.check_timeouts rng lag st1 else st1).
  assert (H2 : gbn_state_inv P ws st2).
  { unfold st2. destruct (_ =? _); [|done].
    by apply gbn_state_inv_check_timeouts. }
  destruct (negb _); [done|]. by apply IH.
Qed.

Lemma gbn_state_inv_start (ws : Z) (tmo : Q) (P : list string) :
  gbn_state_inv P ws (GBS.start ws tmo P).
Proof.
  split; [|done]. unfold gbn_inv. cbn. split_and!; try done; try lia.
  exists (-1). cbn. split_and!; done.
Qed.

(** ** Delivery in order: Selective Repeat *)

(** With a window of at most half the sequence space, the modular window
    test tells the instances of the window from the [4] instances before
    it. *)
Lemma sr_is_in_window_instance (r : SRR.t) (k : Z) :
  SRR.max_seq_num r = 8 ->
  1 <= SRR.window_size r <= 4 ->
  SRR.base r - 4 <= k < SRR.base r + SRR.window_size r ->
  SRR.is_in_window r (k mod 8) = true <-> SRR.base r <= k.
Proof.
  intros Hm Hw Hk. unfold SRR.is_in_window. rewrite Hm.
  repeat match goal with
  | |- context [?a <=? ?b] => destruct (Z.leb_spec a b)
  end; cbn; (split; intros Hx; try done);
    first [Z.div_mod_to_equations; lia
          | exfalso; Z.div_mod_to_equations; lia].
Qed.

(** The receiver delivered the first [base] payloads and holds in its
    buffer payloads of instances in [[base, N)], under their modular
    numbers. *)
Definition buffer_ok (P : list string) (N : Z) (r : SRR.t) : Prop :=
  SRR.max_seq_num r = 8
  /\ 0 <= SRR.base r <= N
  /\ N <= SRR.base r + 8
  /\ SRR.received_frames r = take (Z.to_nat (SRR.base r)) P
  /\ forall q d, SRR.buffer r !! q = Some d ->
       exists k, SRR.base r <= k < N /\ k mod 8 = q
                 /\ P !! Z.to_nat k = Some d.

(** Instance [k] reached the receiver: it was delivered or is buffered. *)
Definition arrived (r : SRR.t) (k : Z) : Prop :=
  k < SRR.base r \/ is_Some (SRR.buffer r !! (k mod 8)).

Lemma buffer_ok_deliver_one (P : list string) (N : Z) (r : SRR.t)
    (d : string) :
  buffer_ok P N r ->
  SRR.buffer r !! (SRR.base r mod 8) = Some d ->
  buffer_ok P N (SRR.deliver_one d r)
  /\ forall k, N - 8 <= k < N -> arrived r k ->
       arrived (SRR.deliver_one d r) k.
Proof.
  intros (Hm & Hb & HN & Hrecv & Hbuf) Hd.
  destruct (Hbuf _ _ Hd) as (k0 & Hk0 & Hmod0 & HP0).
  assert (k0 = SRR.base r) as ->.
  { assert (Hdiff : (k0 - SRR.base r) mod 8 = 0).
    { rewrite Zminus_mod, Hmod0, Z.sub_diag. done. }
    apply Z.mod_divide in Hdiff; [|lia]. destruct Hdiff as [q Hq]. lia. }
  split.
  - unfold buffer_ok. cbn [SRR.deliver_one SRR.max_seq_num SRR.base
      SRR.received_frames SRR.buffer]. rewrite Hm.
    split_and!; try done; try lia.
    + replace (Z.to_nat (SRR.base r + 1)) with (S (Z.to_nat (SRR.base r)))
        by lia.
      rewrite (take_S_r _ _ d) by done. by rewrite Hrecv.
    + intros q d'. destruct (decide (q = SRR.base r mod 8)) as [->|Hne].
      * by rewrite lookup_delete_eq.
      * rewrite lookup_delete_ne by done. intros Hq.
        destruct (Hbuf q d' Hq) as (k & Hk & Hmod & HP).
        exists k. split_and!; try done; try lia.
        assert (k <> SRR.base r) by congruence. lia.
  - intros k Hk [Hlt|Hsome]; [left; cbn; lia|].
    unfold arrived. cbn [SRR.deliver_one SRR.base SRR.buffer]. rewrite Hm.
    destruct (decide (k mod 8 = SRR.base r mod 8)) as [Heq|Hne].
    + left.
      assert (Hdiff : (k - SRR.base r) mod 8 = 0).
      { rewrite Zminus_mod, Heq, Z.sub_diag. done. }
      apply Z.mod_divide in Hdiff; [|lia]. destruct Hdiff as [q Hq]. lia.
    + right. by rewrite lookup_delete_ne.
Qed.

Lemma buffer_ok_deliver_loop (P : list string) (N : Z) (n : nat) :
  forall r,
    buffer_ok P N r ->
    buffer_ok P N (SRR.deliver_loop n r)
    /\ SRR.base r <= SRR.base (SRR.deliver_loop n r)
    /\ SRR.window_size (SRR.deliver_loop n r) = SRR.window_size r
    /\ (forall k, N - 8 <= k < N -> arrived r k ->
          arrived (SRR.deliver_loop n r) k)
    /\ ((size (SRR.buffer r) <= n)%nat ->
        SRR.buffer (SRR.deliver_loop n r)
          !! (SRR.base (SRR.deliver_loop n r) mod 8) = None).
Proof.
  induction n as [|n IH]; intros r Hok; cbn [SRR.deliver_loop].
  - split_and!; try done. intros Hsize.
    assert (SRR.buffer r = ∅) as -> by (apply map_size_empty_inv; lia).
    apply lookup_empty.
  - pose proof Hok as (Hm & _). rewrite Hm.
    destruct (SRR.buffer r !! (SRR.base r mod 8)) as [d|] eqn:Hd;
      [|by split_and!].
    destruct (buffer_ok_deliver_one P N r d Hok Hd) as [Hok1 Harr1].
    destruct (IH _ Hok1) as (H1 & H2 & H3 & H4 & H5).
    split_and!; try done.
    + cbn in H2. lia.
    + intros k Hk Ha. by apply H4, Harr1.
    + intros Hsize. apply H5. cbn [SRR.deliver_one SRR.buffer]. rewrite Hm.
      rewrite map_size_delete, Hd. cbn. lia.
Qed.

(** The joint invariant of a Selective Repeat sender and receiver with the
    same window size [ws], for payloads [P] and instance numbers below
    [N]: the sender's window invariant; the window holds frames of [P]; at
    most [ws] instances lie between the sender's base and [N]; the
    receiver's base is between the sender's base and [N], its buffer holds
    payloads of [P] and not the one at its base; and every instance the
    sender has retired reached the receiver. *)
Definition sr_joint (P : list string) (ws N : Z) (s : SRS.t) (r : SRR.t)
  : Prop :=
  window_inv N s
  /\ SRS.max_seq_num s = 8
  /\ SRS.window_size s = ws
  /\ SRR.window_size r = ws
  /\ N <= SRS.base s + Z.max 0 ws
  /\ (forall k e, SRS.window s !! k = Some e ->
        exists d, P !! Z.to_nat k = Some d
                  /\ we_frame e = Frame.make (k mod 8) DATA d)
  /\ buffer_ok P N r
  /\ SRR.buffer r !! (SRR.base r mod 8) = None
  /\ 0 <= SRS.base s <= SRR.base r
  /\ (forall k, SRS.base s <= k < N -> SRS.window s !! k = None ->
        arrived r k).

Lemma sr_joint_core (P : list string) (ws N : Z) (s : SRS.t)
    (r r' : SRR.t) :
  sr_same_core r r' -> sr_joint P ws N s r -> sr_joint P ws N s r'.
Proof.
  intros (Hw & Hb & Hm & Hbuf & Hrecv).
  unfold sr_joint, buffer_ok, arrived. rewrite Hw, Hb, Hm, Hbuf, Hrecv. done.
Qed.

(** The receiver's side of a transmission of the outstanding frame [k]. *)
Lemma sr_joint_received (P : list string) (ws N : Z) (s : SRS.t)
    (r r' : SRR.t) (k : Z) (e : WinEntry) (acks : option (list Z)) :
  ws <= 4 ->
  sr_joint P ws N s r ->
  SRS.window s !! k = Some e ->
  rx_outcome (we_frame e) r acks r' ->
  sr_joint P ws N s r'
  /\ (acks = Some [Frame.seq_num (we_frame e)] -> arrived r' k).
Proof.
  intros Hws Hj Hk Hout.
  pose proof Hj as (Hwin & Hmax & Hws_s & Hws_r & Hsize & Hfr & Hok & Hnb
                    & Hbase & Harr).
  destruct (Hfr k e Hk) as (d & HPk & Hf).
  pose proof Hwin as (_ & HK & _). destruct (HK k e Hk) as [Hkr _].
  pose proof Hok as (Hmr & Hbr & HN8 & Hrecv & Hbuf).
  assert (Hinst : SRR.is_in_window r (k mod 8) = true <-> SRR.base r <= k).
  { apply sr_is_in_window_instance; [done|lia|lia]. }
  rewrite Hf in Hout. cbn [Frame.make Frame.seq_num Frame.data] in Hout.
  rewrite Hf. cbn [Frame.make Frame.seq_num].
  destruct Hout as [r0 Hcore|r0 Hcore Hnw Hdel|acks0 r1 Hw Hw1 Hb1 Hm1 Hr1
                    Hbuf1 Hacks];
    cbn [Frame.make Frame.seq_num Frame.data] in *.
  - split; [by apply (sr_joint_core P ws N s r)|done].
  - split; [by apply (sr_joint_core P ws N s r)|]. intros _.
    destruct Hcore as (_ & Hb' & _). left. rewrite Hb'.
    destruct (Z.le_gt_cases (SRR.base r) k) as [Hle|Hgt]; [|lia].
    apply Hinst in Hle. congruence.
  - cbn [Frame.make Frame.seq_num Frame.data] in *.
    apply Hinst in Hw as Hge.
    assert (Hok1 : buffer_ok P N r1).
    { unfold buffer_ok. rewrite Hm1, Hb1, Hr1, Hbuf1.
      split_and!; try done; try lia.
      intros q d'. destruct (SRR.buffer r !! (k mod 8)) eqn:Hq0; [apply Hbuf|].
      destruct (decide (q = k mod 8)) as [->|Hne].
      - rewrite lookup_insert_eq. intros [= <-]. exists k.
        split_and!; try done; lia.
      - rewrite lookup_insert_ne by done. apply Hbuf. }
    assert (Hmono : forall j, arrived r j -> arrived r1 j).
    { intros j [Hlt|Hsome]; [left; lia|right].
      rewrite Hbuf1. destruct (SRR.buffer r !! (k mod 8)) eqn:Hq0; [done|].
      destruct (decide (j mod 8 = k mod 8)) as [->|Hne].
      - rewrite lookup_insert_eq. by eexists.
      - by rewrite lookup_insert_ne. }
    assert (Hk1 : arrived r1 k).
    { right. rewrite Hbuf1.
      destruct (SRR.buffer r !! (k mod 8)) eqn:Hq0; [by rewrite Hq0|].
      rewrite lookup_insert_eq. by eexists. }
    destruct (buffer_ok_deliver_loop P N (size (SRR.buffer r1)) r1 Hok1)
      as (G1 & G2 & G3 & G4 & G5).
    split.
    + unfold sr_joint. rewrite G3, Hw1.
      split_and!; try done; try lia.
      * by apply G5.
      * intros j Hj0 Hn. apply G4; [lia|]. by apply Hmono, Harr.
    + intros _. apply G4; [lia|done].
Qed.

(** The sender's side: retiring frame [k], which reached the receiver. *)
Lemma sr_joint_acked (P : list string) (ws N : Z) (s : SRS.t) (r : SRR.t)
    (k : Z) (e : WinEntry) :
  ws <= 4 ->
  sr_joint P ws N s r ->
  SRS.window s !! k = Some e ->
  arrived r k ->
  sr_joint P ws N (SRS.process_ack (k mod 8) s) r.
Proof.
  intros Hws (Hwin & Hmax & Hws_s & Hws_r & Hsize & Hfr & Hok & Hnb
              & Hbase & Harr) Hk Hak.
  pose proof (window_inv_process_ack N s k e Hwin Hk) as Hwin'.
  rewrite Hmax in Hwin'.
  destruct (sr_process_ack_counters (k mod 8) s)
    as [(H1&H2&H3&H4&H5&H6&H7&H8) _].
  destruct Hwin as (_ & HK & _). destruct (HK k e Hk) as [Hkr _].
  unfold sr_joint. rewrite H1, H3, H6.
  split_and!; try done; try lia.
  - intros j e'. rewrite sr_process_ack_window.
    destruct (decide _); [done|]. apply Hfr.
  - intros j Hj. rewrite sr_process_ack_window, Hmax.
    destruct (decide (j mod 8 = k mod 8)) as [Heq|Hne]; [|by apply Harr].
    intros _. replace j with k; [done|].
    assert (Hdiff : (j - k) mod 8 = 0).
    { rewrite Zminus_mod, Heq, Z.sub_diag. done. }
    apply Z.mod_divide in Hdiff; [|lia]. destruct Hdiff as [q Hq]. lia.
Qed.

Lemma sr_joint_transmit (P : list string) (ws N : Z) (s : SRS.t)
    (r r' : SRR.t) (k : Z) (e : WinEntry) (acks : option (list Z)) :
  ws <= 4 ->
  sr_joint P ws N s r ->
  SRS.window s !! k = Some e ->
  rx_outcome (we_frame e) r acks r' ->
  sr_joint P ws N (SRS.process_acks acks s) r'.
Proof.
  intros Hws Hj Hk Hout.
  destruct (sr_joint_received P ws N s r r' k e acks Hws Hj Hk Hout)
    as [Hj' Harr].
  destruct (rx_outcome_shape _ _ _ _ Hout) as [->|[->|Hacks]]; [done|done|].
  specialize (Harr Hacks). subst acks. cbn [SRS.process_acks foldl].
  destruct Hj as (_ & _ & _ & _ & _ & Hfr & _).
  destruct (Hfr k e Hk) as (d & _ & ->). cbn [Frame.make Frame.seq_num].
  by apply (sr_joint_acked P ws N s r' k e).
Qed.

Lemma sr_joint_touch (P : list string) (ws N : Z) (s s' : SRS.t)
    (r : SRR.t) (k : Z) (e e' : WinEntry) :
  SRS.window_size s' = SRS.window_size s ->
  SRS.base s' = SRS.base s ->
  SRS.max_seq_num s' = SRS.max_seq_num s ->
  SRS.window s' = <[k := e']> (SRS.window s) ->
  SRS.ack_received s' = SRS.ack_received s ->
  SRS.window s !! k = Some e ->
  we_frame e' = we_frame e ->
  sr_joint P ws N s r -> sr_joint P ws N s' r.
Proof.
  intros H1 H3 H6 Hw Ha Hk He
    (Hwin & Hmax & Hws_s & Hws_r & Hsize & Hfr & Hok & Hnb & Hbase & Harr).
  unfold sr_joint. rewrite H1, H3, H6.
  split_and!; try done; try lia.
  - by apply (window_inv_touch N s s' k e e').
  - intros j e0. rewrite Hw. destruct (decide (j = k)) as [->|Hne].
    + rewrite lookup_insert_eq. intros [= <-]. rewrite He. by apply Hfr.
    + rewrite lookup_insert_ne by done. apply Hfr.
  - intros j Hj. rewrite Hw. destruct (decide (j = k)) as [->|Hne].
    + by rewrite lookup_insert_eq.
    + rewrite lookup_insert_ne by done. by apply Harr.
Qed.

Lemma sr_joint_admit (P : list string) (ws N : Z) (s s' : SRS.t)
    (r : SRR.t) (e : WinEntry) (d : string) :
  ws <= 4 ->
  SRS.window_size s' = SRS.window_size s ->
  SRS.base s' = SRS.base s ->
  SRS.max_seq_num s' = SRS.max_seq_num s ->
  SRS.window s' = <[N := e]> (SRS.window s) ->
  SRS.ack_received s' = SRS.ack_received s ->
  P !! Z.to_nat N = Some d ->
  we_frame e = Frame.make (N mod 8) DATA d ->
  N + 1 <= SRS.base s + Z.max 0 ws ->
  sr_joint P ws N s r -> sr_joint P ws (N + 1) s' r.
Proof.
  intros Hws H1 H3 H6 Hw Ha HPN He Hroom
    (Hwin & Hmax & Hws_s & Hws_r & Hsize & Hfr & Hok & Hnb & Hbase & Harr).
  destruct Hok as (Hmr & Hbr & HN8 & Hrecv & Hbuf).
  unfold sr_joint, buffer_ok. rewrite H1, H3, H6.
  split_and!; try done; try lia.
  - apply (window_inv_admit N s s' e); try done.
    rewrite He, Hmax. done.
  - intros j e0. rewrite Hw. destruct (decide (j = N)) as [->|Hne].
    + rewrite lookup_insert_eq. intros [= <-]. by exists d.
    + rewrite lookup_insert_ne by done. apply Hfr.
  - intros q d' Hq. destruct (Hbuf q d' Hq) as (k & Hk & Hmod & HP).
    exists k. split; [lia|done].
  - intros j Hj. rewrite Hw. destruct (decide (j = N)) as [->|Hne].
    + by rewrite lookup_insert_eq.
    + rewrite lookup_insert_ne by done. apply Harr. lia.
Qed.

Lemma sr_joint_slide_loop (P : list string) (ws N : Z) (r : SRR.t)
    (fuel : nat) :
  forall s,
    sr_joint P ws N s r ->
    sr_joint P ws N (SRS.slide_loop fuel s) r
    /\ SRS.next_seq_num (SRS.slide_loop fuel s) = SRS.next_seq_num s
    /\ SRS.data_buffer (SRS.slide_loop fuel s) = SRS.data_buffer s.
Proof.
  induction fuel as [|fuel IH]; intros s Hj; [done|].
  pose proof Hj as (Hwin & Hmax & Hws_s & Hws_r & Hsize & Hfr & Hok & Hnb
                    & Hbase & Harr).
  pose proof (window_inv_slide_loop N 1 s Hwin) as (Hwin1 & _).
  cbn [SRS.slide_loop] in Hwin1 |- *.
  destruct (decide _) as [Hin|Hnin]; [|done].
  set (s' := SRS.set_base _ _) in *.
  destruct Hwin as (_ & HK & HA & HF).
  assert (Hb : SRS.window s !! SRS.base s = None /\ SRS.base s < N).
  { destruct (HA _ Hin) as (k & Hr & Hn & Hmod).
    destruct (SRS.window s !! SRS.base s) as [e|] eqn:He;
      [|split; [done|lia]].
    destruct (HF _ _ e Hin He eq_refl) as (k' & Hr' & _). lia. }
  destruct Hb as [Hnone Hlt].
  assert (Hlt' : SRS.base s < SRR.base r).
  { destruct (Harr (SRS.base s) ltac:(lia) Hnone) as [?|Hsome]; [done|].
    destruct (decide (SRS.base s = SRR.base r)) as [Heq|Hne]; [|lia].
    rewrite Heq, Hnb in Hsome. by destruct Hsome. }
  destruct (IH s') as (G1 & G2 & G3); [|by split_and!].
  unfold sr_joint, s'. cbn. fold s'.
  split_and!; try done; try lia.
  intros j Hj0. apply Harr. lia.
Qed.

(** The invariant between two statements of [send_frames]. *)
Definition sr_delivery_inv (P : list string) (ws : Z) (st : SRS.State)
  : Prop :=
  sr_joint P ws (SRS.next_seq_num (SRS.sender st)) (SRS.sender st)
    (SRS.receiver st)
  /\ SRS.data_buffer (SRS.sender st)
     = drop (Z.to_nat (SRS.next_seq_num (SRS.sender st))) P.

Lemma sr_delivery_inv_selective_retransmit (rng lag : nat -> Q)
    (P : list string) (ws k : Z) (st : SRS.State) :
  ws <= 4 ->
  sr_delivery_inv P ws st ->
  sr_delivery_inv P ws (SRS.selective_retransmit rng lag k st).
Proof.
  intros Hws [Hj Hbuf]. unfold SRS.selective_retransmit.
  destruct (SRS.window (SRS.sender st) !! k) as [e|] eqn:Hk; [|done].
  pose proof (sr_receive_frame_outcome rng (we_frame e) (SRS.receiver st)
                (SRS.world st)) as Hout.
  destruct (SRR.receive_frame rng _ _ _) as [[acks r'] w']. cbn in Hout.
  set (e' := {| we_frame := we_frame e;
                we_timestamp := time_time (SRS.world st);
                we_data := we_data e |}).
  set (s2 := SRS.set_individual_timers _ _).
  assert (Hj2 : sr_joint P ws (SRS.next_seq_num (SRS.sender st)) s2
                  (SRS.receiver st)).
  { by apply (sr_joint_touch P ws _ (SRS.sender st) s2 _ k e e'). }
  assert (Hk2 : SRS.window s2 !! k = Some e') by apply lookup_insert_eq.
  pose proof (sr_joint_transmit P ws _ s2 (SRS.receiver st) r' k e' acks
                Hws Hj2 Hk2 Hout) as Hj3.
  destruct (sr_process_acks_counters acks s2) as (H1&H2&H3&H4&H5&H6&H7&H8).
  split; cbn [SRS.sender SRS.receiver].
  - by rewrite H4.
  - by rewrite H4, H5.
Qed.

Lemma sr_delivery_inv_check_individual_timeouts (rng lag : nat -> Q)
    (P : list string) (ws : Z) (st : SRS.State) :
  ws <= 4 ->
  sr_delivery_inv P ws st ->
  sr_delivery_inv P ws (SRS.check_individual_timeouts rng lag st).
Proof.
  intros Hws. unfold SRS.check_individual_timeouts.
  generalize (map fst
    (filter
       (λ kt : Z * Q,
          Qlt_bool (SRS.timeout (SRS.sender st))
            (time_time (SRS.world st) - kt.2) = true)
       (SRS.individual_timers (SRS.sender st)))).
  intros l. revert st.
  induction l as [|k l IH]; intros st Hinv; cbn [foldl]; [done|].
  destruct (SRS.window (SRS.sender st) !! k); [|by apply IH].
  by apply IH, sr_delivery_inv_selective_retransmit.
Qed.

Lemma sr_delivery_inv_send_new_frame (rng lag : nat -> Q)
    (P : list string) (ws : Z) (d : string) (rest : list string)
    (st : SRS.State) :
  ws <= 4 ->
  sr_delivery_inv P ws st ->
  SRS.can_send (SRS.sender st) = true ->
  SRS.data_buffer (SRS.sender st) = d :: rest ->
  sr_delivery_inv P ws (SRS.send_new_frame rng lag d rest st).
Proof.
  intros Hws [Hj Hbuf] Hcan Hd.
  apply andb_prop in Hcan as [Hroom%Z.ltb_lt _].
  pose proof Hj as (Hwin & Hmax & Hws_s & Hws_r & Hsize & Hfr & Hok & Hnb
                    & Hbase & Harr).
  set (N := SRS.next_seq_num (SRS.sender st)) in *.
  assert (HN : 0 <= N) by (destruct Hwin; lia).
  assert (HPd : P !! Z.to_nat N = Some d /\ rest = drop (Z.to_nat (N + 1)) P).
  { rewrite Hd in Hbuf.
    replace (Z.to_nat (N + 1)) with (S (Z.to_nat N)) by lia.
    destruct (P !! Z.to_nat N) as [d'|] eqn:HP.
    - rewrite (drop_S _ _ _ HP) in Hbuf. by injection Hbuf as -> ->.
    - apply lookup_ge_None in HP. by rewrite drop_ge in Hbuf. }
  destruct HPd as [HPd Hrest].
  unfold SRS.send_new_frame.
  set (f := Frame.make _ DATA d).
  pose proof (sr_receive_frame_outcome rng f (SRS.receiver st)
                (SRS.world st)) as Hout.
  destruct (SRR.receive_frame rng _ _ _) as [[acks r'] w']. cbn in Hout.
  set (e := {| we_frame := f; we_timestamp := time_time (SRS.world st);
               we_data := d |}).
  set (s2 := SRS.set_total_transmissions _ _).
  assert (Hj2 : sr_joint P ws (N + 1) s2 (SRS.receiver st)).
  { apply (sr_joint_admit P ws N (SRS.sender st) s2 _ e d); try done.
    - unfold e, f. cbn. by rewrite Hmax.
    - rewrite Hws_s in Hroom. lia. }
  assert (Hk2 : SRS.window s2 !! N = Some e) by apply lookup_insert_eq.
  pose proof (sr_joint_transmit P ws _ s2 (SRS.receiver st) r' N e acks
                Hws Hj2 Hk2 Hout) as Hj3.
  destruct (sr_process_acks_counters acks s2) as (H1&H2&H3&H4&H5&H6&H7&H8).
  split; cbn [SRS.sender SRS.receiver SRS.set_next_seq_num SRS.next_seq_num
              SRS.data_buffer].
  - rewrite H4. change (SRS.next_seq_num s2) with N.
    revert Hj3. unfold sr_joint, window_inv. cbn. done.
  - rewrite H4, H5. done.
Qed.

Lemma sr_delivery_inv_send_new_frames (rng lag : nat -> Q)
    (P : list string) (ws : Z) (fuel : nat) :
  ws <= 4 ->
  forall st,
    sr_delivery_inv P ws st ->
    sr_delivery_inv P ws (SRS.send_new_frames rng lag fuel st).
Proof.
  intros Hws. induction fuel as [|fuel IH]; intros st Hinv;
    cbn [SRS.send_new_frames]; [done|].
  destruct (SRS.can_send (SRS.sender st)) eqn:Hcan; [|done].
  destruct (SRS.data_buffer (SRS.sender st)) as [|d rest] eqn:Hd; [done|].
  apply IH. by apply sr_delivery_inv_send_new_frame.
Qed.

Lemma sr_delivery_inv_pass (rng lag : nat -> Q) (P : list string) (ws : Z)
    (st : SRS.State) :
  ws <= 4 ->
  sr_delivery_inv P ws st ->
  sr_delivery_inv P ws (SRS.pass rng lag st).2.
Proof.
  intros Hws Hinv. unfold SRS.pass. cbn [snd].
  set (st2 := SRS.check_individual_timeouts rng lag _).
  assert (H2 : sr_delivery_inv P ws st2).
  { by apply sr_delivery_inv_check_individual_timeouts,
      sr_delivery_inv_send_new_frames. }
  destruct H2 as [Hj Hbuf]. unfold SRS.slide_window.
  destruct (sr_joint_slide_loop P ws _ (SRS.receiver st2)
              (size (SRS.ack_received (SRS.sender st2))) _ Hj)
    as (G1 & G2 & G3).
  split; cbn [SRS.sender SRS.receiver].
  - by rewrite G2.
  - by rewrite G2, G3.
Qed.

Lemma sr_delivery_inv_passes (rng lag : nat -> Q) (P : list string)
    (ws : Z) (n : nat) :
  ws <= 4 ->
  forall st,
    sr_delivery_inv P ws st ->
    sr_delivery_inv P ws (SRS.passes rng lag n st).
Proof.
  intros Hws. induction n as [|n IH]; intros st Hinv; cbn [SRS.passes];
    [done|].
  destruct (SRS.busy (SRS.sender st)); [|done].
  pose proof (sr_delivery_inv_pass rng lag P ws st Hws Hinv) as Hpass.
  destruct (SRS.pass rng lag st) as [[] st']; [done|].
  apply IH. exact Hpass.
Qed.

Lemma sr_delivery_inv_start (ws : Z) (tmo : Q) (P : list string) :
  sr_delivery_inv P ws (SRS.start ws ws tmo P).
Proof.
  split; [|done]. unfold sr_joint, buffer_ok, window_inv, arrived. cbn.
  split_and!; try done; lia.
Qed.

(** C2, amended: the delivered output is a subsequence of the input
    payload sequence (by position, so no input payload is delivered twice
    and none out of order) for every Stop-and-Wait run, for every
    Go-Back-N run with a window size of at most 7, and at every pass
    boundary and in the final state of every Selective Repeat run whose
    sender and receiver have the same window size of at most 4, half the
    sequence space. *)
Theorem delivered_in_order
    (rng lag : nat -> Q) (ws : Z) (tmo : Q) (payloads : list string)
    (n : nat) :
  SWR.get_received_data
    (SWS.receiver (SWS.send_all rng lag payloads 0 (SWS.start tmo)).2)
    `sublist_of` payloads
  /\ (ws <= 7 ->
      GBR.get_received_data
        (GBS.receiver (GBS.send_frames rng lag (GBS.start ws tmo payloads)).2)
        `sublist_of` payloads)
  /\ (ws <= 4 ->
      SRR.get_received_data
        (SRS.receiver (SRS.passes rng lag n (SRS.start ws ws tmo payloads)))
        `sublist_of` payloads).
Proof.
  split_and!.
  - destruct (sw_send_all_delivery rng lag payloads 0 (SWS.start tmo))
      as (l & Hl & Hsub); [done|].
    unfold SWR.get_received_data. by rewrite Hl.
  - intros Hws.
    destruct (gbn_state_inv_send_loop rng lag payloads ws
                (Z.to_nat GBS.max_iterations) Hws 0
                (GBS.start ws tmo payloads)
                (gbn_state_inv_start ws tmo payloads))
      as [(_ & _ & _ & _ & _ & _ & L & _ & _ & _ & Hsub) _].
    unfold GBR.get_received_data, GBS.send_frames. cbn [snd].
    etrans; [exact Hsub|]. apply sublist_take.
  - intros Hws.
    destruct (sr_delivery_inv_passes rng lag payloads ws n Hws
                (SRS.start ws ws tmo payloads)
                (sr_delivery_inv_start ws tmo payloads))
      as [(_ & _ & _ & _ & _ & _ & (_ & _ & _ & Hrecv & _) & _) _].
    unfold SRR.get_received_data. rewrite Hrecv. apply sublist_take.
Qed.

Lemma delivered_in_order_witness :
  let rng := (fun i : nat => if (i =? 3)%nat then 0 else 1 # 2)%Q in
  let lag := (fun _ : nat => 0%Q) in
  let payloads := ["p0"; "p1"; "p2"; "p3"; "p4"; "p5"]%string in
  4 <= 7
  /\ 4 <= 4
  /\ SWR.get_received_data
       (SWS.receiver (SWS.send_all rng lag payloads 0 (SWS.start 2)).2)
       `sublist_of` payloads
  /\ GBR.get_received_data
       (GBS.receiver (GBS.send_frames rng lag (GBS.start 4 2 payloads)).2)
       `sublist_of` payloads
  /\ SRR.get_received_data
       (SRS.receiver (SRS.passes rng lag 30 (SRS.start 4 4 2 payloads)))
       `sublist_of` payloads.
Proof.
  intros rng lag payloads.
  destruct (delivered_in_order rng lag 4 2 payloads 30) as (H1 & H2 & H3).
  split; [lia|]. split; [lia|]. split; [exact H1|].
  split; [apply H2; lia|apply H3; lia].
Defined.

(** C2 fails on the code for wide windows, which the constructors accept.
    Selective Repeat with window size 5 and eight payloads, the first
    acknowledgment lost (draw 2): the retransmitted frame 0 falls in the
    receiver's window 5-1 (mod 8), is buffered under number 0 and
    delivered a second time after frame 7.  Go-Back-N with window size 8
    and the eight first acknowledgments lost: the retransmitted frames
    bear the numbers the receiver expects next and all eight payloads are
    delivered twice. *)
Lemma wide_window_delivers_twice :
  let lag := (fun _ : nat => 0%Q) in
  let payloads :=
    ["p0"; "p1"; "p2"; "p3"; "p4"; "p5"; "p6"; "p7"]%string in
  option_map
    (fun r : bool * SRS.State => SRR.get_received_data (SRS.receiver r.2))
    (SRS.send_frames (fun i : nat => if (i =? 2)%nat then 0 else 1 # 2)%Q
       lag 100 (SRS.start 5 5 2 payloads))
  = Some (payloads ++ ["p0"]%string)
  /\ GBR.get_received_data
       (GBS.receiver
          (GBS.send_frames
             (fun i : nat => if (i <? 24)%nat && (i mod 3 =? 2)%nat
                             then 0 else 1 # 2)%Q
             lag (GBS.start 8 2 payloads)).2)
     = payloads ++ payloads.
Proof. vm_compute. split; reflexivity. Qed.

(** ** The bounded loops run to their exit *)

(** The models of the inner [while] loops are given as many passes as the
    loop can make; these lemmas show that the loop condition is false when
    they return, so no pass of the source is cut off. *)

Lemma sr_deliver_loop_exit (n : nat) :
  forall r,
    (size (SRR.buffer r) <= n)%nat ->
    SRR.buffer (SRR.deliver_loop n r)
      !! (SRR.base (SRR.deliver_loop n r)
          mod SRR.max_seq_num (SRR.deliver_loop n r)) = None.
Proof.
  induction n as [|n IH]; intros r Hsize; cbn [SRR.deliver_loop].
  - assert (SRR.buffer r = ∅) as -> by (apply map_size_empty_inv; lia).
    apply lookup_empty.
  - destruct (SRR.buffer r !! _) as [d|] eqn:Hd; [|done].
    apply IH. cbn [SRR.deliver_one SRR.buffer].
    rewrite map_size_delete, Hd. cbn. lia.
Qed.

Lemma sr_slide_loop_exit (n : nat) :
  forall s,
    (size (SRS.ack_received s) <= n)%nat ->
    (SRS.base (SRS.slide_loop n s) mod SRS.max_seq_num (SRS.slide_loop n s))
    ∉ SRS.ack_received (SRS.slide_loop n s).
Proof.
  induction n as [|n IH]; intros s Hsize; cbn [SRS.slide_loop].
  - assert (SRS.ack_received s = ∅) as ->; [|apply not_elem_of_empty].
    apply leibniz_equiv, size_empty_iff. lia.
  - destruct (decide _) as [Hin|Hnin]; [|done].
    apply IH. cbn.
    rewrite size_difference by (by apply singleton_subseteq_l).
    rewrite size_singleton.
    assert (size (SRS.ack_received s) <> 0%nat); [|lia].
    intros H0. apply size_empty_iff in H0. set_solver.
Qed.

Lemma sr_send_new_frames_exit (rng lag : nat -> Q) (n : nat) :
  forall st,
    (length (SRS.data_buffer (SRS.sender st)) <= n)%nat ->
    SRS.can_send (SRS.sender (SRS.send_new_frames rng lag n st)) = false.
Proof.
  induction n as [|n IH]; intros st Hlen; cbn [SRS.send_new_frames].
  - unfold SRS.can_send.
    destruct (SRS.data_buffer (SRS.sender st)); [|cbn in Hlen; lia].
    apply andb_false_r.
  - destruct (SRS.can_send (SRS.sender st)) eqn:Hcan; [|done].
    destruct (SRS.data_buffer (SRS.sender st)) as [|d rest] eqn:Hd.
    + unfold SRS.can_send in Hcan. rewrite Hd, andb_false_r in Hcan. done.
    + apply IH. unfold SRS.send_new_frame.
      destruct (SRR.receive_frame rng _ _ _) as [[acks r'] w'].
      cbn [SRS.sender SRS.set_next_seq_num SRS.data_buffer].
      match goal with
      | |- context [SRS.process_acks acks ?s2] =>
          destruct (sr_process_acks_counters acks s2)
            as (_&_&_&_&->&_&_&_)
      end.
      cbn in Hlen |- *. lia.
Qed.

Lemma gbn_send_new_frames_exit (rng lag : nat -> Q) (n : nat) :
  forall st,
    (length (GBS.data_buffer (GBS.sender st)) <= n)%nat ->
    GBS.can_send (GBS.sender (GBS.send_new_frames rng lag n st)) = false.
Proof.
  induction n as [|n IH]; intros st Hlen; cbn [GBS.send_new_frames].
  - unfold GBS.can_send.
    destruct (GBS.data_buffer (GBS.sender st)); [|cbn in Hlen; lia].
    apply andb_false_r.
  - destruct (GBS.can_send (GBS.sender st)) eqn:Hcan; [|done].
    destruct (GBS.data_buffer (GBS.sender st)) as [|d rest] eqn:Hd.
    + unfold GBS.can_send in Hcan. rewrite Hd, andb_false_r in Hcan. done.
    + apply IH. unfold GBS.send_new_frame.
      destruct (GBR.receive_frame rng _ _ _) as [[[a|] r'] w'];
        cbn [GBS.sender GBS.set_next_seq_num GBS.data_buffer].
      * rewrite (proj2 (gbn_process_ack_frame a _)). cbn in Hlen |- *. lia.
      * cbn in Hlen |- *. lia.
Qed.

(** [send_frame] returns [False] only when the loop condition is false. *)
Lemma sw_attempts_exit (rng lag : nat -> Q) (frame : Frame.t) (n : nat) :
  forall st,
    5 - SWS.retransmission_count (SWS.sender st) <= Z.of_nat n ->
    (SWS.attempts rng lag n frame st).1 = true
    \/ SWS.waiting_for_ack (SWS.sender (SWS.attempts rng lag n frame st).2)
       && (SWS.retransmission_count
             (SWS.sender (SWS.attempts rng lag n frame st).2) <? 5)
       = false.
Proof.
  induction n as [|n IH]; intros st Hn.
  - right. cbn. apply andb_false_intro2, Z.ltb_ge. lia.
  - rewrite sw_attempts_unfold. cbv zeta.
    destruct (_ && _) eqn:Hcond; [|by right].
    destruct (SWR.receive_frame rng _ _ _) as [[[] r'] w']; [by left|].
    apply IH. cbn. lia.
Qed.

(** The outer loop of the Go-Back-N sender is left by its own condition or
    by its [break]. *)
Lemma gbn_send_loop_exit (rng lag : nat -> Q) (n : nat) :
  forall count st,
    GBS.max_iterations - count <= Z.of_nat n ->
    GBS.busy (GBS.sender (GBS.send_loop rng lag n count st).2)
    && ((GBS.send_loop rng lag n count st).1 <? GBS.max_iterations)
    = false.
Proof.
  induction n as [|n IH]; intros count st Hn; cbn [GBS.send_loop].
  - cbn [fst snd]. apply andb_false_intro2, Z.ltb_ge. lia.
  - destruct (GBS.busy (GBS.sender st) && (count <? GBS.max_iterations))
      eqn:Hcond; [|done].
    cbv zeta.
    match goal with
    | |- context [if negb (GBS.busy (GBS.sender ?st2)) then _ else _] =>
        destruct (GBS.busy (GBS.sender st2)) eqn:Hbusy
    end; cbn [negb fst snd].
    + apply IH. lia.
    + by rewrite Hbusy.
Qed.

(** * Further properties of the code *)

(** ** Frames and the receive window *)

Lemma sum_ord_append (a b : string) :
  sum_ord (String.append a b) = sum_ord a + sum_ord b.
Proof.
  induction a as [|c a IH]; simpl; [done|].
  rewrite IH. lia.
Qed.


(** X2: for a receiver with sequence space 8 and a number [seq] in
    [[0, 8)], [is_in_window] holds exactly when the distance of [seq] from
    the base, modulo 8, is at most [(window_size - 1) mod 8]: the test only
    sees the window size modulo 8 (size 0 accepts all eight numbers, size 9
    only the base).  For window sizes 1 to 8 this is the modular window
    of [window_size] numbers starting at the base. *)
Theorem is_in_window_modular (r : SRR.t) (seq : Z) :
  SRR.max_seq_num r = 8 ->
  0 <= seq < 8 ->
  (SRR.is_in_window r seq = true
   <-> (seq - SRR.base r) mod 8 <= (SRR.window_size r - 1) mod 8)
  /\ (1 <= SRR.window_size r <= 8 ->
      SRR.is_in_window r seq = true
      <-> (seq - SRR.base r) mod 8 < SRR.window_size r).
Proof.
  intros Hm Hseq. unfold SRR.is_in_window. rewrite Hm.
  split; [|intros Hws];
  repeat match goal with
  | |- context [?a <=? ?b] => destruct (Z.leb_spec a b)
  end; cbn; (split; intros Hx; try done);
    first [Z.div_mod_to_equations; lia
          | exfalso; Z.div_mod_to_equations; lia].
Qed.

Lemma is_in_window_modular_witness :
  let r := SRR.init 4 in
  SRR.max_seq_num r = 8
  /\ 0 <= 5 < 8
  /\ (SRR.is_in_window r 5 = true
      <-> (5 - SRR.base r) mod 8 <= (SRR.window_size r - 1) mod 8)
  /\ (1 <= SRR.window_size r <= 8 ->
      SRR.is_in_window r 5 = true
      <-> (5 - SRR.base r) mod 8 < SRR.window_size r).
Proof.
  intros r. split; [reflexivity|]. split; [lia|].
  apply (is_in_window_modular r 5); [reflexivity|lia].
Defined.

(** ** Selective Repeat receiver: delivery from the buffer *)

Lemma sr_deliver_loop_conserves (n : nat) :
  forall r,
    SRR.received_frames r `prefix_of` SRR.received_frames (SRR.deliver_loop n r)
    /\ SRR.base (SRR.deliver_loop n r) - SRR.base r
       = Z.of_nat (length (SRR.received_frames (SRR.deliver_loop n r)))
         - Z.of_nat (length (SRR.received_frames r))
    /\ (size (SRR.buffer (SRR.deliver_loop n r))
        + length (SRR.received_frames (SRR.deliver_loop n r))
        = size (SRR.buffer r) + length (SRR.received_frames r))%nat
    /\ SRR.buffer (SRR.deliver_loop n r) ⊆ SRR.buffer r
    /\ SRR.window_size (SRR.deliver_loop n r) = SRR.window_size r
    /\ SRR.max_seq_num (SRR.deliver_loop n r) = SRR.max_seq_num r
    /\ SRR.frames_discarded (SRR.deliver_loop n r) = SRR.frames_discarded r
    /\ SRR.duplicate_frames (SRR.deliver_loop n r) = SRR.duplicate_frames r.
Proof.
  induction n as [|n IH]; intros r; cbn [SRR.deliver_loop].
  - split_and!; try done; lia.
  - destruct (SRR.buffer r !! (SRR.base r mod SRR.max_seq_num r))
      as [d|] eqn:Hd; [|split_and!; try done; lia].
    destruct (IH (SRR.deliver_one d r)) as (H1 & H2 & H3 & H4 & H5 & H6 & H7 & H8).
    cbn [SRR.deliver_one SRR.received_frames SRR.base SRR.buffer
         SRR.window_size SRR.max_seq_num SRR.frames_discarded
         SRR.duplicate_frames] in H1, H2, H3, H4, H5, H6, H7, H8.
    rewrite length_app in H2, H3. cbn [length] in H2, H3.
    rewrite map_size_delete, Hd in H3.
    pose proof (map_size_ne_0_lookup_2 (SRR.buffer r) _ (mk_is_Some _ _ Hd)).
    split_and!; try done; try lia.
    + etrans; [|exact H1]. by apply prefix_app_r.
    + etrans; [exact H4|]. apply delete_subseteq.
Qed.

(** X3: [deliver_frames] returns an empty list and moves frames from the
    buffer to the delivered list: what was delivered stays a prefix, the
    base advances by the number of frames delivered, the frames buffered
    and delivered together are as many as before, nothing is added to the
    buffer, and afterwards no frame is buffered under the number of the
    base. *)
Theorem deliver_frames_conserves (r : SRR.t) :
  let r' := (SRR.deliver_frames r).2 in
  (SRR.deliver_frames r).1 = []
  /\ SRR.received_frames r `prefix_of` SRR.received_frames r'
  /\ SRR.base r' - SRR.base r
     = Z.of_nat (length (SRR.received_frames r'))
       - Z.of_nat (length (SRR.received_frames r))
  /\ (size (SRR.buffer r') + length (SRR.received_frames r')
      = size (SRR.buffer r) + length (SRR.received_frames r))%nat
  /\ SRR.buffer r' ⊆ SRR.buffer r
  /\ SRR.buffer r' !! (SRR.base r' mod SRR.max_seq_num r') = None.
Proof.
  cbv zeta. unfold SRR.deliver_frames. cbn [fst snd].
  destruct (sr_deliver_loop_conserves (size (SRR.buffer r)) r)
    as (H1 & H2 & H3 & H4 & _).
  split_and!; try done.
  by apply sr_deliver_loop_exit.
Qed.

(** ** Selective Repeat sender: acknowledgments and the window base *)

Lemma sr_set_ack_received_same (s : SRS.t) :
  SRS.set_ack_received (SRS.ack_received s) s = s.
Proof. by destruct s. Qed.

(** X4: processing an acknowledgment twice is the same as processing it
    once.  After [process_ack a] the number [a] is recorded, every window
    entry whose key is congruent to [a] is gone together with its timer,
    and the entries and timers of all other keys are untouched. *)
Theorem process_ack_idempotent (a : Z) (s : SRS.t) :
  SRS.process_ack a (SRS.process_ack a s) = SRS.process_ack a s
  /\ a ∈ SRS.ack_received (SRS.process_ack a s)
  /\ (forall j, j mod SRS.max_seq_num s = a ->
        SRS.window (SRS.process_ack a s) !! j = None
        /\ ODict.get j (SRS.individual_timers (SRS.process_ack a s))
           = match SRS.window s !! j with
             | Some _ => None
             | None => ODict.get j (SRS.individual_timers s)
             end)
  /\ (forall j, j mod SRS.max_seq_num s <> a ->
        SRS.window (SRS.process_ack a s) !! j = SRS.window s !! j
        /\ ODict.get j (SRS.individual_timers (SRS.process_ack a s))
           = ODict.get j (SRS.individual_timers s)).
Proof.
  destruct (sr_process_ack_counters a s) as [(_&_&_&_&_&Hm&_&_) Hacks].
  split_and!.
  - assert (Hnil : SRS.seq_nums_to_remove a (SRS.process_ack a s) = []).
    { destruct (SRS.seq_nums_to_remove a (SRS.process_ack a s))
        as [|j l] eqn:Hl; [done|].
      assert (Hj : j ∈ SRS.seq_nums_to_remove a (SRS.process_ack a s)).
      { rewrite Hl. apply list_elem_of_here. }
      apply sr_seq_nums_to_remove_spec in Hj as [Hmod Hsome].
      rewrite Hm in Hmod.
      rewrite sr_process_ack_window, decide_True in Hsome by done.
      by destruct Hsome. }
    unfold SRS.process_ack at 1. cbv zeta.
    change (SRS.seq_nums_to_remove a
              (SRS.set_ack_received
                 ({[a]} ∪ SRS.ack_received (SRS.process_ack a s))
                 (SRS.process_ack a s)))
      with (SRS.seq_nums_to_remove a (SRS.process_ack a s)).
    rewrite Hnil. cbn [foldl].
    replace ({[a]} ∪ SRS.ack_received (SRS.process_ack a s))
      with (SRS.ack_received (SRS.process_ack a s))
      by (rewrite Hacks; set_solver).
    apply sr_set_ack_received_same.
  - rewrite Hacks. set_solver.
  - intros j Hj. rewrite sr_process_ack_window, sr_process_ack_timers.
    rewrite decide_True by done. split; [done|].
    destruct (SRS.window s !! j) eqn:Hw.
    + rewrite decide_True; [done|]. split; [done|]. by eexists.
    + rewrite decide_False; [done|]. intros [_ [? ?]]. done.
  - intros j Hj. rewrite sr_process_ack_window, sr_process_ack_timers.
    rewrite decide_False by done. split; [done|].
    rewrite decide_False; [done|]. by intros [? _].
Qed.

Lemma sr_slide_loop_advances (n : nat) :
  forall s,
    SRS.base s <= SRS.base (SRS.slide_loop n s)
    /\ SRS.base (SRS.slide_loop n s) - SRS.base s
       = Z.of_nat (size (SRS.ack_received s))
         - Z.of_nat (size (SRS.ack_received (SRS.slide_loop n s)))
    /\ SRS.ack_received (SRS.slide_loop n s) ⊆ SRS.ack_received s
    /\ (forall k, SRS.base s <= k < SRS.base (SRS.slide_loop n s) ->
          k mod SRS.max_seq_num s ∈ SRS.ack_received s)
    /\ SRS.individual_timers (SRS.slide_loop n s) = SRS.individual_timers s
    /\ SRS.total_transmissions (SRS.slide_loop n s) = SRS.total_transmissions s
    /\ SRS.retransmissions (SRS.slide_loop n s) = SRS.retransmissions s.
Proof.
  induction n as [|n IH]; intros s; cbn [SRS.slide_loop].
  - split_and!; try done; try lia.
  - destruct (decide _) as [Hin|Hnin]; [|split_and!; try done; lia].
    match goal with
    | |- context [SRS.slide_loop n ?s1] =>
        destruct (IH s1) as (H1 & H2 & H3 & H4 & H5 & H6 & H7)
    end.
    cbn [SRS.set_base SRS.set_ack_received SRS.base SRS.ack_received
         SRS.max_seq_num SRS.individual_timers SRS.total_transmissions
         SRS.retransmissions] in H1, H2, H3, H4, H5, H6, H7.
    rewrite size_difference in H2 by (by apply singleton_subseteq_l).
    rewrite size_singleton in H2.
    assert (size (SRS.ack_received s) <> 0%nat).
    { intros H0. apply size_empty_iff in H0. set_solver. }
    split_and!; try done; try lia.
    + set_solver.
    + intros k Hk. destruct (decide (k = SRS.base s)) as [->|Hne]; [done|].
      assert (Hk' : SRS.base s + 1 <= k < SRS.base
                (SRS.slide_loop n
                   (SRS.set_base (SRS.base s + 1)
                      (SRS.set_ack_received
                         (SRS.ack_received s
                          ∖ {[SRS.base s mod SRS.max_seq_num s]}) s)))) by lia.
      specialize (H4 k Hk'). set_solver.
Qed.

(** X5: [slide_window] never moves the base back; it consumes one
    recorded acknowledgment per step, every instance it passes was
    acknowledged, it stops at a base whose number is not acknowledged, and
    it leaves the window, [next_seq_num] and the data buffer alone. *)
Theorem slide_window_advances (s : SRS.t) :
  let s' := SRS.slide_window s in
  SRS.base s <= SRS.base s'
  /\ SRS.base s' - SRS.base s
     = Z.of_nat (size (SRS.ack_received s))
       - Z.of_nat (size (SRS.ack_received s'))
  /\ SRS.ack_received s' ⊆ SRS.ack_received s
  /\ (forall k, SRS.base s <= k < SRS.base s' ->
        k mod SRS.max_seq_num s ∈ SRS.ack_received s)
  /\ SRS.base s' mod SRS.max_seq_num s' ∉ SRS.ack_received s'
  /\ SRS.window s' = SRS.window s
  /\ SRS.next_seq_num s' = SRS.next_seq_num s
  /\ SRS.data_buffer s' = SRS.data_buffer s.
Proof.
  cbv zeta. unfold SRS.slide_window.
  destruct (sr_slide_loop_advances (size (SRS.ack_received s)) s)
    as (H1 & H2 & H3 & H4 & _).
  split_and!; try done.
  - by apply sr_slide_loop_exit.
  - clear. generalize (size (SRS.ack_received s)). intros n. revert s.
    induction n as [|n IH]; intros s; cbn [SRS.slide_loop]; [done|].
    destruct (decide _); [|done]. by rewrite IH.
  - clear. generalize (size (SRS.ack_received s)). intros n. revert s.
    induction n as [|n IH]; intros s; cbn [SRS.slide_loop]; [done|].
    destruct (decide _); [|done]. by rewrite IH.
  - clear. generalize (size (SRS.ack_received s)). intros n. revert s.
    induction n as [|n IH]; intros s; cbn [SRS.slide_loop]; [done|].
    destruct (decide _); [|done]. by rewrite IH.
Qed.

(** ** Selective Repeat: properties kept along a run *)

(** A property of the sender, the receiver and the process state that the
    four steps of the main loop keep is kept by any number of passes. *)
Section SelectiveRepeatRun.
Variables rng lag : nat -> Q.
Variable I : SRS.State -> Prop.

Hypothesis I_send : forall d rest st,
  I st ->
  SRS.data_buffer (SRS.sender st) = d :: rest ->
  SRS.can_send (SRS.sender st) = true ->
  I (SRS.send_new_frame rng lag d rest st).
Hypothesis I_retransmit : forall k e st,
  I st ->
  SRS.window (SRS.sender st) !! k = Some e ->
  I (SRS.selective_retransmit rng lag k st).
Hypothesis I_slide : forall st,
  I st ->
  I {| SRS.sender := SRS.slide_window (SRS.sender st);
       SRS.receiver := SRS.receiver st; SRS.world := SRS.world st |}.
Hypothesis I_pause : forall st, I st -> I (SRS.pause lag st).

Lemma sr_run_send_new_frames (n : nat) :
  forall st, I st -> I (SRS.send_new_frames rng lag n st).
Proof.
  induction n as [|n IH]; intros st Hst; cbn [SRS.send_new_frames]; [done|].
  destruct (SRS.can_send (SRS.sender st)) eqn:Hcan; [|done].
  destruct (SRS.data_buffer (SRS.sender st)) as [|d rest] eqn:Hd; [done|].
  by apply IH, I_send.
Qed.

Lemma sr_run_check_individual_timeouts (st : SRS.State) :
  I st -> I (SRS.check_individual_timeouts rng lag st).
Proof.
  unfold SRS.check_individual_timeouts.
  generalize (map fst
    (filter
       (λ kt : Z * Q,
          Qlt_bool (SRS.timeout (SRS.sender st))
            (time_time (SRS.world st) - kt.2) = true)
       (SRS.individual_timers (SRS.sender st)))).
  intros l. revert st.
  induction l as [|k l IH]; intros st Hst; cbn [foldl]; [done|].
  destruct (SRS.window (SRS.sender st) !! k) as [e|] eqn:Hk; [|by apply IH].
  apply IH. by apply (I_retransmit k e).
Qed.

Lemma sr_run_pass (st : SRS.State) : I st -> I (SRS.pass rng lag st).2.
Proof.
  intros Hst. unfold SRS.pass. cbn [snd].
  by apply I_slide, sr_run_check_individual_timeouts, sr_run_send_new_frames.
Qed.

Lemma sr_run_passes (n : nat) :
  forall st, I st -> I (SRS.passes rng lag n st).
Proof.
  induction n as [|n IH]; intros st Hst; cbn [SRS.passes]; [done|].
  destruct (SRS.busy (SRS.sender st)); [|done].
  pose proof (sr_run_pass st Hst) as Hp.
  destruct (SRS.pass rng lag st) as [brk st']. cbn [snd] in Hp.
  destruct brk; [done|]. by apply IH, I_pause.
Qed.

End SelectiveRepeatRun.

Lemma sr_slide_loop_frame (n : nat) :
  forall s,
    SRS.window (SRS.slide_loop n s) = SRS.window s
    /\ SRS.individual_timers (SRS.slide_loop n s) = SRS.individual_timers s
    /\ SRS.next_seq_num (SRS.slide_loop n s) = SRS.next_seq_num s
    /\ SRS.data_buffer (SRS.slide_loop n s) = SRS.data_buffer s
    /\ SRS.total_transmissions (SRS.slide_loop n s) = SRS.total_transmissions s
    /\ SRS.retransmissions (SRS.slide_loop n s) = SRS.retransmissions s
    /\ SRS.window_size (SRS.slide_loop n s) = SRS.window_size s
    /\ SRS.max_seq_num (SRS.slide_loop n s) = SRS.max_seq_num s.
Proof.
  induction n as [|n IH]; intros s; cbn [SRS.slide_loop]; [done|].
  destruct (decide _); [|done].
  match goal with
  | |- context [SRS.slide_loop n ?s1] => destruct (IH s1) as (->&->&->&->&->&->&->&->)
  end. done.
Qed.

(** *** Counting transmissions *)

Lemma sr_receive_frame_stats
    (rng : nat -> Q) (f : Frame.t) (r : SRR.t) (w : World) :
  let r' := (SRR.receive_frame rng f r w).1.2 in
  let m := fun r : SRR.t =>
    SRR.frames_discarded r + SRR.duplicate_frames r
    + Z.of_nat (length (SRR.received_frames r))
    + Z.of_nat (size (SRR.buffer r)) in
  SRR.frames_discarded r <= SRR.frames_discarded r'
  /\ SRR.duplicate_frames r <= SRR.duplicate_frames r'
  /\ m r <= m r' <= m r + 1.
Proof.
  cbv zeta.
  unfold SRR.receive_frame, Frame.is_corrupted, SRR.send_ack, random_random.
  destruct (Qlt_bool _ _); [cbn; lia|].
  destruct (Qlt_bool _ _); [cbn; lia|].
  destruct (SRR.is_in_window _ _).
  - unfold SRR.deliver_frames.
    destruct (SRR.buffer (SRR.inc_total_frames_received r) !! Frame.seq_num f)
      as [d|] eqn:Hbuf; destruct (Qlt_bool _ _); cbn [fst snd];
      match goal with
      | |- context [SRR.deliver_loop ?n ?r1] =>
          destruct (sr_deliver_loop_conserves n r1)
            as (_ & _ & H3 & _ & _ & _ & H7 & H8);
          set (r2 := SRR.deliver_loop n r1) in *; clearbody r2
      end;
      rewrite H7, H8;
      cbn [SRR.inc_duplicate_frames SRR.inc_total_frames_received
           SRR.set_buffer SRR.buffer SRR.received_frames
           SRR.frames_discarded SRR.duplicate_frames] in H3, Hbuf |- *;
      try (rewrite map_size_insert, Hbuf in H3; cbn [id] in H3); lia.
  - destruct (SRR.is_already_delivered _ _); [destruct (Qlt_bool _ _)|];
      cbn; lia.
Qed.

(** The counters of a run over the payloads [P]. *)
Definition sr_counts (P : list string) (st : SRS.State) : Prop :=
  SRS.total_transmissions (SRS.sender st)
  = SRS.next_seq_num (SRS.sender st) + SRS.retransmissions (SRS.sender st)
  /\ 0 <= SRS.retransmissions (SRS.sender st)
  /\ 0 <= SRS.next_seq_num (SRS.sender st) <= Z.of_nat (length P)
  /\ SRS.data_buffer (SRS.sender st)
     = drop (Z.to_nat (SRS.next_seq_num (SRS.sender st))) P
  /\ SRR.total_frames_received (SRS.receiver st)
     = SRS.total_transmissions (SRS.sender st)
  /\ 0 <= SRR.frames_discarded (SRS.receiver st)
  /\ 0 <= SRR.duplicate_frames (SRS.receiver st)
  /\ SRR.frames_discarded (SRS.receiver st)
     + SRR.duplicate_frames (SRS.receiver st)
     + Z.of_nat (length (SRR.received_frames (SRS.receiver st)))
     + Z.of_nat (size (SRR.buffer (SRS.receiver st)))
     <= SRR.total_frames_received (SRS.receiver st).

Lemma drop_cons_inv {A} (n : nat) (l rest : list A) (d : A) :
  drop n l = d :: rest -> (n < length l)%nat /\ rest = drop (S n) l.
Proof.
  intros Hd. split.
  - destruct (decide (n < length l)%nat) as [|Hge]; [done|].
    rewrite drop_ge in Hd by lia. done.
  - replace (S n) with (n + 1)%nat by lia.
    by rewrite <- drop_drop, Hd.
Qed.

Lemma sr_counts_send_new_frame (rng lag : nat -> Q) (P : list string)
    (d : string) (rest : list string) (st : SRS.State) :
  sr_counts P st ->
  SRS.data_buffer (SRS.sender st) = d :: rest ->
  sr_counts P (SRS.send_new_frame rng lag d rest st).
Proof.
  intros (H1 & H2 & H3 & H4 & H5 & H6 & H7 & H8) Hd.
  rewrite H4 in Hd. apply drop_cons_inv in Hd as [Hlt Hrest].
  unfold SRS.send_new_frame.
  pose proof (sr_receive_frame_count rng
    (Frame.make
       (SRS.next_seq_num (SRS.set_data_buffer rest (SRS.sender st))
        mod SRS.max_seq_num (SRS.set_data_buffer rest (SRS.sender st)))
       DATA d) (SRS.receiver st) (SRS.world st)) as Hc.
  pose proof (sr_receive_frame_stats rng
    (Frame.make
       (SRS.next_seq_num (SRS.set_data_buffer rest (SRS.sender st))
        mod SRS.max_seq_num (SRS.set_data_buffer rest (SRS.sender st)))
       DATA d) (SRS.receiver st) (SRS.world st)) as Hs.
  cbv zeta in Hs.
  destruct (SRR.receive_frame rng _ _ _) as [[acks r'] w'].
  cbn [fst snd] in Hc, Hs.
  match goal with
  | |- context [SRS.process_acks acks ?s2] =>
      destruct (sr_process_acks_counters acks s2)
        as (G1&G2&G3&G4&G5&G6&G7&G8)
  end.
  unfold sr_counts.
  cbn [SRS.sender SRS.receiver SRS.set_next_seq_num SRS.next_seq_num
       SRS.total_transmissions SRS.retransmissions SRS.data_buffer].
  rewrite G4, G5, G7, G8.
  cbn [SRS.set_total_transmissions SRS.set_individual_timers SRS.set_window
       SRS.set_data_buffer SRS.next_seq_num SRS.total_transmissions
       SRS.retransmissions SRS.data_buffer].
  split_and!; try lia.
  rewrite Hrest. f_equal. lia.
Qed.

Lemma sr_counts_selective_retransmit (rng lag : nat -> Q) (P : list string)
    (k : Z) (st : SRS.State) :
  sr_counts P st -> sr_counts P (SRS.selective_retransmit rng lag k st).
Proof.
  intros (H1 & H2 & H3 & H4 & H5 & H6 & H7 & H8).
  unfold SRS.selective_retransmit.
  destruct (SRS.window (SRS.sender st) !! k) as [e|];
    [|unfold sr_counts; split_and!; try done; lia].
  pose proof (sr_receive_frame_count rng (we_frame e) (SRS.receiver st)
                (SRS.world st)) as Hc.
  pose proof (sr_receive_frame_stats rng (we_frame e) (SRS.receiver st)
                (SRS.world st)) as Hs.
  cbv zeta in Hs.
  destruct (SRR.receive_frame rng _ _ _) as [[acks r'] w'].
  cbn [fst snd] in Hc, Hs.
  match goal with
  | |- context [SRS.process_acks acks ?s2] =>
      destruct (sr_process_acks_counters acks s2)
        as (G1&G2&G3&G4&G5&G6&G7&G8)
  end.
  unfold sr_counts. cbn [SRS.sender SRS.receiver].
  rewrite G4, G5, G7, G8.
  cbn [SRS.set_total_transmissions SRS.set_individual_timers SRS.set_window
       SRS.set_retransmissions SRS.next_seq_num SRS.total_transmissions
       SRS.retransmissions SRS.data_buffer].
  split_and!; try done; try lia.
Qed.

Lemma sr_counts_run (rng lag : nat -> Q) (P : list string) (n : nat) :
  forall st, sr_counts P st -> sr_counts P (SRS.passes rng lag n st).
Proof.
  apply sr_run_passes.
  - intros d rest st Hst Hd _. by apply sr_counts_send_new_frame.
  - intros k e st Hst _. by apply sr_counts_selective_retransmit.
  - intros st. unfold sr_counts, SRS.slide_window. cbn [SRS.sender SRS.receiver].
    by destruct (sr_slide_loop_frame (size (SRS.ack_received (SRS.sender st)))
                   (SRS.sender st)) as (_&_&->&->&->&->&_).
  - done.
Qed.

Lemma sr_counts_start (P : list string) (ws_s ws_r : Z) (tmo : Q)
    (w : World) :
  sr_counts P {| SRS.sender := SRS.add_data P (SRS.init ws_s tmo);
                 SRS.receiver := SRR.init ws_r; SRS.world := w |}.
Proof. unfold sr_counts. cbn. split_and!; try done; lia. Qed.

Lemma sr_counts_passes (rng lag : nat -> Q) (P : list string)
    (ws_s ws_r : Z) (tmo : Q) (n : nat) :
  sr_counts P (SRS.passes rng lag n (SRS.start ws_s ws_r tmo P)).
Proof. apply sr_counts_run, sr_counts_start. Qed.

(** X7: at every pass boundary of a Selective Repeat run, whatever the
    window sizes: the transmissions are the first transmissions plus the
    retransmissions ([next_seq_num] counts the payloads taken from the
    buffer), the data buffer holds exactly the payloads not yet sent, and
    the receiver's [frames_received] statistic equals the sender's
    transmission count. *)
Theorem selective_repeat_transmission_count
    (rng lag : nat -> Q) (ws_s ws_r : Z) (tmo : Q) (payloads : list string)
    (n : nat) :
  let st := SRS.passes rng lag n (SRS.start ws_s ws_r tmo payloads) in
  SRS.total_transmissions (SRS.sender st)
  = SRS.next_seq_num (SRS.sender st) + SRS.retransmissions (SRS.sender st)
  /\ 0 <= SRS.retransmissions (SRS.sender st)
  /\ 0 <= SRS.next_seq_num (SRS.sender st) <= Z.of_nat (length payloads)
  /\ SRS.data_buffer (SRS.sender st)
     = drop (Z.to_nat (SRS.next_seq_num (SRS.sender st))) payloads
  /\ SRR.get_statistics (SRS.receiver st) !! "frames_received"%string
     = Some (SInt (SRS.total_transmissions (SRS.sender st))).
Proof.
  intros st.
  destruct (sr_counts_passes rng lag payloads ws_s ws_r tmo n)
    as (H1 & H2 & H3 & H4 & H5 & _).
  fold st in H1, H2, H3, H4, H5.
  split_and!; try done; try lia.
  unfold SRR.get_statistics. cbn [list_to_map foldr uncurry].
  by rewrite lookup_insert_eq, H5.
Qed.

(** X8: at every pass boundary of a Selective Repeat run the receiver's
    [get_statistics] has its five entries, [frames_delivered] is the length
    of the delivered list, no entry is negative, and discarded, duplicate,
    delivered and buffered frames together are at most the frames received
    (the others were lost, or acknowledged again below the window). *)
Theorem selective_repeat_receiver_statistics
    (rng lag : nat -> Q) (ws_s ws_r : Z) (tmo : Q) (payloads : list string)
    (n : nat) :
  let r :=
    SRS.receiver (SRS.passes rng lag n (SRS.start ws_s ws_r tmo payloads)) in
  exists received discarded duplicates delivered buffered : Z,
    SRR.get_statistics r !! "frames_received"%string = Some (SInt received)
    /\ SRR.get_statistics r !! "frames_discarded"%string
       = Some (SInt discarded)
    /\ SRR.get_statistics r !! "duplicate_frames"%string
       = Some (SInt duplicates)
    /\ SRR.get_statistics r !! "frames_delivered"%string
       = Some (SInt delivered)
    /\ SRR.get_statistics r !! "frames_buffered"%string
       = Some (SInt buffered)
    /\ delivered = Z.of_nat (length (SRR.get_received_data r))
    /\ 0 <= discarded /\ 0 <= duplicates /\ 0 <= delivered /\ 0 <= buffered
    /\ discarded + duplicates + delivered + buffered <= received.
Proof.
  intros r.
  destruct (sr_counts_passes rng lag payloads ws_s ws_r tmo n)
    as (_ & _ & _ & _ & _ & H6 & H7 & H8).
  fold r in H6, H7, H8.
  eexists _, _, _, _, _.
  unfold SRR.get_statistics. cbn [list_to_map foldr uncurry].
  split_and!.
  - by rewrite lookup_insert_eq.
  - rewrite lookup_insert_ne by done. by rewrite lookup_insert_eq.
  - do 2 (rewrite lookup_insert_ne by done). by rewrite lookup_insert_eq.
  - do 3 (rewrite lookup_insert_ne by done). by rewrite lookup_insert_eq.
  - do 4 (rewrite lookup_insert_ne by done). by rewrite lookup_insert_eq.
  - done.
  - done.
  - done.
  - lia.
  - lia.
  - lia.
Qed.

(** *** Timers and window entries *)

Definition timers_inv (s : SRS.t) : Prop :=
  forall k, ODict.get k (SRS.individual_timers s)
            = we_timestamp <$> SRS.window s !! k.

Lemma timers_inv_process_ack (a : Z) (s : SRS.t) :
  timers_inv s -> timers_inv (SRS.process_ack a s).
Proof.
  intros Hs k. rewrite sr_process_ack_window, sr_process_ack_timers.
  destruct (decide (k mod SRS.max_seq_num s = a)) as [Hk|Hk].
  - destruct (SRS.window s !! k) as [e|] eqn:Hw.
    + rewrite decide_True; [done|]. split; [done|]. by eexists.
    + rewrite decide_False; [|by intros [_ [? ?]]].
      by rewrite Hs, Hw.
  - rewrite decide_False by (by intros [? _]). apply Hs.
Qed.

Lemma timers_inv_process_acks (acks : option (list Z)) (s : SRS.t) :
  timers_inv s -> timers_inv (SRS.process_acks acks s).
Proof.
  destruct acks as [l|]; cbn [SRS.process_acks]; [|done].
  revert s. induction l as [|a l IH]; intros s Hs; cbn [foldl]; [done|].
  by apply IH, timers_inv_process_ack.
Qed.

Lemma timers_inv_stamp (s s' : SRS.t) (k : Z) (e : WinEntry) :
  SRS.window s' = <[k := e]> (SRS.window s) ->
  SRS.individual_timers s'
  = ODict.set k (we_timestamp e) (SRS.individual_timers s) ->
  timers_inv s -> timers_inv s'.
Proof.
  intros Hw Ht Hs j. rewrite Hw, Ht.
  destruct (decide (j = k)) as [->|Hne].
  - by rewrite odict_get_set_eq, lookup_insert_eq.
  - rewrite odict_get_set_ne, lookup_insert_ne by done. apply Hs.
Qed.

Lemma timers_inv_passes (rng lag : nat -> Q) (ws_s ws_r : Z) (tmo : Q)
    (P : list string) (n : nat) :
  timers_inv (SRS.sender (SRS.passes rng lag n (SRS.start ws_s ws_r tmo P))).
Proof.
  apply (sr_run_passes rng lag (fun st => timers_inv (SRS.sender st))).
  - intros d rest st Hst _ _. unfold SRS.send_new_frame.
    destruct (SRR.receive_frame rng _ _ _) as [[acks r'] w'].
    cbn [SRS.sender].
    match goal with
    | |- timers_inv (SRS.set_next_seq_num _ (SRS.process_acks acks ?s2)) =>
        assert (Hs2 : timers_inv s2)
    end.
    { eapply (timers_inv_stamp (SRS.sender st)); [..|exact Hst]; done. }
    exact (timers_inv_process_acks acks _ Hs2).
  - intros k e st Hst Hk. unfold SRS.selective_retransmit. rewrite Hk.
    destruct (SRR.receive_frame rng _ _ _) as [[acks r'] w'].
    cbn [SRS.sender].
    apply timers_inv_process_acks.
    eapply (timers_inv_stamp (SRS.sender st)); [..|exact Hst]; done.
  - intros st Hst j. cbn [SRS.sender]. unfold SRS.slide_window.
    destruct (sr_slide_loop_frame (size (SRS.ack_received (SRS.sender st)))
                (SRS.sender st)) as (->&->&_).
    apply Hst.
  - done.
  - intros j. cbn. by rewrite lookup_empty.
Qed.


(** *** Delivery with windows of at most half the sequence space *)

Lemma sr_send_frames_idle (rng lag : nat -> Q) (n : nat) :
  forall st b st',
    SRS.send_frames rng lag n st = Some (b, st') ->
    SRS.busy (SRS.sender st') = false.
Proof.
  induction n as [|n IH]; intros st b st'.
  - cbn. destruct (SRS.busy (SRS.sender st)) eqn:Hb; [done|].
    intros [= _ <-]. done.
  - rewrite sr_send_frames_unfold.
    destruct (SRS.busy (SRS.sender st)) eqn:Hb; [|by intros [= _ <-]].
    unfold SRS.pass at 1.
    match goal with
    | |- context [negb (SRS.busy ?s1)] => destruct (SRS.busy s1) eqn:Hb1
    end; cbn [negb].
    + apply IH.
    + intros [= _ <-]. exact Hb1.
Qed.

(** X10: in a Selective Repeat run whose sender and receiver share a
    window size of at most 4, the delivered output is at every pass
    boundary exactly the first [base] payloads ([base] the receiver's), the
    receiver's base lies between the sender's base and [next_seq_num], and
    every buffered frame is the payload of a later instance already
    sent. *)
Theorem selective_repeat_delivers_prefix
    (rng lag : nat -> Q) (ws : Z) (tmo : Q) (payloads : list string)
    (n : nat) :
  ws <= 4 ->
  let st := SRS.passes rng lag n (SRS.start ws ws tmo payloads) in
  SRR.get_received_data (SRS.receiver st)
  = take (Z.to_nat (SRR.base (SRS.receiver st))) payloads
  /\ 0 <= SRS.base (SRS.sender st) <= SRR.base (SRS.receiver st)
  /\ SRR.base (SRS.receiver st) <= SRS.next_seq_num (SRS.sender st)
  /\ (forall q d, SRR.buffer (SRS.receiver st) !! q = Some d ->
        exists k, SRR.base (SRS.receiver st) < k
                  < SRS.next_seq_num (SRS.sender st)
                  /\ k mod 8 = q
                  /\ payloads !! Z.to_nat k = Some d).
Proof.
  intros Hws st.
  destruct (sr_delivery_inv_passes rng lag payloads ws n Hws
              (SRS.start ws ws tmo payloads)
              (sr_delivery_inv_start ws tmo payloads))
    as [(_ & _ & _ & _ & _ & _ & (Hm & Hb & _ & Hrecv & Hbuf) & Hnb & Hbase & _)
        _].
  fold st in Hm, Hb, Hrecv, Hbuf, Hnb, Hbase.
  split_and!; try done; try lia.
  intros q d Hq. destruct (Hbuf q d Hq) as (k & Hk & Hmod & HP).
  exists k. split_and!; try done; try lia.
  assert (k <> SRR.base (SRS.receiver st)); [|lia].
  intros ->. rewrite Hmod in Hnb. congruence.
Qed.

Lemma selective_repeat_delivers_prefix_witness :
  let rng := (fun i : nat => if (i =? 3)%nat then 0 else 1 # 2)%Q in
  let lag := (fun _ : nat => 0%Q) in
  let payloads := ["p0"; "p1"; "p2"; "p3"; "p4"; "p5"]%string in
  4 <= 4
  /\ let st := SRS.passes rng lag 1 (SRS.start 4 4 2 payloads) in
     SRR.get_received_data (SRS.receiver st)
     = take (Z.to_nat (SRR.base (SRS.receiver st))) payloads
     /\ 0 <= SRS.base (SRS.sender st) <= SRR.base (SRS.receiver st)
     /\ SRR.base (SRS.receiver st) <= SRS.next_seq_num (SRS.sender st)
     /\ (forall q d, SRR.buffer (SRS.receiver st) !! q = Some d ->
           exists k, SRR.base (SRS.receiver st) < k
                     < SRS.next_seq_num (SRS.sender st)
                     /\ k mod 8 = q
                     /\ payloads !! Z.to_nat k = Some d).
Proof.
  intros rng lag payloads. split; [lia|].
  apply (selective_repeat_delivers_prefix rng lag 4 2 payloads 1). lia.
Defined.

Lemma sr_returns_complete (rng lag : nat -> Q) (ws : Z) (tmo : Q)
    (payloads : list string) (w : World) (fuel : nat) (b : bool)
    (st : SRS.State) :
  ws <= 4 ->
  SRS.send_frames rng lag fuel
    {| SRS.sender := SRS.add_data payloads (SRS.init ws tmo);
       SRS.receiver := SRR.init ws; SRS.world := w |}
  = Some (b, st) ->
  b = true
  /\ SRR.get_received_data (SRS.receiver st) = payloads
  /\ SRS.window (SRS.sender st) = ∅
  /\ SRS.data_buffer (SRS.sender st) = []
  /\ SRS.next_seq_num (SRS.sender st) = Z.of_nat (length payloads)
  /\ SRR.base (SRS.receiver st) = Z.of_nat (length payloads)
  /\ SRS.total_transmissions (SRS.sender st)
     = Z.of_nat (length payloads) + SRS.retransmissions (SRS.sender st)
  /\ 0 <= SRS.retransmissions (SRS.sender st).
Proof.
  intros Hws Hret.
  pose proof (sr_send_frames_idle rng lag fuel _ _ _ Hret) as Hidle.
  apply sr_send_frames_final in Hret as [-> ->].
  set (st0 := {| SRS.sender := SRS.add_data payloads (SRS.init ws tmo);
                 SRS.receiver := SRR.init ws; SRS.world := w |}) in *.
  destruct (sr_delivery_inv_passes rng lag payloads ws fuel Hws st0
              (sr_delivery_inv_start ws tmo payloads))
    as [((HB & _) & _ & _ & _ & _ & _ & (Hm & Hb & _ & Hrecv & Hbuf) & Hnb
         & Hbase & Harr) Hdata].
  destruct (sr_counts_run rng lag payloads fuel st0
              (sr_counts_start payloads ws ws tmo w))
    as (Hc1 & Hc2 & Hc3 & _).
  set (st := SRS.passes rng lag fuel st0) in *.
  unfold SRS.busy in Hidle. apply orb_false_elim in Hidle as [Hd Hw].
  apply negb_false_iff, bool_decide_eq_true in Hd, Hw.
  assert (Hfull : SRR.base (SRS.receiver st)
                  = SRS.next_seq_num (SRS.sender st)).
  { destruct (decide (SRR.base (SRS.receiver st)
                      = SRS.next_seq_num (SRS.sender st))) as [|Hne]; [done|].
    destruct (Harr (SRR.base (SRS.receiver st))) as [Hlt|Hsome].
    - lia.
    - rewrite Hw. apply lookup_empty.
    - lia.
    - rewrite Hnb in Hsome. by destruct Hsome. }
  rewrite Hd in Hdata. symmetry in Hdata.
  assert (Hlen : (length payloads
                  <= Z.to_nat (SRS.next_seq_num (SRS.sender st)))%nat).
  { destruct (decide (length payloads
                      <= Z.to_nat (SRS.next_seq_num (SRS.sender st)))%nat)
      as [|Hgt]; [done|].
    apply (f_equal length) in Hdata. rewrite length_drop in Hdata.
    cbn in Hdata. lia. }
  split_and!; try done; try lia.
  unfold SRR.get_received_data. rewrite Hrecv, Hfull.
  by apply take_ge.
Qed.

(** X11: when [send_frames] of a Selective Repeat sender returns, with
    sender and receiver sharing a window size of at most 4, it returns
    [True] and every payload was delivered exactly once and in order;
    window and buffer are empty and the transmissions are the payloads plus
    the retransmissions. *)
Theorem selective_repeat_returns_complete
    (rng lag : nat -> Q) (ws : Z) (tmo : Q) (payloads : list string)
    (fuel : nat) (b : bool) (st : SRS.State) :
  ws <= 4 ->
  SRS.send_frames rng lag fuel (SRS.start ws ws tmo payloads) = Some (b, st) ->
  b = true
  /\ SRR.get_received_data (SRS.receiver st) = payloads
  /\ SRS.window (SRS.sender st) = ∅
  /\ SRS.data_buffer (SRS.sender st) = []
  /\ SRS.next_seq_num (SRS.sender st) = Z.of_nat (length payloads)
  /\ SRR.base (SRS.receiver st) = Z.of_nat (length payloads)
  /\ SRS.total_transmissions (SRS.sender st)
     = Z.of_nat (length payloads) + SRS.retransmissions (SRS.sender st).
Proof.
  intros Hws Hret.
  destruct (sr_returns_complete rng lag ws tmo payloads World0 fuel b st
              Hws Hret) as (H1 & H2 & H3 & H4 & H5 & H6 & H7 & _).
  by split_and!.
Qed.

Lemma selective_repeat_returns_complete_witness :
  let rng := (fun _ : nat => 1 # 2)%Q in
  let lag := (fun _ : nat => 0%Q) in
  let payloads := ["p0"; "p1"; "p2"]%string in
  exists st,
    4 <= 4
    /\ SRS.send_frames rng lag 3 (SRS.start 4 4 2 payloads) = Some (true, st)
    /\ SRR.get_received_data (SRS.receiver st) = payloads
    /\ SRS.window (SRS.sender st) = ∅
    /\ SRS.data_buffer (SRS.sender st) = []
    /\ SRS.next_seq_num (SRS.sender st) = Z.of_nat (length payloads)
    /\ SRR.base (SRS.receiver st) = Z.of_nat (length payloads)
    /\ SRS.total_transmissions (SRS.sender st)
       = Z.of_nat (length payloads) + SRS.retransmissions (SRS.sender st).
Proof.
  intros rng lag payloads. eexists.
  split; [lia|]. split; [vm_compute; reflexivity|].
  apply (selective_repeat_returns_complete rng lag 4 2 payloads 3 true);
    [lia|vm_compute; reflexivity].
Defined.

(** ** Stop-and-Wait: one payload *)

Lemma sw_receive_frame_cases
    (rng : nat -> Q) (f : Frame.t) (r : SWR.t) (w : World) :
  let res := SWR.receive_frame rng f r w in
  (res.1.1 = false /\ res.1.2 = r)
  \/ (res.1.1 = true
      /\ Frame.seq_num f = SWR.expected_seq_num r
      /\ res.1.2 = {| SWR.expected_seq_num := 1 - SWR.expected_seq_num r;
                      SWR.received_frames :=
                        SWR.received_frames r ++ [Frame.data f] |})
  \/ (res.1.1 = true
      /\ Frame.seq_num f <> SWR.expected_seq_num r
      /\ res.1.2 = r).
Proof.
  cbv zeta.
  unfold SWR.receive_frame, Frame.is_corrupted, SWR.send_ack, SWR.send_nak,
    random_random.
  destruct (Qlt_bool _ _); [by left|].
  destruct (Qlt_bool _ _); [by left|].
  destruct (Z.eqb_spec (Frame.seq_num f) (SWR.expected_seq_num r)).
  - right; left. by split_and!.
  - right; right. by split_and!.
Qed.

Lemma sw_attempts_cases (rng lag : nat -> Q) (frame : Frame.t) (n : nat) :
  forall st,
    SWS.waiting_for_ack (SWS.sender st) = true ->
    0 <= SWS.retransmission_count (SWS.sender st) ->
    Z.of_nat n = 5 - SWS.retransmission_count (SWS.sender st) ->
    let res := SWS.attempts rng lag n frame st in
    let s := SWS.sender st in
    let s' := SWS.sender res.2 in
    SWS.total_transmissions s' - SWS.total_transmissions s
    = SWS.retransmission_count s' - SWS.retransmission_count s
      + (if res.1 then 1 else 0)
    /\ SWS.retransmission_count s <= SWS.retransmission_count s' <= 5
    /\ SWS.timeout s' = SWS.timeout s
    /\ SWS.current_frame s' = SWS.current_frame s
    /\ (res.1 = false ->
        SWS.retransmission_count s' = 5
        /\ SWS.seq_num s' = SWS.seq_num s
        /\ SWS.waiting_for_ack s' = true
        /\ SWS.receiver res.2 = SWS.receiver st)
    /\ (res.1 = true ->
        SWS.retransmission_count s' < 5
        /\ SWS.seq_num s' = 1 - SWS.seq_num s
        /\ SWS.waiting_for_ack s' = false
        /\ ((Frame.seq_num frame = SWR.expected_seq_num (SWS.receiver st)
             /\ SWS.receiver res.2
                = {| SWR.expected_seq_num :=
                       1 - SWR.expected_seq_num (SWS.receiver st);
                     SWR.received_frames :=
                       SWR.received_frames (SWS.receiver st)
                       ++ [Frame.data frame] |})
            \/ (Frame.seq_num frame
                <> SWR.expected_seq_num (SWS.receiver st)
                /\ SWS.receiver res.2 = SWS.receiver st))).
Proof.
  induction n as [|n IH]; intros st Hwait Hc Hn.
  - cbn [SWS.attempts fst snd]. split_and!; try done; try lia.
    intros _. split_and!; try done; lia.
  - rewrite sw_attempts_unfold. cbv zeta. rewrite Hwait.
    assert (Hlt : (SWS.retransmission_count (SWS.sender st) <? 5) = true)
      by (apply Z.ltb_lt; lia).
    rewrite Hlt. cbn [andb].
    pose proof (sw_receive_frame_cases rng frame (SWS.receiver st)
                  (time_sleep lag (1 # 10) (SWS.world st))) as Hrx.
    cbv zeta in Hrx.
    destruct (SWR.receive_frame rng frame (SWS.receiver st) _)
      as [[ok r'] w']. cbn [fst snd] in Hrx.
    destruct Hrx as [[-> ->]|[(-> & Hseq & ->)|(-> & Hseq & ->)]].
    + match goal with
      | |- context [SWS.attempts rng lag n frame ?st1] =>
          destruct (IH st1) as (H1 & H2 & H3 & H4 & H5 & H6);
            [done|cbn; lia|cbn; lia|]
      end.
      cbv zeta in H1, H2, H3, H4, H5, H6.
      destruct (SWS.attempts rng lag n frame _) as [ok2 st2].
      cbn [fst snd SWS.sender SWS.receiver SWS.retransmission_count
           SWS.total_transmissions SWS.timeout SWS.current_frame
           SWS.seq_num SWS.waiting_for_ack] in H1, H2, H3, H4, H5, H6 |- *.
      split_and!; try done; try lia.
    + cbn [fst snd SWS.sender SWS.receiver SWS.retransmission_count
           SWS.total_transmissions SWS.timeout SWS.current_frame
           SWS.seq_num SWS.waiting_for_ack].
      split_and!; try done; try lia.
      intros _. split_and!; try done; try lia. by left.
    + cbn [fst snd SWS.sender SWS.receiver SWS.retransmission_count
           SWS.total_transmissions SWS.timeout SWS.current_frame
           SWS.seq_num SWS.waiting_for_ack].
      split_and!; try done; try lia.
      intros _. split_and!; try done; try lia. by right.
Qed.


(** With sender and receiver agreeing on the next number. *)
Lemma sw_send_frame_step (rng lag : nat -> Q) (d : string) (st : SWS.State) :
  sw_inv st ->
  let res := SWS.send_frame rng lag d st in
  sw_inv res.2
  /\ 1 <= SWS.total_transmissions (SWS.sender res.2)
          - SWS.total_transmissions (SWS.sender st) <= 5
  /\ ((res.1 = true
       /\ SWR.received_frames (SWS.receiver res.2)
          = SWR.received_frames (SWS.receiver st) ++ [d])
      \/ (res.1 = false
          /\ SWR.received_frames (SWS.receiver res.2)
             = SWR.received_frames (SWS.receiver st))).
Proof.
  intros Hinv. cbv zeta. unfold SWS.send_frame.
  match goal with
  | |- context [SWS.attempts rng lag 5 ?f ?st1] =>
      destruct (sw_attempts_cases rng lag f 5 st1)
        as (H1 & H2 & H3 & H4 & H5 & H6); [done|done|done|]
  end.
  cbv zeta in H1, H2, H3, H4, H5, H6.
  cbn [SWS.sender SWS.receiver SWS.retransmission_count
       SWS.total_transmissions SWS.timeout SWS.current_frame
       SWS.seq_num SWS.waiting_for_ack Frame.make Frame.seq_num Frame.data]
    in H1, H2, H3, H4, H5, H6.
  unfold sw_inv in *.
  destruct (SWS.attempts rng lag 5 _ _) as [[] st']; cbn [fst snd] in *.
  - destruct H6 as (G1 & G2 & G3 & [[G4 G5]|[G4 G5]]); [done| |done].
    rewrite G5. cbn [SWR.expected_seq_num SWR.received_frames].
    split_and!; try lia. by left.
  - destruct H5 as (G1 & G2 & G3 & G4); [done|].
    rewrite G4. split_and!; try lia. by right.
Qed.

Lemma sw_send_all_counts (rng lag : nat -> Q) (payloads : list string) :
  forall (count : Z) (st : SWS.State),
    sw_inv st ->
    let res := SWS.send_all rng lag payloads count st in
    sw_inv res.2
    /\ res.1 - count
       = Z.of_nat (length (SWR.received_frames (SWS.receiver res.2)))
         - Z.of_nat (length (SWR.received_frames (SWS.receiver st)))
    /\ Z.of_nat (length payloads)
       <= SWS.total_transmissions (SWS.sender res.2)
          - SWS.total_transmissions (SWS.sender st)
       <= 5 * Z.of_nat (length payloads).
Proof.
  induction payloads as [|d rest IH]; intros count st Hinv;
    cbn [SWS.send_all].
  - cbn [fst snd length]. split_and!; try done; lia.
  - destruct (sw_send_frame_step rng lag d st Hinv) as (Hinv' & Htx & Hrx).
    destruct (SWS.send_frame rng lag d st) as [ok st1]. cbn [fst snd] in *.
    match goal with
    | |- context [SWS.send_all rng lag rest ?c ?st2] =>
        destruct (IH c st2 Hinv') as (G1 & G2 & G3)
    end.
    cbn [SWS.sender SWS.receiver] in G2, G3. cbv zeta.
    split_and!; try done.
    + destruct Hrx as [[-> Hr]|[-> Hr]]; rewrite Hr in G2;
        rewrite ?length_app in G2; cbn [length] in G2; lia.
    + cbn [length]. lia.
    + cbn [length]. lia.
Qed.


(** ** Channels that lose and corrupt nothing *)

Lemma clear_draw (x : Q) :
  (2 # 10 <= x)%Q ->
  Qlt_bool x (2 # 10) = false
  /\ Qlt_bool x (15 # 100) = false
  /\ Qlt_bool x (1 # 10) = false.
Proof.
  intros Hx. unfold Qlt_bool.
  split_and!; apply negb_false_iff, Qle_bool_iff.
  - done.
  - apply Qle_trans with (2 # 10); [by apply Qle_bool_iff|done].
  - apply Qle_trans with (2 # 10); [by apply Qle_bool_iff|done].
Qed.

Lemma sw_send_frame_clear (rng lag : nat -> Q) (d : string)
    (st : SWS.State) :
  (forall i, (2 # 10 <= rng i)%Q) ->
  sw_inv st ->
  let res := SWS.send_frame rng lag d st in
  res.1 = true
  /\ sw_inv res.2
  /\ SWR.received_frames (SWS.receiver res.2)
     = SWR.received_frames (SWS.receiver st) ++ [d]
  /\ SWS.total_transmissions (SWS.sender res.2)
     = SWS.total_transmissions (SWS.sender st) + 1.
Proof.
  intros Hclear Hinv. cbv zeta. unfold SWS.send_frame.
  change 5%nat with (S 4). rewrite sw_attempts_unfold. cbv zeta.
  cbn [SWS.sender SWS.receiver SWS.world SWS.waiting_for_ack
       SWS.retransmission_count andb].
  change (0 <? 5) with true. cbv iota.
  unfold SWR.receive_frame, Frame.is_corrupted, SWR.send_ack, random_random.
  rewrite (proj1 (clear_draw _ (Hclear _))).
  rewrite (proj2 (proj2 (clear_draw _ (Hclear _)))).
  cbn [Frame.make Frame.seq_num Frame.data].
  unfold sw_inv in Hinv. rewrite Hinv, Z.eqb_refl.
  cbn [fst snd SWS.sender SWS.receiver SWS.total_transmissions
       SWR.received_frames].
  by split_and!.
Qed.

(** X16: on a channel that loses and corrupts nothing every payload of a
    Stop-and-Wait run succeeds at its first attempt: all are delivered in
    order and the transmissions are as many as the payloads. *)
Theorem stop_and_wait_clear_channel
    (rng lag : nat -> Q) (tmo : Q) (payloads : list string) :
  (forall i, (2 # 10 <= rng i)%Q) ->
  let res := SWS.send_all rng lag payloads 0 (SWS.start tmo) in
  res.1 = Z.of_nat (length payloads)
  /\ SWR.get_received_data (SWS.receiver res.2) = payloads
  /\ SWS.total_transmissions (SWS.sender res.2)
     = Z.of_nat (length payloads).
Proof.
  intros Hclear. cbv zeta.
  assert (Hgen : forall P count st,
    sw_inv st ->
    let res := SWS.send_all rng lag P count st in
    res.1 = count + Z.of_nat (length P)
    /\ SWR.received_frames (SWS.receiver res.2)
       = SWR.received_frames (SWS.receiver st) ++ P
    /\ SWS.total_transmissions (SWS.sender res.2)
       = SWS.total_transmissions (SWS.sender st) + Z.of_nat (length P)).
  { induction P as [|d rest IH]; intros count st Hinv; cbn [SWS.send_all].
    - cbn [fst snd length]. rewrite app_nil_r. split_and!; try done; lia.
    - destruct (sw_send_frame_clear rng lag d st Hclear Hinv)
        as (Hok & Hinv' & Hrx & Htx).
      destruct (SWS.send_frame rng lag d st) as [ok st1].
      cbn [fst snd] in *. subst ok.
      match goal with
      | |- context [SWS.send_all rng lag rest ?c ?st2] =>
          destruct (IH c st2 Hinv') as (G1 & G2 & G3)
      end.
      cbn [SWS.sender SWS.receiver] in G2, G3. cbv zeta.
      rewrite G1, G2, G3, Hrx, Htx, <- app_assoc. cbn [length app].
      split_and!; try done; lia. }
  destruct (Hgen payloads 0 (SWS.start tmo)) as (H1 & H2 & H3); [done|].
  cbv zeta in H1, H2, H3. cbn in H2, H3.
  unfold SWR.get_received_data. split_and!; try done; lia.
Qed.

Lemma stop_and_wait_clear_channel_witness :
  let rng := (fun _ : nat => 1 # 2)%Q in
  let lag := (fun _ : nat => 0%Q) in
  let payloads := ["p0"; "p1"; "p2"]%string in
  (forall i : nat, (2 # 10 <= rng i)%Q)
  /\ let res := SWS.send_all rng lag payloads 0 (SWS.start 2) in
     res.1 = Z.of_nat (length payloads)
     /\ SWR.get_received_data (SWS.receiver res.2) = payloads
     /\ SWS.total_transmissions (SWS.sender res.2)
        = Z.of_nat (length payloads).
Proof.
  intros rng lag payloads.
  assert (Hclear : forall i : nat, (2 # 10 <= rng i)%Q).
  { intros i. unfold rng, Qle. cbn. lia. }
  split; [exact Hclear|].
  apply (stop_and_wait_clear_channel rng lag 2 payloads Hclear).
Defined.

(** ** Go-Back-N: properties kept along a run *)

Section GoBackNRun.
Variables rng lag : nat -> Q.
Variable I : GBS.State -> Prop.

Hypothesis I_send : forall d rest st,
  I st ->
  GBS.data_buffer (GBS.sender st) = d :: rest ->
  GBS.can_send (GBS.sender st) = true ->
  I (GBS.send_new_frame rng lag d rest st).
Hypothesis I_retransmit : forall k st,
  I st -> I (GBS.go_back_n_retransmit rng lag k st).
Hypothesis I_sleep : forall d st,
  I st ->
  I {| GBS.sender := GBS.sender st; GBS.receiver := GBS.receiver st;
       GBS.world := time_sleep lag d (GBS.world st) |}.

Lemma gbn_run_send_new_frames (n : nat) :
  forall st, I st -> I (GBS.send_new_frames rng lag n st).
Proof.
  induction n as [|n IH]; intros st Hst; cbn [GBS.send_new_frames]; [done|].
  destruct (GBS.can_send (GBS.sender st)) eqn:Hcan; [|done].
  destruct (GBS.data_buffer (GBS.sender st)) as [|d rest] eqn:Hd; [done|].
  by apply IH, I_send.
Qed.

Lemma gbn_run_check_timeouts (st : GBS.State) :
  I st -> I (GBS.check_timeouts rng lag st).
Proof.
  intros Hst. unfold GBS.check_timeouts.
  destruct (elements (dom (GBS.window (GBS.sender st)))) as [|k ks]; [done|].
  destruct (GBS.window (GBS.sender st) !! min_list k ks); [|done].
  destruct (Qlt_bool _ _); [|done].
  by apply I_retransmit.
Qed.

Lemma gbn_run_send_loop (n : nat) :
  forall count st, I st -> I (GBS.send_loop rng lag n count st).2.
Proof.
  induction n as [|n IH]; intros count st Hst; cbn [GBS.send_loop]; [done|].
  destruct (GBS.busy (GBS.sender st) && (count <? GBS.max_iterations));
    [|done].
  cbv zeta.
  match goal with
  | |- context [if negb (GBS.busy (GBS.sender ?st2)) then _ else _] =>
      assert (Hst2 : I st2);
        [|destruct (negb (GBS.busy (GBS.sender st2)));
          [done|by apply IH, I_sleep]]
  end.
  destruct (_ =? 0).
  - by apply gbn_run_check_timeouts, gbn_run_send_new_frames.
  - by apply gbn_run_send_new_frames.
Qed.

Lemma gbn_run_send_frames (st : GBS.State) :
  I st -> I (GBS.send_frames rng lag st).2.
Proof. intros Hst. unfold GBS.send_frames. by apply gbn_run_send_loop. Qed.

End GoBackNRun.

(** *** Counting transmissions *)

Lemma gbn_process_ack_counters (a : Z) (s : GBS.t) :
  GBS.total_transmissions (GBS.process_ack a s) = GBS.total_transmissions s
  /\ GBS.retransmissions (GBS.process_ack a s) = GBS.retransmissions s
  /\ GBS.total_retransmission_count (GBS.process_ack a s)
     = GBS.total_retransmission_count s
  /\ GBS.max_retransmissions (GBS.process_ack a s)
     = GBS.max_retransmissions s
  /\ GBS.next_seq_num (GBS.process_ack a s) = GBS.next_seq_num s
  /\ GBS.data_buffer (GBS.process_ack a s) = GBS.data_buffer s.
Proof.
  unfold GBS.process_ack. generalize (GBS.frames_to_remove a s). intros l.
  assert (Hfold : forall l s,
    let s' := foldl (λ s k, GBS.set_window (delete k (GBS.window s)) s) s l in
    GBS.total_transmissions s' = GBS.total_transmissions s
    /\ GBS.retransmissions s' = GBS.retransmissions s
    /\ GBS.total_retransmission_count s' = GBS.total_retransmission_count s
    /\ GBS.max_retransmissions s' = GBS.max_retransmissions s
    /\ GBS.next_seq_num s' = GBS.next_seq_num s
    /\ GBS.data_buffer s' = GBS.data_buffer s).
  { clear. induction l as [|k l IH]; intros s; cbn [foldl]; [done|].
    by destruct (IH (GBS.set_window (delete k (GBS.window s)) s))
      as (->&->&->&->&->&->). }
  destruct (Hfold l s) as (H1&H2&H3&H4&H5&H6). cbv zeta in *.
  destruct l; [done|]. cbn [GBS.set_base GBS.total_transmissions
    GBS.retransmissions GBS.total_retransmission_count
    GBS.max_retransmissions GBS.next_seq_num GBS.data_buffer]. done.
Qed.

Lemma gbn_ack_counters (ack : option Z) (s : GBS.t) :
  let s' := match ack with Some a => GBS.process_ack a s | None => s end in
  GBS.total_transmissions s' = GBS.total_transmissions s
  /\ GBS.retransmissions s' = GBS.retransmissions s
  /\ GBS.total_retransmission_count s' = GBS.total_retransmission_count s
  /\ GBS.max_retransmissions s' = GBS.max_retransmissions s
  /\ GBS.next_seq_num s' = GBS.next_seq_num s
  /\ GBS.data_buffer s' = GBS.data_buffer s.
Proof. destruct ack; [apply gbn_process_ack_counters|done]. Qed.

Lemma gbn_receive_frame_stats
    (rng : nat -> Q) (f : Frame.t) (r : GBR.t) (w : World) :
  let r' := (GBR.receive_frame rng f r w).1.2 in
  GBR.total_frames_received r' = GBR.total_frames_received r + 1
  /\ GBR.frames_discarded r <= GBR.frames_discarded r'
  /\ GBR.expected_seq_num r' - GBR.expected_seq_num r
     = Z.of_nat (length (GBR.received_frames r'))
       - Z.of_nat (length (GBR.received_frames r))
  /\ GBR.frames_discarded r + Z.of_nat (length (GBR.received_frames r))
     <= GBR.frames_discarded r' + Z.of_nat (length (GBR.received_frames r'))
     <= GBR.frames_discarded r + Z.of_nat (length (GBR.received_frames r))
        + 1.
Proof.
  cbv zeta.
  unfold GBR.receive_frame, Frame.is_corrupted, GBR.send_ack, random_random.
  repeat match goal with
         | |- context [if ?b then _ else _] => destruct b
         end;
    cbn [fst snd GBR.accept GBR.inc_frames_discarded
         GBR.inc_total_frames_received GBR.total_frames_received
         GBR.frames_discarded GBR.expected_seq_num GBR.received_frames];
    rewrite ?length_app; cbn [length]; lia.
Qed.

(** The counters of a run over the payloads [P]. *)
Definition gbn_counts (P : list string) (st : GBS.State) : Prop :=
  let s := GBS.sender st in
  let r := GBS.receiver st in
  GBS.max_retransmissions s = 10
  /\ GBS.total_retransmission_count s = GBS.retransmissions s
  /\ 0 <= GBS.retransmissions s <= 10
  /\ GBS.total_transmissions s = GBS.next_seq_num s + GBS.retransmissions s
  /\ 0 <= GBS.next_seq_num s <= Z.of_nat (length P)
  /\ GBS.data_buffer s = drop (Z.to_nat (GBS.next_seq_num s)) P
  /\ GBR.total_frames_received r
     = GBS.total_transmissions s
       - (if 10 <=? GBS.retransmissions s then 1 else 0)
  /\ GBR.expected_seq_num r = Z.of_nat (length (GBR.received_frames r))
  /\ 0 <= GBR.frames_discarded r
  /\ GBR.frames_discarded r + Z.of_nat (length (GBR.received_frames r))
     <= GBR.total_frames_received r.

Lemma gbn_counts_send_new_frame (rng lag : nat -> Q) (P : list string)
    (d : string) (rest : list string) (st : GBS.State) :
  gbn_counts P st ->
  GBS.data_buffer (GBS.sender st) = d :: rest ->
  gbn_counts P (GBS.send_new_frame rng lag d rest st).
Proof.
  intros (H1 & H2 & H3 & H4 & H5 & H6 & H7 & H8 & H9 & H10) Hd.
  cbv zeta in *.
  rewrite H6 in Hd. apply drop_cons_inv in Hd as [Hlt Hrest].
  unfold GBS.send_new_frame.
  match goal with
  | |- context [GBR.receive_frame rng ?f ?r ?w] =>
      pose proof (gbn_receive_frame_stats rng f r w) as Hs
  end.
  cbv zeta in Hs.
  destruct (GBR.receive_frame rng _ _ _) as [[ack r'] w'].
  cbn [fst snd] in Hs. destruct Hs as (S1 & S2 & S3 & S4).
  match goal with
  | |- context [match ack with Some a => GBS.process_ack a ?s2 | None => _ end] =>
      destruct (gbn_ack_counters ack s2) as (G1&G2&G3&G4&G5&G6);
      cbv zeta in G1, G2, G3, G4, G5, G6;
      set (s3 := match ack with Some a => GBS.process_ack a s2 | None => s2 end)
        in *; clearbody s3
  end.
  cbn [GBS.set_total_transmissions GBS.set_window GBS.set_data_buffer
       GBS.next_seq_num GBS.total_transmissions GBS.retransmissions
       GBS.data_buffer GBS.max_retransmissions
       GBS.total_retransmission_count] in G1, G2, G3, G4, G5, G6.
  unfold gbn_counts. cbv zeta.
  cbn [GBS.sender GBS.receiver GBS.set_next_seq_num GBS.next_seq_num
       GBS.total_transmissions GBS.retransmissions GBS.data_buffer
       GBS.max_retransmissions GBS.total_retransmission_count].
  rewrite G1, G2, G3, G4, G5, G6.
  split_and!; try done; try lia.
  rewrite Hrest. f_equal. lia.
Qed.

Lemma gbn_counts_retransmit_each (rng lag : nat -> Q) (P : list string)
    (seqs : list Z) :
  forall st,
    gbn_counts P st ->
    GBS.retransmissions (GBS.sender st) < 10 ->
    gbn_counts P (GBS.retransmit_each rng lag seqs st).
Proof.
  induction seqs as [|k seqs IH]; intros st Hst Hlt;
    cbn [GBS.retransmit_each]; [done|].
  destruct (GBS.window (GBS.sender st) !! k) as [e|]; [|by apply IH].
  destruct Hst as (H1 & H2 & H3 & H4 & H5 & H6 & H7 & H8 & H9 & H10).
  cbv zeta in *.
  cbn [GBS.count_retransmission GBS.max_retransmissions
       GBS.total_retransmission_count].
  rewrite H1, H2.
  assert (H7' : GBR.total_frames_received (GBS.receiver st)
                = GBS.total_transmissions (GBS.sender st)).
  { rewrite H7. destruct (Z.leb_spec 10 (GBS.retransmissions (GBS.sender st)));
      lia. }
  destruct (Z.leb_spec 10 (GBS.retransmissions (GBS.sender st) + 1))
    as [Hstop|Hgo].
  - unfold gbn_counts. cbv zeta.
    cbn [GBS.sender GBS.receiver GBS.count_retransmission
         GBS.next_seq_num GBS.total_transmissions GBS.retransmissions
         GBS.data_buffer GBS.max_retransmissions
         GBS.total_retransmission_count].
    destruct (Z.leb_spec 10 (GBS.retransmissions (GBS.sender st) + 1));
      [|lia].
    split_and!; try done; try lia.
  - match goal with
    | |- context [GBR.receive_frame rng ?f ?r ?w] =>
        pose proof (gbn_receive_frame_stats rng f r w) as Hs
    end.
    cbv zeta in Hs.
    destruct (GBR.receive_frame rng _ _ _) as [[ack r'] w'].
    cbn [fst snd] in Hs. destruct Hs as (S1 & S2 & S3 & S4).
    match goal with
    | |- context [match ack with Some a => GBS.process_ack a ?s2 | None => _ end] =>
        destruct (gbn_ack_counters ack s2) as (G1&G2&G3&G4&G5&G6);
        cbv zeta in G1, G2, G3, G4, G5, G6;
        set (s3 := match ack with Some a => GBS.process_ack a s2 | None => s2 end)
          in *; clearbody s3
    end.
    cbn [GBS.set_window GBS.count_retransmission GBS.next_seq_num
         GBS.total_transmissions GBS.retransmissions GBS.data_buffer
         GBS.max_retransmissions GBS.total_retransmission_count]
      in G1, G2, G3, G4, G5, G6.
    apply IH.
    + unfold gbn_counts. cbv zeta. cbn [GBS.sender GBS.receiver].
      rewrite G1, G2, G3, G4, G5, G6.
      destruct (Z.leb_spec 10 (GBS.retransmissions (GBS.sender st) + 1));
        [lia|].
      split_and!; try done; try lia.
    + cbn [GBS.sender]. rewrite G2. lia.
Qed.

Lemma gbn_counts_go_back_n_retransmit (rng lag : nat -> Q) (P : list string)
    (k : Z) (st : GBS.State) :
  gbn_counts P st -> gbn_counts P (GBS.go_back_n_retransmit rng lag k st).
Proof.
  intros Hst. unfold GBS.go_back_n_retransmit.
  pose proof Hst as (H1 & H2 & _). cbv zeta in H1, H2. rewrite H1, H2.
  destruct (Z.leb_spec 10 (GBS.retransmissions (GBS.sender st))); [done|].
  by apply gbn_counts_retransmit_each.
Qed.

Lemma gbn_counts_send_frames (rng lag : nat -> Q) (P : list string)
    (ws : Z) (tmo : Q) (w : World) :
  gbn_counts P
    (GBS.send_frames rng lag
       {| GBS.sender := GBS.add_data P (GBS.init ws tmo);
          GBS.receiver := GBR.init; GBS.world := w |}).2.
Proof.
  apply gbn_run_send_frames.
  - intros d rest st Hst Hd _. by apply gbn_counts_send_new_frame.
  - intros k st Hst. by apply gbn_counts_go_back_n_retransmit.
  - done.
  - unfold gbn_counts. cbn. split_and!; try done; lia.
Qed.

(** X17: at the end of a Go-Back-N run, whatever the window size: at most
    10 retransmissions are counted; the transmissions are the first
    transmissions plus the retransmissions; the data buffer holds the
    payloads not yet sent; and the receiver got every counted transmission
    except the tenth retransmission, which is counted but not sent. *)
Theorem go_back_n_transmission_count
    (rng lag : nat -> Q) (ws : Z) (tmo : Q) (payloads : list string) :
  let st := (GBS.send_frames rng lag (GBS.start ws tmo payloads)).2 in
  let s := GBS.sender st in
  0 <= GBS.retransmissions s <= 10
  /\ GBS.total_transmissions s = GBS.next_seq_num s + GBS.retransmissions s
  /\ 0 <= GBS.next_seq_num s <= Z.of_nat (length payloads)
  /\ GBS.data_buffer s = drop (Z.to_nat (GBS.next_seq_num s)) payloads
  /\ GBR.total_frames_received (GBS.receiver st)
     = GBS.total_transmissions s
       - (if 10 <=? GBS.retransmissions s then 1 else 0).
Proof.
  cbv zeta.
  destruct (gbn_counts_send_frames rng lag payloads ws tmo World0)
    as (_ & _ & H3 & H4 & H5 & H6 & H7 & _).
  cbv zeta in *. unfold GBS.start. split_and!; try done; lia.
Qed.

(** X18: at the end of a Go-Back-N run the receiver's [get_statistics] has
    its three entries; [frames_accepted] is the length of the delivered
    list and the receiver's [expected_seq_num]; discarded and accepted
    frames together are at most the frames received, which are at most the
    sender's transmissions and at most the payloads plus 10. *)
Theorem go_back_n_receiver_statistics
    (rng lag : nat -> Q) (ws : Z) (tmo : Q) (payloads : list string) :
  let st := (GBS.send_frames rng lag (GBS.start ws tmo payloads)).2 in
  let r := GBS.receiver st in
  exists received discarded accepted : Z,
    GBR.get_statistics r !! "frames_received"%string = Some (SInt received)
    /\ GBR.get_statistics r !! "frames_discarded"%string
       = Some (SInt discarded)
    /\ GBR.get_statistics r !! "frames_accepted"%string
       = Some (SInt accepted)
    /\ accepted = Z.of_nat (length (GBR.get_received_data r))
    /\ accepted = GBR.expected_seq_num r
    /\ 0 <= discarded
    /\ discarded + accepted <= received
    /\ received <= GBS.total_transmissions (GBS.sender st)
    /\ received <= Z.of_nat (length payloads) + 10.
Proof.
  cbv zeta.
  destruct (gbn_counts_send_frames rng lag payloads ws tmo World0)
    as (_ & _ & H3 & H4 & H5 & H6 & H7 & H8 & H9 & H10).
  cbv zeta in *.
  eexists _, _, _.
  unfold GBR.get_statistics. cbn [list_to_map foldr uncurry].
  split_and!.
  - by rewrite lookup_insert_eq.
  - rewrite lookup_insert_ne by done. by rewrite lookup_insert_eq.
  - do 2 (rewrite lookup_insert_ne by done). by rewrite lookup_insert_eq.
  - done.
  - done.
  - done.
  - done.
  - unfold GBS.start in *. rewrite H7.
    destruct (10 <=? _); lia.
  - unfold GBS.start in *. rewrite H7.
    destruct (10 <=? _); lia.
Qed.

(** ** Go-Back-N on a channel that loses and corrupts nothing *)

Lemma gbn_receive_frame_clear
    (rng : nat -> Q) (f : Frame.t) (r : GBR.t) (w : World) :
  (forall i, (2 # 10 <= rng i)%Q) ->
  Frame.seq_num f = GBR.expected_seq_num r mod GBR.max_seq_num r ->
  GBR.receive_frame rng f r w
  = (Some (Frame.seq_num f),
     GBR.accept (Frame.data f) (GBR.inc_total_frames_received r),
     {| drawn := S (S (S (drawn w))); slept := slept w; clock := clock w |}).
Proof.
  intros Hclear Hseq.
  unfold GBR.receive_frame, Frame.is_corrupted, GBR.send_ack, random_random.
  cbn [drawn slept clock].
  rewrite (proj1 (proj2 (clear_draw _ (Hclear _)))).
  rewrite !(proj2 (proj2 (clear_draw _ (Hclear _)))).
  cbn [GBR.inc_total_frames_received GBR.expected_seq_num GBR.max_seq_num].
  rewrite Hseq, Z.eqb_refl. done.
Qed.

Lemma gbn_is_in_range_self (k a : Z) : GBS.is_in_range k k a = true.
Proof.
  unfold GBS.is_in_range. rewrite Z.leb_refl.
  by destruct (k <=? a).
Qed.

Lemma gbn_process_ack_single (a k : Z) (e : WinEntry) (s : GBS.t) :
  GBS.window s = {[k := e]} ->
  GBS.base s = k ->
  GBS.process_ack a s = GBS.set_base (k + 1) (GBS.set_window ∅ s).
Proof.
  intros Hw Hb. unfold GBS.process_ack, GBS.frames_to_remove.
  rewrite Hw, Hb, dom_singleton_L, elements_singleton.
  rewrite filter_cons_True by apply gbn_is_in_range_self.
  rewrite filter_nil. cbn [foldl]. rewrite Hw, delete_singleton_eq.
  reflexivity.
Qed.

Lemma gbn_sender_ext (s s' : GBS.t) :
  GBS.window_size s = GBS.window_size s' ->
  GBS.timeout s = GBS.timeout s' ->
  GBS.base s = GBS.base s' ->
  GBS.next_seq_num s = GBS.next_seq_num s' ->
  GBS.window s = GBS.window s' ->
  GBS.data_buffer s = GBS.data_buffer s' ->
  GBS.max_seq_num s = GBS.max_seq_num s' ->
  GBS.total_transmissions s = GBS.total_transmissions s' ->
  GBS.retransmissions s = GBS.retransmissions s' ->
  GBS.timer_active s = GBS.timer_active s' ->
  GBS.max_retransmissions s = GBS.max_retransmissions s' ->
  GBS.total_retransmission_count s = GBS.total_retransmission_count s' ->
  s = s'.
Proof. destruct s, s'; cbn; intros; by subst. Qed.

(** The sender and the receiver after [n] payloads of [P] went through. *)
Definition gbn_clear_sender (ws : Z) (tmo : Q) (P : list string) (n : Z)
  : GBS.t :=
  {| GBS.window_size := ws; GBS.timeout := tmo; GBS.base := n;
     GBS.next_seq_num := n; GBS.window := ∅;
     GBS.data_buffer := drop (Z.to_nat n) P; GBS.max_seq_num := 8;
     GBS.total_transmissions := n; GBS.retransmissions := 0;
     GBS.timer_active := false; GBS.max_retransmissions := 10;
     GBS.total_retransmission_count := 0 |}.

Definition gbn_clear_receiver (P : list string) (n : Z) : GBR.t :=
  {| GBR.expected_seq_num := n; GBR.max_seq_num := 8;
     GBR.received_frames := take (Z.to_nat n) P;
     GBR.total_frames_received := n; GBR.frames_discarded := 0 |}.

Lemma gbn_clear_send_new_frame (rng lag : nat -> Q) (ws : Z) (tmo : Q)
    (P : list string) (n : Z) (d : string) (rest : list string) (w : World) :
  (forall i, (2 # 10 <= rng i)%Q) ->
  0 <= n ->
  drop (Z.to_nat n) P = d :: rest ->
  exists w',
    GBS.send_new_frame rng lag d rest
      {| GBS.sender := gbn_clear_sender ws tmo P n;
         GBS.receiver := gbn_clear_receiver P n; GBS.world := w |}
    = {| GBS.sender := gbn_clear_sender ws tmo P (n + 1);
         GBS.receiver := gbn_clear_receiver P (n + 1); GBS.world := w' |}.
Proof.
  intros Hclear Hn Hd.
  pose proof (drop_cons_inv _ _ _ _ Hd) as [Hlt Hrest].
  assert (HPn : P !! Z.to_nat n = Some d).
  { rewrite <- (Nat.add_0_r (Z.to_nat n)), <- lookup_drop, Hd. done. }
  unfold GBS.send_new_frame.
  cbn [GBS.sender GBS.receiver GBS.world gbn_clear_sender
       GBS.set_data_buffer GBS.set_window GBS.set_total_transmissions
       GBS.next_seq_num GBS.max_seq_num GBS.window GBS.total_transmissions].
  rewrite gbn_receive_frame_clear by done.
  cbn [Frame.make Frame.seq_num Frame.data].
  eexists. f_equal.
  - erewrite (gbn_process_ack_single _ n); [|apply insert_empty|done].
    apply gbn_sender_ext;
      cbn [gbn_clear_sender GBS.set_base GBS.set_next_seq_num
           GBS.set_window GBS.set_total_transmissions GBS.set_data_buffer
           GBS.window_size GBS.timeout
           GBS.base GBS.next_seq_num GBS.window GBS.data_buffer
           GBS.max_seq_num GBS.total_transmissions GBS.retransmissions
           GBS.timer_active GBS.max_retransmissions
           GBS.total_retransmission_count];
      try done.
    rewrite Hrest. f_equal. lia.
  - unfold gbn_clear_receiver, GBR.accept, GBR.inc_total_frames_received.
    cbn [GBR.expected_seq_num GBR.max_seq_num GBR.received_frames
         GBR.total_frames_received GBR.frames_discarded].
    f_equal.
    replace (Z.to_nat (n + 1)) with (S (Z.to_nat n)) by lia.
    by rewrite (take_S_r _ _ d).
Qed.

Lemma gbn_clear_send_new_frames (rng lag : nat -> Q) (ws : Z) (tmo : Q)
    (P : list string) (fuel : nat) :
  (forall i, (2 # 10 <= rng i)%Q) ->
  1 <= ws ->
  forall (n : Z) (w : World),
    0 <= n <= Z.of_nat (length P) ->
    (length P - Z.to_nat n <= fuel)%nat ->
    exists w',
      GBS.send_new_frames rng lag fuel
        {| GBS.sender := gbn_clear_sender ws tmo P n;
           GBS.receiver := gbn_clear_receiver P n; GBS.world := w |}
      = {| GBS.sender := gbn_clear_sender ws tmo P (Z.of_nat (length P));
           GBS.receiver := gbn_clear_receiver P (Z.of_nat (length P));
           GBS.world := w' |}.
Proof.
  intros Hclear Hws. induction fuel as [|fuel IH]; intros n w Hn Hfuel.
  - assert (n = Z.of_nat (length P)) as -> by lia.
    cbn [GBS.send_new_frames]. by eexists.
  - cbn [GBS.send_new_frames GBS.sender]. unfold GBS.can_send.
    cbn [gbn_clear_sender GBS.next_seq_num GBS.base GBS.window_size
         GBS.data_buffer].
    destruct (drop (Z.to_nat n) P) as [|d rest] eqn:Hd.
    + assert (n = Z.of_nat (length P)) as ->.
      { apply (f_equal length) in Hd. rewrite length_drop in Hd.
        cbn in Hd. lia. }
      rewrite andb_false_r. unfold gbn_clear_sender.
      rewrite Hd. by eexists.
    + pose proof (drop_cons_inv _ _ _ _ Hd) as [Hlt _].
      replace (n <? n + ws) with true by (symmetry; apply Z.ltb_lt; lia).
      cbn [andb length]. replace (0 <? Z.of_nat (S (length rest))) with true
        by (symmetry; apply Z.ltb_lt; lia).
      destruct (gbn_clear_send_new_frame rng lag ws tmo P n d rest w)
        as [w1 ->]; [done|lia|done|].
      apply IH; lia.
Qed.

Lemma gbn_send_loop_unfold (rng lag : nat -> Q) (fuel : nat) (count : Z)
    (st : GBS.State) :
  GBS.send_loop rng lag (S fuel) count st =
  if GBS.busy (GBS.sender st) && (count <? GBS.max_iterations) then
    let count' := count + 1 in
    let st1 :=
      GBS.send_new_frames rng lag
        (length (GBS.data_buffer (GBS.sender st))) st in
    let st2 :=
      if count' mod 3 =? 0 then GBS.check_timeouts rng lag st1 else st1 in
    if negb (GBS.busy (GBS.sender st2)) then (count', st2)
    else
      GBS.send_loop rng lag fuel count'
        {| GBS.sender := GBS.sender st2; GBS.receiver := GBS.receiver st2;
           GBS.world := time_sleep lag (5 # 100) (GBS.world st2) |}
  else (count, st).
Proof. reflexivity. Qed.

Lemma gbn_clear_busy (ws : Z) (tmo : Q) (P : list string) (n : Z) :
  GBS.busy (gbn_clear_sender ws tmo P n)
  = negb (bool_decide (drop (Z.to_nat n) P = [])).
Proof.
  unfold GBS.busy. cbn [gbn_clear_sender GBS.data_buffer GBS.window].
  rewrite (bool_decide_eq_true_2 (∅ = ∅)) by done.
  cbn [negb]. apply orb_false_r.
Qed.

(** X19: on a channel that loses and corrupts nothing, with a window size
    of at least 1, a Go-Back-N run delivers every payload in order with one
    transmission each and no retransmission, leaves window and buffer
    empty and discards nothing. *)
Theorem go_back_n_clear_channel
    (rng lag : nat -> Q) (ws : Z) (tmo : Q) (payloads : list string) :
  (forall i, (2 # 10 <= rng i)%Q) ->
  1 <= ws ->
  let res := GBS.send_frames rng lag (GBS.start ws tmo payloads) in
  res.1 = true
  /\ GBR.get_received_data (GBS.receiver res.2) = payloads
  /\ GBS.window (GBS.sender res.2) = ∅
  /\ GBS.data_buffer (GBS.sender res.2) = []
  /\ GBS.total_transmissions (GBS.sender res.2)
     = Z.of_nat (length payloads)
  /\ GBS.retransmissions (GBS.sender res.2) = 0
  /\ GBR.frames_discarded (GBS.receiver res.2) = 0.
Proof.
  intros Hclear Hws. cbv zeta. unfold GBS.send_frames. cbn [fst snd].
  split; [done|].
  replace (Z.to_nat GBS.max_iterations) with (S 499) by reflexivity.
  generalize 499%nat. intros fuel.
  assert (Hstart : GBS.start ws tmo payloads
                   = {| GBS.sender := gbn_clear_sender ws tmo payloads 0;
                        GBS.receiver := gbn_clear_receiver payloads 0;
                        GBS.world := World0 |}) by done.
  rewrite Hstart, gbn_send_loop_unfold.
  cbn [GBS.sender]. rewrite gbn_clear_busy.
  assert (Hlen : length (GBS.data_buffer (gbn_clear_sender ws tmo payloads 0))
                 = length payloads) by done.
  rewrite Hlen. clear Hlen. cbn [Z.to_nat drop].
  assert (Hend : forall w,
    let st := {| GBS.sender :=
                   gbn_clear_sender ws tmo payloads
                     (Z.of_nat (length payloads));
                 GBS.receiver :=
                   gbn_clear_receiver payloads (Z.of_nat (length payloads));
                 GBS.world := w |} in
    GBS.busy (GBS.sender st) = false
    /\ GBR.get_received_data (GBS.receiver st) = payloads
       /\ GBS.window (GBS.sender st) = ∅
       /\ GBS.data_buffer (GBS.sender st) = []
       /\ GBS.total_transmissions (GBS.sender st)
          = Z.of_nat (length payloads)
       /\ GBS.retransmissions (GBS.sender st) = 0
       /\ GBR.frames_discarded (GBS.receiver st) = 0).
  { intros w. cbv zeta. cbn [GBS.sender GBS.receiver].
    rewrite gbn_clear_busy.
    unfold GBR.get_received_data.
    cbn [gbn_clear_sender gbn_clear_receiver GBS.data_buffer GBS.window
         GBS.total_transmissions GBS.retransmissions GBR.frames_discarded
         GBR.received_frames].
    rewrite Nat2Z.id, firstn_all, drop_all.
    by rewrite bool_decide_eq_true_2. }
  destruct (decide (payloads = [])) as [->|Hne].
  - rewrite bool_decide_eq_true_2 by done. cbn [negb andb snd].
    destruct (Hend World0) as (_ & H). exact H.
  - rewrite bool_decide_eq_false_2 by done.
    change (0 <? GBS.max_iterations) with true. cbn [negb andb]. cbv zeta.
    change ((0 + 1) mod 3 =? 0) with false. cbv iota.
    destruct (gbn_clear_send_new_frames rng lag ws tmo payloads
                (length payloads) Hclear Hws 0 World0) as [w' ->];
      [lia|lia|].
    destruct (Hend w') as (Hb & H). cbv zeta in Hb, H.
    rewrite Hb. cbn [negb snd]. exact H.
Qed.

Lemma go_back_n_clear_channel_witness :
  let rng := (fun _ : nat => 1 # 2)%Q in
  let lag := (fun _ : nat => 0%Q) in
  let payloads := ["p0"; "p1"; "p2"]%string in
  (forall i : nat, (2 # 10 <= rng i)%Q)
  /\ 1 <= 2
  /\ let res := GBS.send_frames rng lag (GBS.start 2 2 payloads) in
     res.1 = true
     /\ GBR.get_received_data (GBS.receiver res.2) = payloads
     /\ GBS.window (GBS.sender res.2) = ∅
     /\ GBS.data_buffer (GBS.sender res.2) = []
     /\ GBS.total_transmissions (GBS.sender res.2)
        = Z.of_nat (length payloads)
     /\ GBS.retransmissions (GBS.sender res.2) = 0
     /\ GBR.frames_discarded (GBS.receiver res.2) = 0.
Proof.
  intros rng lag payloads.
  assert (Hclear : forall i : nat, (2 # 10 <= rng i)%Q).
  { intros i. unfold rng, Qle. cbn. lia. }
  split; [exact Hclear|]. split; [lia|].
  apply (go_back_n_clear_channel rng lag 2 2 payloads Hclear). lia.
Defined.

(** ** Window sizes of zero and below *)

Lemma slice_to_nil {A} (n : Z) : slice_to n (@nil A) = [].
Proof. unfold slice_to. destruct (0 <=? n); apply take_nil. Qed.

(** X20: a Go-Back-N sender with a window size of zero or below sends
    nothing: [send_frames] still returns [True], the sender is as it was
    after [add_data] (the whole backlog is still in its buffer) and nothing
    is delivered. *)
Theorem go_back_n_closed_window
    (rng lag : nat -> Q) (ws : Z) (tmo : Q) (payloads : list string) :
  ws <= 0 ->
  let res := GBS.send_frames rng lag (GBS.start ws tmo payloads) in
  res.1 = true
  /\ GBS.sender res.2 = GBS.add_data payloads (GBS.init ws tmo)
  /\ GBS.total_transmissions (GBS.sender res.2) = 0
  /\ GBS.data_buffer (GBS.sender res.2) = payloads
  /\ GBR.get_received_data (GBS.receiver res.2) = [].
Proof.
  intros Hws. cbv zeta. split; [done|].
  assert (Hinv : GBS.sender
                   (GBS.send_frames rng lag (GBS.start ws tmo payloads)).2
                 = GBS.add_data payloads (GBS.init ws tmo)
                 /\ GBS.receiver
                      (GBS.send_frames rng lag (GBS.start ws tmo payloads)).2
                    = GBR.init).
  { apply (gbn_run_send_frames rng lag
             (fun st => GBS.sender st = GBS.add_data payloads (GBS.init ws tmo)
                        /\ GBS.receiver st = GBR.init)).
    - intros d rest st [Hs _] _ Hcan. rewrite Hs in Hcan.
      unfold GBS.can_send in Hcan. cbn in Hcan.
      apply andb_true_iff in Hcan as [Hlt _]. apply Z.ltb_lt in Hlt. lia.
    - intros k st [Hs Hr]. unfold GBS.go_back_n_retransmit. rewrite Hs.
      cbn [GBS.add_data GBS.init GBS.set_data_buffer GBS.max_retransmissions
           GBS.total_retransmission_count GBS.window GBS.window_size].
      change (10 <=? 0) with false. cbv iota.
      rewrite dom_empty_L, elements_empty.
      change (merge_sort Z.le []) with (@nil Z).
      rewrite filter_nil, slice_to_nil. cbn [GBS.retransmit_each].
      by split.
    - done.
    - done. }
  destruct Hinv as [-> ->]. by split_and!.
Qed.

Lemma go_back_n_closed_window_witness :
  let rng := (fun _ : nat => 1 # 2)%Q in
  let lag := (fun _ : nat => 0%Q) in
  let payloads := ["p0"; "p1"]%string in
  0 <= 0
  /\ let res := GBS.send_frames rng lag (GBS.start 0 2 payloads) in
     res.1 = true
     /\ GBS.sender res.2 = GBS.add_data payloads (GBS.init 0 2)
     /\ GBS.total_transmissions (GBS.sender res.2) = 0
     /\ GBS.data_buffer (GBS.sender res.2) = payloads
     /\ GBR.get_received_data (GBS.receiver res.2) = [].
Proof.
  intros rng lag payloads. split; [lia|].
  apply (go_back_n_closed_window rng lag 0 2 payloads). lia.
Defined.

Lemma sr_closed_window_passes (rng lag : nat -> Q) (ws_s ws_r : Z) (tmo : Q)
    (P : list string) (n : nat) :
  ws_s <= 0 ->
  forall st,
    SRS.sender st = SRS.add_data P (SRS.init ws_s tmo)
    /\ SRS.receiver st = SRR.init ws_r ->
    SRS.sender (SRS.passes rng lag n st) = SRS.add_data P (SRS.init ws_s tmo)
    /\ SRS.receiver (SRS.passes rng lag n st) = SRR.init ws_r.
Proof.
  intros Hws.
  apply (sr_run_passes rng lag
           (fun st => SRS.sender st = SRS.add_data P (SRS.init ws_s tmo)
                      /\ SRS.receiver st = SRR.init ws_r)).
  - intros d rest st [Hs _] _ Hcan. rewrite Hs in Hcan.
    unfold SRS.can_send in Hcan. cbn in Hcan.
    apply andb_true_iff in Hcan as [Hlt _]. apply Z.ltb_lt in Hlt. lia.
  - intros k e st [Hs _] Hk. rewrite Hs in Hk. cbn in Hk.
    by rewrite lookup_empty in Hk.
  - intros st [Hs Hr]. cbn [SRS.sender SRS.receiver]. split; [|done].
    rewrite Hs. unfold SRS.slide_window.
    cbn [SRS.add_data SRS.init SRS.set_data_buffer SRS.ack_received].
    by rewrite size_empty.
  - done.
Qed.

(** X13: a Selective Repeat sender with a window size of zero or below
    and a non-empty backlog never sends anything: [send_frames] does not
    return, the sender stays as it was after [add_data] and nothing is
    delivered. *)
Theorem selective_repeat_closed_window
    (rng lag : nat -> Q) (ws_s ws_r : Z) (tmo : Q) (payloads : list string)
    (fuel : nat) :
  ws_s <= 0 ->
  payloads <> [] ->
  SRS.send_frames rng lag fuel (SRS.start ws_s ws_r tmo payloads) = None
  /\ SRS.sender (SRS.passes rng lag fuel (SRS.start ws_s ws_r tmo payloads))
     = SRS.add_data payloads (SRS.init ws_s tmo)
  /\ SRR.get_received_data
       (SRS.receiver
          (SRS.passes rng lag fuel (SRS.start ws_s ws_r tmo payloads)))
     = [].
Proof.
  intros Hws Hne.
  destruct (sr_closed_window_passes rng lag ws_s ws_r tmo payloads fuel Hws
              (SRS.start ws_s ws_r tmo payloads)) as [Hs Hr]; [done|].
  split_and!; [|done|by rewrite Hr].
  assert (Hgen : forall n st,
    SRS.sender st = SRS.add_data payloads (SRS.init ws_s tmo)
    /\ SRS.receiver st = SRR.init ws_r ->
    SRS.send_frames rng lag n st = None).
  { assert (Hbusy : SRS.busy (SRS.add_data payloads (SRS.init ws_s tmo))
                    = true).
    { unfold SRS.busy. cbn. by rewrite bool_decide_eq_false_2. }
    induction n as [|n IH]; intros st Hst.
    - cbn [SRS.send_frames]. destruct Hst as [-> _]. by rewrite Hbusy.
    - rewrite sr_send_frames_unfold.
      pose proof (sr_closed_window_passes rng lag ws_s ws_r tmo payloads
                    1 Hws st Hst) as H1.
      cbn [SRS.passes] in H1.
      destruct Hst as [Hs0 Hr0]. rewrite Hs0, Hbusy in *.
      destruct (SRS.pass rng lag st) as [brk st'] eqn:Hpass.
      assert (Hbrk : brk = negb (SRS.busy (SRS.sender st'))).
      { unfold SRS.pass in Hpass. by injection Hpass as <- <-. }
      destruct brk.
      + destruct H1 as [Hs1 _]. rewrite Hs1, Hbusy in Hbrk. done.
      + by apply IH. }
  by apply Hgen.
Qed.

Lemma selective_repeat_closed_window_witness :
  let rng := (fun _ : nat => 1 # 2)%Q in
  let lag := (fun _ : nat => 0%Q) in
  let payloads := ["p0"; "p1"]%string in
  0 <= 0
  /\ payloads <> []
  /\ SRS.send_frames rng lag 7 (SRS.start 0 4 2 payloads) = None
  /\ SRS.sender (SRS.passes rng lag 7 (SRS.start 0 4 2 payloads))
     = SRS.add_data payloads (SRS.init 0 2)
  /\ SRR.get_received_data
       (SRS.receiver (SRS.passes rng lag 7 (SRS.start 0 4 2 payloads)))
     = [].
Proof.
  intros rng lag payloads. split; [lia|]. split; [discriminate|].
  apply (selective_repeat_closed_window rng lag 0 4 2 payloads 7);
    [lia|discriminate].
Defined.

(** ** Selective Repeat on a channel that loses and corrupts nothing *)

Lemma sr_is_in_window_base (r : SRR.t) :
  SRR.max_seq_num r = 8 ->
  SRR.is_in_window r (SRR.base r mod 8) = true.
Proof.
  intros Hm. unfold SRR.is_in_window. rewrite Hm.
  rewrite Z.leb_refl. by destruct (_ <=? _).
Qed.

(** The receiver after the first [n] payloads of [P] went through. *)
Definition sr_clear_receiver (ws : Z) (P : list string) (n : Z) : SRR.t :=
  {| SRR.window_size := ws; SRR.base := n; SRR.max_seq_num := 8;
     SRR.buffer := ∅; SRR.received_frames := take (Z.to_nat n) P;
     SRR.total_frames_received := n; SRR.frames_discarded := 0;
     SRR.duplicate_frames := 0 |}.

(** The sender with base [b] after the first [n] payloads were sent and
    acknowledged, [acks] being the acknowledgments not yet slid over. *)
Definition sr_clear_sender (ws : Z) (tmo : Q) (P : list string) (b n : Z)
    (acks : gset Z) : SRS.t :=
  {| SRS.window_size := ws; SRS.timeout := tmo; SRS.base := b;
     SRS.next_seq_num := n; SRS.window := ∅; SRS.ack_received := acks;
     SRS.data_buffer := drop (Z.to_nat n) P; SRS.max_seq_num := 8;
     SRS.total_transmissions := n; SRS.retransmissions := 0;
     SRS.individual_timers := [] |}.

Lemma sr_receive_frame_clear (rng : nat -> Q) (ws : Z) (P : list string)
    (n : Z) (d : string) (w : World) :
  (forall i, (2 # 10 <= rng i)%Q) ->
  0 <= n ->
  P !! Z.to_nat n = Some d ->
  SRR.receive_frame rng (Frame.make (n mod 8) DATA d)
    (sr_clear_receiver ws P n) w
  = (Some [n mod 8], sr_clear_receiver ws P (n + 1),
     {| drawn := S (S (S (drawn w))); slept := slept w; clock := clock w |}).
Proof.
  intros Hclear Hn HPn.
  unfold SRR.receive_frame, Frame.is_corrupted, SRR.send_ack, random_random.
  cbn [drawn slept clock].
  rewrite (proj1 (proj2 (clear_draw _ (Hclear _)))).
  rewrite !(proj2 (proj2 (clear_draw _ (Hclear _)))).
  cbn [Frame.make Frame.seq_num Frame.data negb].
  change (SRR.is_in_window
            (SRR.inc_total_frames_received (sr_clear_receiver ws P n))
            (n mod 8))
    with (SRR.is_in_window (sr_clear_receiver ws P n)
            (SRR.base (sr_clear_receiver ws P n) mod 8)).
  rewrite sr_is_in_window_base by done.
  change (SRR.buffer
            (SRR.inc_total_frames_received (sr_clear_receiver ws P n)))
    with (∅ : gmap Z string).
  rewrite lookup_empty, insert_empty.
  unfold SRR.deliver_frames.
  cbn [SRR.set_buffer SRR.buffer].
  rewrite map_size_singleton.
  cbn [SRR.deliver_loop SRR.set_buffer SRR.inc_total_frames_received
       sr_clear_receiver SRR.buffer SRR.base SRR.max_seq_num].
  rewrite lookup_singleton_eq.
  unfold SRR.deliver_one, sr_clear_receiver.
  cbn [SRR.set_buffer SRR.inc_total_frames_received
       SRR.window_size SRR.base SRR.max_seq_num SRR.buffer
       SRR.received_frames SRR.total_frames_received SRR.frames_discarded
       SRR.duplicate_frames app].
  rewrite delete_singleton_eq.
  replace (Z.to_nat (n + 1)) with (S (Z.to_nat n)) by lia.
  by rewrite (take_S_r _ _ d).
Qed.

Lemma sr_process_ack_single (k : Z) (e : WinEntry) (t : Q) (s : SRS.t) :
  SRS.window s = {[k := e]} ->
  SRS.individual_timers s = [(k, t)] ->
  SRS.max_seq_num s = 8 ->
  SRS.process_ack (k mod 8) s
  = SRS.set_individual_timers []
      (SRS.set_window ∅
         (SRS.set_ack_received ({[k mod 8]} ∪ SRS.ack_received s) s)).
Proof.
  intros Hw Ht Hm. unfold SRS.process_ack. cbv zeta.
  unfold SRS.seq_nums_to_remove.
  cbn [SRS.set_ack_received SRS.window SRS.max_seq_num].
  rewrite Hw, Hm, dom_singleton_L, elements_singleton.
  rewrite filter_cons_True by done. rewrite filter_nil.
  cbn [foldl]. unfold SRS.remove_frame.
  cbn [SRS.set_ack_received SRS.window SRS.individual_timers].
  rewrite Hw, Ht, delete_singleton_eq.
  cbn [ODict.del]. by rewrite Z.eqb_refl.
Qed.

Lemma sr_sender_ext (s s' : SRS.t) :
  SRS.window_size s = SRS.window_size s' ->
  SRS.timeout s = SRS.timeout s' ->
  SRS.base s = SRS.base s' ->
  SRS.next_seq_num s = SRS.next_seq_num s' ->
  SRS.window s = SRS.window s' ->
  SRS.ack_received s = SRS.ack_received s' ->
  SRS.data_buffer s = SRS.data_buffer s' ->
  SRS.max_seq_num s = SRS.max_seq_num s' ->
  SRS.total_transmissions s = SRS.total_transmissions s' ->
  SRS.retransmissions s = SRS.retransmissions s' ->
  SRS.individual_timers s = SRS.individual_timers s' ->
  s = s'.
Proof. destruct s, s'; cbn; intros; by subst. Qed.

Lemma sr_clear_send_new_frame (rng lag : nat -> Q) (ws_s ws_r : Z) (tmo : Q)
    (P : list string) (b n : Z) (acks : gset Z) (d : string)
    (rest : list string) (w : World) :
  (forall i, (2 # 10 <= rng i)%Q) ->
  0 <= n ->
  drop (Z.to_nat n) P = d :: rest ->
  exists w',
    SRS.send_new_frame rng lag d rest
      {| SRS.sender := sr_clear_sender ws_s tmo P b n acks;
         SRS.receiver := sr_clear_receiver ws_r P n; SRS.world := w |}
    = {| SRS.sender :=
           sr_clear_sender ws_s tmo P b (n + 1) ({[n mod 8]} ∪ acks);
         SRS.receiver := sr_clear_receiver ws_r P (n + 1);
         SRS.world := w' |}.
Proof.
  intros Hclear Hn Hd.
  pose proof (drop_cons_inv _ _ _ _ Hd) as [Hlt Hrest].
  assert (HPn : P !! Z.to_nat n = Some d).
  { rewrite <- (Nat.add_0_r (Z.to_nat n)), <- lookup_drop, Hd. done. }
  unfold SRS.send_new_frame.
  cbn [SRS.sender SRS.receiver SRS.world sr_clear_sender
       SRS.set_data_buffer SRS.set_window SRS.set_total_transmissions
       SRS.set_individual_timers SRS.individual_timers
       SRS.next_seq_num SRS.max_seq_num SRS.window SRS.total_transmissions].
  rewrite sr_receive_frame_clear by done.
  cbn [SRS.process_acks foldl].
  eexists. f_equal.
  erewrite (sr_process_ack_single n); [|apply insert_empty|done|done].
  apply sr_sender_ext;
    cbn [sr_clear_sender SRS.set_individual_timers SRS.set_window
         SRS.set_ack_received SRS.set_next_seq_num
         SRS.set_total_transmissions SRS.set_data_buffer
         SRS.window_size SRS.timeout SRS.base SRS.next_seq_num SRS.window
         SRS.ack_received SRS.data_buffer SRS.max_seq_num
         SRS.total_transmissions SRS.retransmissions SRS.individual_timers];
    try done.
  rewrite Hrest. f_equal. lia.
Qed.

(** [acks] holds the modular numbers of the instances in [[b, n)]. *)
Definition residues (b n : Z) (acks : gset Z) : Prop :=
  forall a, a ∈ acks <-> exists k, b <= k < n /\ k mod 8 = a.

Lemma sr_clear_send_new_frames (rng lag : nat -> Q) (ws_s ws_r : Z)
    (tmo : Q) (P : list string) (b : Z) (fuel : nat) :
  (forall i, (2 # 10 <= rng i)%Q) ->
  forall (n : Z) (acks : gset Z) (w : World),
    0 <= b <= n ->
    n <= Z.of_nat (length P) ->
    residues b n acks ->
    (length P - Z.to_nat n <= fuel)%nat ->
    exists n' acks' w',
      SRS.send_new_frames rng lag fuel
        {| SRS.sender := sr_clear_sender ws_s tmo P b n acks;
           SRS.receiver := sr_clear_receiver ws_r P n; SRS.world := w |}
      = {| SRS.sender := sr_clear_sender ws_s tmo P b n' acks';
           SRS.receiver := sr_clear_receiver ws_r P n'; SRS.world := w' |}
      /\ n <= n' <= Z.of_nat (length P)
      /\ residues b n' acks'
      /\ n' <= Z.max n (b + ws_s)
      /\ (n' < Z.of_nat (length P) -> b + ws_s <= n').
Proof.
  intros Hclear. induction fuel as [|fuel IH];
    intros n acks w Hb Hn Hres Hfuel.
  - exists n, acks, w. cbn [SRS.send_new_frames]. split_and!; try done; lia.
  - cbn [SRS.send_new_frames SRS.sender]. unfold SRS.can_send.
    cbn [sr_clear_sender SRS.next_seq_num SRS.base SRS.window_size
         SRS.data_buffer].
    destruct (Z.ltb_spec n (b + ws_s)) as [Hlt|Hge]; cbn [andb];
      [|exists n, acks, w; split_and!; try done; lia].
    destruct (drop (Z.to_nat n) P) as [|d rest] eqn:Hd.
    + assert (n = Z.of_nat (length P)) as ->.
      { apply (f_equal length) in Hd. rewrite length_drop in Hd.
        cbn in Hd. lia. }
      cbn [length]. change (0 <? Z.of_nat 0) with false. cbv iota.
      exists (Z.of_nat (length P)), acks, w. split_and!; try done; lia.
    + pose proof (drop_cons_inv _ _ _ _ Hd) as [Hlen _].
      replace (0 <? Z.of_nat (length (d :: rest))) with true
        by (symmetry; apply Z.ltb_lt; cbn [length]; lia).
      destruct (sr_clear_send_new_frame rng lag ws_s ws_r tmo P b n acks d
                  rest w) as [w1 ->]; [done|lia|done|].
      destruct (IH (n + 1) ({[n mod 8]} ∪ acks) w1)
        as (n' & acks' & w' & Heq & Hn' & Hres' & Hmax & Hstop);
        [lia|lia| |lia|].
      { intros a. rewrite elem_of_union, elem_of_singleton, (Hres a). split.
        - intros [->|(k & Hk & Hmod)]; [exists n|exists k];
            (split; [lia|done]).
        - intros (k & Hk & Hmod).
          destruct (decide (k = n)) as [->|Hne]; [by left|].
          right. exists k. split; [lia|done]. }
      exists n', acks', w'. split_and!; try done; lia.
Qed.

Lemma sr_clear_slide_loop (ws : Z) (tmo : Q) (P : list string) (n : Z)
    (fuel : nat) :
  forall (b : Z) (acks : gset Z),
    b <= n <= b + 8 ->
    residues b n acks ->
    exists b' acks',
      SRS.slide_loop fuel (sr_clear_sender ws tmo P b n acks)
      = sr_clear_sender ws tmo P b' n acks'
      /\ b <= b' <= n
      /\ residues b' n acks'.
Proof.
  induction fuel as [|fuel IH]; intros b acks Hb Hres.
  - exists b, acks. cbn [SRS.slide_loop]. split_and!; try done; lia.
  - cbn [SRS.slide_loop].
    cbn [sr_clear_sender SRS.base SRS.max_seq_num SRS.ack_received].
    destruct (decide (b mod 8 ∈ acks)) as [Hin|Hnin];
      [|exists b, acks; split_and!; try done; lia].
    assert (Hlt : b < n).
    { apply Hres in Hin as (k & Hk & _). lia. }
    change (SRS.set_base (b + 1)
              (SRS.set_ack_received (acks ∖ {[b mod 8]})
                 (sr_clear_sender ws tmo P b n acks)))
      with (sr_clear_sender ws tmo P (b + 1) n (acks ∖ {[b mod 8]})).
    destruct (IH (b + 1) (acks ∖ {[b mod 8]}))
      as (b' & acks' & Heq & Hb' & Hres'); [lia| |].
    { intros a. rewrite elem_of_difference, elem_of_singleton, (Hres a).
      split.
      - intros [(k & Hk & Hmod) Hne]. exists k. split; [|done].
        assert (k <> b) by congruence. lia.
      - intros (k & Hk & Hmod). split; [exists k; split; [lia|done]|].
        intros ->. clear -Hk Hb Hmod. Z.div_mod_to_equations. lia. }
    exists b', acks'. split_and!; try done; lia.
Qed.

Lemma sr_clear_slide_window (ws : Z) (tmo : Q) (P : list string)
    (b n : Z) (acks : gset Z) :
  b <= n <= b + 8 ->
  residues b n acks ->
  SRS.slide_window (sr_clear_sender ws tmo P b n acks)
  = sr_clear_sender ws tmo P n n ∅.
Proof.
  intros Hb Hres. unfold SRS.slide_window.
  pose proof (sr_slide_loop_exit
                (size (SRS.ack_received (sr_clear_sender ws tmo P b n acks)))
                (sr_clear_sender ws tmo P b n acks) (le_n _)) as Hexit.
  destruct (sr_clear_slide_loop ws tmo P n
              (size (SRS.ack_received (sr_clear_sender ws tmo P b n acks)))
              b acks Hb Hres) as (b' & acks' & Heq & Hb' & Hres').
  rewrite Heq in Hexit |- *.
  cbn [sr_clear_sender SRS.base SRS.max_seq_num SRS.ack_received] in Hexit.
  assert (b' = n) as ->.
  { destruct (decide (b' = n)) as [|Hne]; [done|].
    exfalso. apply Hexit, Hres'. exists b'. split; [lia|done]. }
  assert (acks' = ∅) as ->; [|done].
  apply elem_of_equiv_empty_L. intros a Ha.
  apply Hres' in Ha as (k & Hk & _). lia.
Qed.

Lemma sr_clear_busy (ws : Z) (tmo : Q) (P : list string) (b n : Z)
    (acks : gset Z) :
  SRS.busy (sr_clear_sender ws tmo P b n acks)
  = negb (bool_decide (drop (Z.to_nat n) P = [])).
Proof.
  unfold SRS.busy. cbn [sr_clear_sender SRS.data_buffer SRS.window].
  rewrite (bool_decide_eq_true_2 (∅ = ∅)) by done.
  cbn [negb]. apply orb_false_r.
Qed.

Lemma sr_clear_pass (rng lag : nat -> Q) (ws_s ws_r : Z) (tmo : Q)
    (P : list string) (n : Z) (w : World) :
  (forall i, (2 # 10 <= rng i)%Q) ->
  1 <= ws_s <= 8 ->
  0 <= n <= Z.of_nat (length P) ->
  exists n' w',
    SRS.pass rng lag
      {| SRS.sender := sr_clear_sender ws_s tmo P n n ∅;
         SRS.receiver := sr_clear_receiver ws_r P n; SRS.world := w |}
    = (bool_decide (drop (Z.to_nat n') P = []),
       {| SRS.sender := sr_clear_sender ws_s tmo P n' n' ∅;
          SRS.receiver := sr_clear_receiver ws_r P n'; SRS.world := w' |})
    /\ n <= n' <= Z.of_nat (length P)
    /\ (n < Z.of_nat (length P) -> n < n').
Proof.
  intros Hclear Hws Hn. unfold SRS.pass.
  destruct (sr_clear_send_new_frames rng lag ws_s ws_r tmo P n
              (length (SRS.data_buffer
                         (SRS.sender
                            {| SRS.sender := sr_clear_sender ws_s tmo P n n ∅;
                               SRS.receiver := sr_clear_receiver ws_r P n;
                               SRS.world := w |})))
              Hclear n ∅ w)
    as (n' & acks' & w' & -> & Hn' & Hres' & Hmax & Hstop).
  { lia. } { lia. }
  { intros a. split; [set_solver|]. intros (k & Hk & _). lia. }
  { cbn [SRS.sender sr_clear_sender SRS.data_buffer].
    rewrite length_drop. lia. }
  exists n', w'.
  assert (Hcheck : forall st,
    SRS.individual_timers (SRS.sender st) = [] ->
    SRS.check_individual_timeouts rng lag st = st).
  { intros st Ht. unfold SRS.check_individual_timeouts. by rewrite Ht. }
  rewrite Hcheck by done.
  cbn [SRS.sender SRS.receiver SRS.world].
  rewrite sr_clear_slide_window by (done || lia).
  rewrite sr_clear_busy, negb_involutive.
  split_and!; try done; lia.
Qed.

Lemma sr_clear_send_frames (rng lag : nat -> Q) (ws_s ws_r : Z) (tmo : Q)
    (P : list string) (fuel : nat) :
  (forall i, (2 # 10 <= rng i)%Q) ->
  1 <= ws_s <= 8 ->
  forall (n : Z) (w : World),
    0 <= n <= Z.of_nat (length P) ->
    (length P - Z.to_nat n <= fuel)%nat ->
    exists w',
      SRS.send_frames rng lag fuel
        {| SRS.sender := sr_clear_sender ws_s tmo P n n ∅;
           SRS.receiver := sr_clear_receiver ws_r P n; SRS.world := w |}
      = Some (true,
              {| SRS.sender :=
                   sr_clear_sender ws_s tmo P (Z.of_nat (length P))
                     (Z.of_nat (length P)) ∅;
                 SRS.receiver :=
                   sr_clear_receiver ws_r P (Z.of_nat (length P));
                 SRS.world := w' |}).
Proof.
  intros Hclear Hws.
  assert (Hdrop : forall n, 0 <= n <= Z.of_nat (length P) ->
            drop (Z.to_nat n) P = [] -> n = Z.of_nat (length P)).
  { intros n Hn Hd. apply (f_equal length) in Hd.
    rewrite length_drop in Hd. cbn in Hd. lia. }
  induction fuel as [|fuel IH]; intros n w Hn Hfuel.
  - assert (n = Z.of_nat (length P)) as -> by lia.
    cbn [SRS.send_frames SRS.sender]. rewrite sr_clear_busy.
    rewrite Nat2Z.id, drop_all, bool_decide_eq_true_2 by done.
    cbn [negb]. by exists w.
  - rewrite sr_send_frames_unfold. cbn [SRS.sender].
    rewrite sr_clear_busy.
    destruct (decide (drop (Z.to_nat n) P = [])) as [Hd|Hd].
    + rewrite bool_decide_eq_true_2 by done. cbn [negb].
      rewrite (Hdrop n Hn Hd). by exists w.
    + rewrite bool_decide_eq_false_2 by done. cbn [negb].
      assert (Hlt : n < Z.of_nat (length P)).
      { destruct (decide (n < Z.of_nat (length P))) as [|Hge]; [done|].
        exfalso. apply Hd, drop_ge. lia. }
      destruct (sr_clear_pass rng lag ws_s ws_r tmo P n w Hclear Hws Hn)
        as (n' & w' & -> & Hn' & Hprog).
      destruct (decide (drop (Z.to_nat n') P = [])) as [Hd'|Hd'].
      * rewrite bool_decide_eq_true_2 by done.
        rewrite (Hdrop n' ltac:(lia) Hd'). by exists w'.
      * rewrite bool_decide_eq_false_2 by done.
        apply (IH n' (time_sleep lag (1 # 10) w')); [lia|].
        specialize (Hprog Hlt). lia.
Qed.

(** X12: on a channel that loses and corrupts nothing (every random draw
    is at least 0.2), with a sender window size from 1 to 8 and any
    receiver window size, timeout and clock, [send_frames] returns [True]
    within as many passes as there are payloads; every payload is
    delivered in order, each is transmitted once, nothing is
    retransmitted, discarded or received twice. *)
Theorem selective_repeat_clear_channel
    (rng lag : nat -> Q) (ws_s ws_r : Z) (tmo : Q) (payloads : list string) :
  (forall i, (2 # 10 <= rng i)%Q) ->
  1 <= ws_s <= 8 ->
  exists st,
    SRS.send_frames rng lag (length payloads)
      (SRS.start ws_s ws_r tmo payloads)
    = Some (true, st)
    /\ SRR.get_received_data (SRS.receiver st) = payloads
    /\ SRS.window (SRS.sender st) = ∅
    /\ SRS.data_buffer (SRS.sender st) = []
    /\ SRS.total_transmissions (SRS.sender st) = Z.of_nat (length payloads)
    /\ SRS.retransmissions (SRS.sender st) = 0
    /\ SRR.frames_discarded (SRS.receiver st) = 0
    /\ SRR.duplicate_frames (SRS.receiver st) = 0.
Proof.
  intros Hclear Hws.
  destruct (sr_clear_send_frames rng lag ws_s ws_r tmo payloads
              (length payloads) Hclear Hws 0 World0) as [w' Heq];
    [lia|lia|].
  eexists. split; [exact Heq|].
  unfold SRR.get_received_data.
  cbn [SRS.sender SRS.receiver sr_clear_sender sr_clear_receiver
       SRS.window SRS.data_buffer SRS.total_transmissions
       SRS.retransmissions SRR.received_frames SRR.frames_discarded
       SRR.duplicate_frames].
  rewrite Nat2Z.id, firstn_all, drop_all. by split_and!.
Qed.

Lemma selective_repeat_clear_channel_witness :
  let rng := (fun _ : nat => 1 # 2)%Q in
  let lag := (fun _ : nat => 0%Q) in
  let payloads := ["p0"; "p1"; "p2"]%string in
  (forall i : nat, (2 # 10 <= rng i)%Q)
  /\ 1 <= 2 <= 8
  /\ exists st,
       SRS.send_frames rng lag (length payloads) (SRS.start 2 7 2 payloads)
       = Some (true, st)
       /\ SRR.get_received_data (SRS.receiver st) = payloads
       /\ SRS.window (SRS.sender st) = ∅
       /\ SRS.data_buffer (SRS.sender st) = []
       /\ SRS.total_transmissions (SRS.sender st)
          = Z.of_nat (length payloads)
       /\ SRS.retransmissions (SRS.sender st) = 0
       /\ SRR.frames_discarded (SRS.receiver st) = 0
       /\ SRR.duplicate_frames (SRS.receiver st) = 0.
Proof.
  intros rng lag payloads.
  assert (Hclear : forall i : nat, (2 # 10 <= rng i)%Q).
  { intros i. unfold rng, Qle. cbn. lia. }
  split; [exact Hclear|]. split; [lia|].
  apply (selective_repeat_clear_channel rng lag 2 7 2 payloads Hclear). lia.
Defined.

(** ** Selective Repeat: the scan of the timers *)

Lemma sr_selective_retransmit_counts (rng lag : nat -> Q) (k : Z)
    (e : WinEntry) (st : SRS.State) :
  SRS.window (SRS.sender st) !! k = Some e ->
  let st' := SRS.selective_retransmit rng lag k st in
  SRS.retransmissions (SRS.sender st')
  = SRS.retransmissions (SRS.sender st) + 1
  /\ SRS.total_transmissions (SRS.sender st')
     = SRS.total_transmissions (SRS.sender st) + 1
  /\ SRR.total_frames_received (SRS.receiver st')
     = SRR.total_frames_received (SRS.receiver st) + 1
  /\ SRS.next_seq_num (SRS.sender st') = SRS.next_seq_num (SRS.sender st)
  /\ SRS.base (SRS.sender st') = SRS.base (SRS.sender st)
  /\ SRS.data_buffer (SRS.sender st') = SRS.data_buffer (SRS.sender st).
Proof.
  intros Hk. cbv zeta. unfold SRS.selective_retransmit. rewrite Hk.
  pose proof (sr_receive_frame_count rng (we_frame e) (SRS.receiver st)
                (SRS.world st)) as Hc.
  destruct (SRR.receive_frame rng _ _ _) as [[acks r'] w'].
  cbn [fst snd] in Hc.
  match goal with
  | |- context [SRS.process_acks acks ?s2] =>
      destruct (sr_process_acks_counters acks s2)
        as (G1&G2&G3&G4&G5&G6&G7&G8)
  end.
  cbn [SRS.sender SRS.receiver]. rewrite G3, G4, G5, G7, G8.
  by split_and!.
Qed.

(** X6: one call of [check_individual_timeouts] retransmits at most one
    frame per timer that expired at the time of the call (the timers older
    than the timeout), counts every retransmission in both counters and
    hands each to the receiver once, sends no new frame, and does nothing
    at all when no timer has expired. *)
Theorem check_individual_timeouts_bounded
    (rng lag : nat -> Q) (st : SRS.State) :
  let expired :=
    filter (λ kt : Z * Q,
              Qlt_bool (SRS.timeout (SRS.sender st))
                (time_time (SRS.world st) - kt.2) = true)
      (SRS.individual_timers (SRS.sender st)) in
  let st' := SRS.check_individual_timeouts rng lag st in
  0 <= SRS.retransmissions (SRS.sender st')
       - SRS.retransmissions (SRS.sender st)
    <= Z.of_nat (length expired)
  /\ SRS.total_transmissions (SRS.sender st')
     - SRS.total_transmissions (SRS.sender st)
     = SRS.retransmissions (SRS.sender st')
       - SRS.retransmissions (SRS.sender st)
  /\ SRR.total_frames_received (SRS.receiver st')
     - SRR.total_frames_received (SRS.receiver st)
     = SRS.retransmissions (SRS.sender st')
       - SRS.retransmissions (SRS.sender st)
  /\ SRS.next_seq_num (SRS.sender st') = SRS.next_seq_num (SRS.sender st)
  /\ SRS.base (SRS.sender st') = SRS.base (SRS.sender st)
  /\ SRS.data_buffer (SRS.sender st') = SRS.data_buffer (SRS.sender st)
  /\ (expired = [] -> st' = st).
Proof.
  cbv zeta. unfold SRS.check_individual_timeouts.
  generalize (filter
       (λ kt : Z * Q,
          Qlt_bool (SRS.timeout (SRS.sender st))
            (time_time (SRS.world st) - kt.2) = true)
       (SRS.individual_timers (SRS.sender st))).
  intros l. revert st.
  induction l as [|[k t] l IH]; intros st; cbn [map foldl fst length].
  - split_and!; try done; lia.
  - destruct (SRS.window (SRS.sender st) !! k) as [e|] eqn:Hk.
    + destruct (sr_selective_retransmit_counts rng lag k e st Hk)
        as (H1 & H2 & H3 & H4 & H5 & H6).
      cbv zeta in H1, H2, H3, H4, H5, H6.
      destruct (IH (SRS.selective_retransmit rng lag k st))
        as (G1 & G2 & G3 & G4 & G5 & G6 & _).
      split_and!; try done; try lia; congruence.
    + destruct (IH st) as (G1 & G2 & G3 & G4 & G5 & G6 & _).
      split_and!; try done; try lia.
Qed.

(** ** The comparison of the three protocols *)

Module Demo := ArqProtocolsDemo.

Lemma sw_send_each_counts (rng lag : nat -> Q) (payloads : list string) :
  forall (count : Z) (st : SWS.State),
    sw_inv st ->
    let res := Demo.send_each rng lag payloads count st in
    sw_inv res.2
    /\ res.1 - count
       = Z.of_nat (length (SWR.received_frames (SWS.receiver res.2)))
         - Z.of_nat (length (SWR.received_frames (SWS.receiver st)))
    /\ 0 <= res.1 - count <= Z.of_nat (length payloads)
    /\ Z.of_nat (length payloads)
       <= SWS.total_transmissions (SWS.sender res.2)
          - SWS.total_transmissions (SWS.sender st)
       <= 5 * Z.of_nat (length payloads).
Proof.
  induction payloads as [|d rest IH]; intros count st Hinv;
    cbn [Demo.send_each].
  - cbn [fst snd length]. split_and!; try done; lia.
  - destruct (sw_send_frame_step rng lag d st Hinv) as (Hinv' & Htx & Hrx).
    destruct (SWS.send_frame rng lag d st) as [ok st1]. cbn [fst snd] in *.
    match goal with
    | |- context [Demo.send_each rng lag rest ?c ?st2] =>
        destruct (IH c st2 Hinv') as (G1 & G2 & G3 & G4)
    end.
    cbn [SWS.sender SWS.receiver] in G2, G4. cbv zeta.
    destruct Hrx as [[-> Hr]|[-> Hr]]; rewrite Hr in G2;
      rewrite ?length_app in G2; cbn [length] in G2 |- *;
      split_and!; try done; lia.
Qed.

Lemma gbn_send_frames_sublist (rng lag : nat -> Q) (P : list string)
    (ws : Z) (tmo : Q) (w : World) :
  ws <= 7 ->
  GBR.received_frames
    (GBS.receiver
       (GBS.send_frames rng lag
          {| GBS.sender := GBS.add_data P (GBS.init ws tmo);
             GBS.receiver := GBR.init; GBS.world := w |}).2)
  `sublist_of` P.
Proof.
  intros Hws.
  destruct (gbn_state_inv_send_loop rng lag P ws
              (Z.to_nat GBS.max_iterations) Hws 0
              {| GBS.sender := GBS.add_data P (GBS.init ws tmo);
                 GBS.receiver := GBR.init; GBS.world := w |}
              (gbn_state_inv_start ws tmo P))
    as [(_ & _ & _ & _ & _ & _ & L & _ & _ & _ & Hsub) _].
  unfold GBS.send_frames. cbn [snd].
  etrans; [exact Hsub|]. apply sublist_take.
Qed.



(** ** Go-Back-N: the sender's window *)

(** X21: at the end of a Go-Back-N run with a window size of at most 7,
    [0 <= base <= next_seq_num <= base + max 0 window_size]; every key of
    the window lies in [[base, next_seq_num)] and its entry holds the
    frame made for the payload of that position, numbered modulo 8; the
    data buffer holds the payloads not sent yet. *)
Theorem go_back_n_window_invariant
    (rng lag : nat -> Q) (ws : Z) (tmo : Q) (payloads : list string) :
  ws <= 7 ->
  let s :=
    GBS.sender (GBS.send_frames rng lag (GBS.start ws tmo payloads)).2 in
  0 <= GBS.base s <= GBS.next_seq_num s
  /\ GBS.next_seq_num s <= GBS.base s + Z.max 0 ws
  /\ (forall k e, GBS.window s !! k = Some e ->
        GBS.base s <= k < GBS.next_seq_num s
        /\ exists d, payloads !! Z.to_nat k = Some d
                     /\ we_frame e = Frame.make (k mod 8) DATA d)
  /\ GBS.data_buffer s = drop (Z.to_nat (GBS.next_seq_num s)) payloads.
Proof.
  intros Hws. cbv zeta.
  destruct (gbn_state_inv_send_loop rng lag payloads ws
              (Z.to_nat GBS.max_iterations) Hws 0
              (GBS.start ws tmo payloads)
              (gbn_state_inv_start ws tmo payloads))
    as [(_ & _ & _ & HB & HS & HK & _) Hdata].
  unfold GBS.send_frames. cbn [snd].
  split; [lia|]. split; [lia|]. split; [exact HK|exact Hdata].
Qed.

Lemma go_back_n_window_invariant_witness :
  let rng := (fun i : nat => if (i =? 3)%nat then 0 else 1 # 2)%Q in
  let lag := (fun _ : nat => 0%Q) in
  let payloads := ["p0"; "p1"; "p2"; "p3"; "p4"; "p5"]%string in
  4 <= 7
  /\ let s :=
       GBS.sender (GBS.send_frames rng lag (GBS.start 4 2 payloads)).2 in
     0 <= GBS.base s <= GBS.next_seq_num s
     /\ GBS.next_seq_num s <= GBS.base s + Z.max 0 4
     /\ (forall k e, GBS.window s !! k = Some e ->
           GBS.base s <= k < GBS.next_seq_num s
           /\ exists d, payloads !! Z.to_nat k = Some d
                        /\ we_frame e = Frame.make (k mod 8) DATA d)
     /\ GBS.data_buffer s = drop (Z.to_nat (GBS.next_seq_num s)) payloads.
Proof.
  intros rng lag payloads. split; [lia|].
  apply (go_back_n_window_invariant rng lag 4 2 payloads). lia.
Defined.
